(** * AnkiBlur: the overlay addon and the release-check script

    A shallow embedding of the two source files of the repository

    - [patches/anki_webview_addon/ankiblur_background_theme/__init__.py]
      (module [Addon] below), and
    - [scripts/check_anki_updates.py] (module [ReleaseCheck] below),

    over a small model of the Python values and library calls they use
    (module [Py]) and of the document the injected scripts run against
    (module [Dom]).  The modules [Spec] and [RunSpec] hold the vocabulary
    of the statements; [ConfigFacts], [OverlayFacts] and [RunFacts] hold
    the properties of the configuration store, of the overlay renderer
    and of the release-check script, numbered C1 to C10 as in the list of
    claims, over the lemmas on texts of [TextFacts]. *)

From Stdlib Require Import ZArith List Bool Ascii String Lia.
From Stdlib Require Import Floats.SpecFloat.
Import ListNotations.

#[local] Set Warnings "-register-all".
#[local] Open Scope string_scope.
#[local] Open Scope Z_scope.

(* ===================================================================== *)
(** * Python values, exceptions and string functions *)
(* ===================================================================== *)

Module Py.

(** ** Exceptions

    The subclasses of [Exception] that the modelled code can meet.  The
    asynchronous [KeyboardInterrupt] and [SystemExit], which do not derive
    from [Exception], are outside the model.  [IOError] is Python 3's alias
    of [OSError]; [requests.RequestException] derives from it. *)

Inductive exn : Type :=
  | ValueError
  | JSONDecodeError
  | UnicodeDecodeError
  | TypeError
  | KeyError
  | AttributeError
  | OSError
  | PermissionError
  | OverflowError
  | RequestException
  | HTTPError
  | ConnectionError
  | RequestsJSONDecodeError.

Definition exn_tag (e : exn) : nat :=
  match e with
  | ValueError => 0 | JSONDecodeError => 1 | UnicodeDecodeError => 2
  | TypeError => 3 | KeyError => 4 | AttributeError => 5
  | OSError => 6 | PermissionError => 7 | OverflowError => 8
  | RequestException => 9 | HTTPError => 10 | ConnectionError => 11
  | RequestsJSONDecodeError => 12
  end%nat.

Definition exn_eqb (a b : exn) : bool := Nat.eqb (exn_tag a) (exn_tag b).

(** The proper ancestors of a class below [Exception]. *)
Definition exn_ancestors (e : exn) : list exn :=
  match e with
  | JSONDecodeError | UnicodeDecodeError => [ValueError]
  | PermissionError | RequestException => [OSError]
  | HTTPError | ConnectionError => [RequestException; OSError]
  | RequestsJSONDecodeError =>
      [RequestException; OSError; JSONDecodeError; ValueError]
  | _ => []
  end.

(** [isinstance e c]: an exception of class [e] is caught by [except c]. *)
Definition isinstance (e c : exn) : bool :=
  exn_eqb e c || existsb (exn_eqb c) (exn_ancestors e).

(** ** Results of fallible code *)

Inductive result (A : Type) : Type :=
  | Ok (a : A)
  | Raise (e : exn).

Arguments Ok {A} a.
Arguments Raise {A} e.

Definition bind {A B : Type} (c : result A) (k : A -> result B) : result B :=
  match c with
  | Ok a => k a
  | Raise e => Raise e
  end.

Notation "x <- c ;; k" := (bind c (fun x => k))
  (at level 61, c at next level, right associativity).

(** ** Strings

    A Python [str] is modelled by [string], one [ascii] per code point;
    the model therefore covers the strings whose code points are below
    256. *)

Definition dq : string := String "034"%char EmptyString.
Definition nl : string := String "010"%char EmptyString.

Definition code (c : ascii) : Z := Z.of_nat (nat_of_ascii c).

(** [s[i:j]] for [0 <= i <= j]; short strings are truncated, not an error. *)
Definition slice (i j : nat) (s : string) : string := substring i (j - i) s.

Fixpoint str_contains_char (c : ascii) (s : string) : bool :=
  match s with
  | EmptyString => false
  | String d s' => Ascii.eqb c d || str_contains_char c s'
  end.

(** [pat in s] and [s.count(pat)] for a non-empty pattern. *)
Fixpoint contains (pat s : string) : bool :=
  prefix pat s ||
  match s with
  | EmptyString => false
  | String _ s' => contains pat s'
  end.

(** Number of positions of [s] at which [pat] starts. *)
Fixpoint occurrences (pat s : string) : nat :=
  ((if prefix pat s then 1 else 0) +
   match s with
   | EmptyString => 0
   | String _ s' => occurrences pat s'
   end)%nat.

(** [s.count(c)] for a one-character string [c]. *)
Fixpoint count_char (c : ascii) (s : string) : Z :=
  match s with
  | EmptyString => 0
  | String d s' => (if Ascii.eqb c d then 1 else 0) + count_char c s'
  end.

(** [s.lstrip(c)] for a one-character string [c]. *)
Fixpoint lstrip_char (c : ascii) (s : string) : string :=
  match s with
  | EmptyString => EmptyString
  | String d s' => if Ascii.eqb c d then lstrip_char c s' else s
  end.

(** [str.lower] on the code points below 256: the ASCII capitals and the
    Latin-1 capitals U+00C0..U+00DE except the multiplication sign. *)
Definition lower_char (c : ascii) : ascii :=
  let n := code c in
  if ((65 <=? n) && (n <=? 90)) ||
     ((192 <=? n) && (n <=? 222) && negb (n =? 215))
  then ascii_of_nat (Z.to_nat (n + 32)) else c.

Fixpoint lower (s : string) : string :=
  match s with
  | EmptyString => EmptyString
  | String c s' => String (lower_char c) (lower s')
  end.

(** Whitespace as [int()] skips it, on the code points below 256: the six
    ASCII blanks and the two Latin-1 spaces U+0085 and U+00A0. *)
Definition is_space (c : ascii) : bool :=
  let n := code c in
  ((9 <=? n) && (n <=? 13)) || (n =? 32) || (n =? 133) || (n =? 160).

Fixpoint lstrip_space (s : string) : string :=
  match s with
  | EmptyString => EmptyString
  | String c s' => if is_space c then lstrip_space s' else s
  end.

Fixpoint rev_string (s acc : string) : string :=
  match s with
  | EmptyString => acc
  | String c s' => rev_string s' (String c acc)
  end.

Definition strip_space (s : string) : string :=
  rev_string (lstrip_space (rev_string (lstrip_space s) EmptyString))
             EmptyString.

(** [s.strip()], whose whitespace is that of [str.isspace]: the above and
    the four separators U+001C..U+001F. *)
Definition isspace (c : ascii) : bool :=
  is_space c || ((28 <=? code c) && (code c <=? 31)).

Fixpoint lstrip (s : string) : string :=
  match s with
  | EmptyString => EmptyString
  | String c s' => if isspace c then lstrip s' else s
  end.

Definition strip (s : string) : string :=
  rev_string (lstrip (rev_string (lstrip s) EmptyString)) EmptyString.

(** ** [int(s, 16)] *)

Definition hexval (c : ascii) : option Z :=
  let n := code c in
  if (48 <=? n) && (n <=? 57) then Some (n - 48)
  else if (97 <=? n) && (n <=? 102) then Some (n - 87)
  else if (65 <=? n) && (n <=? 70) then Some (n - 55)
  else None.

(** The digits, with single underscores allowed between two digits. *)
Fixpoint hex_digits (s : string) (after_us seen : bool) (acc : Z) : option Z :=
  match s with
  | EmptyString => if after_us || negb seen then None else Some acc
  | String c s' =>
      if Ascii.eqb c "_"%char then
        if after_us || negb seen then None else hex_digits s' true seen acc
      else
        match hexval c with
        | Some d => hex_digits s' false true (16 * acc + d)
        | None => None
        end
  end.

(** After the sign: an optional [0x] or [0X], which may be followed by one
    underscore, then the digits. *)
Definition hex_body (s : string) : option Z :=
  match s with
  | String "0" (String x s') =>
      if Ascii.eqb x "x"%char || Ascii.eqb x "X"%char then
        match s' with
        | String "_" s'' => hex_digits s'' false false 0
        | _ => hex_digits s' false false 0
        end
      else hex_digits s false false 0
  | _ => hex_digits s false false 0
  end.

Definition int16 (s : string) : result Z :=
  let t := strip_space s in
  let '(neg, body) :=
    match t with
    | String "-" t' => (true, t')
    | String "+" t' => (false, t')
    | _ => (false, t)
    end in
  match hex_body body with
  | Some n => Ok (if neg : bool then - n else n)
  | None => Raise ValueError
  end.

(** ** [str(n)] for an [int] *)

Definition digit_char (d : Z) : ascii := ascii_of_nat (Z.to_nat (48 + d)).

Fixpoint dec_digits (fuel : nat) (n : Z) (acc : string) : string :=
  match fuel with
  | O => acc
  | S fuel' =>
      let acc' := String (digit_char (n mod 10)) acc in
      if n <? 10 then acc' else dec_digits fuel' (n / 10) acc'
  end.

(** The decimal digits of [n >= 0]; a number has no more decimal digits
    than binary ones, which bounds the recursion. *)
Definition str_nonneg (n : Z) : string :=
  dec_digits (S (Z.to_nat (Z.log2 n))) n EmptyString.

Definition str_int (n : Z) : string :=
  if n <? 0 then "-" ++ str_nonneg (- n) else str_nonneg n.

(** ** Floats

    A Python [float] is an IEEE 754 binary64 number, here a [spec_float]
    of the Standard Library with precision 53 and maximal exponent 1024. *)

Definition prec : Z := 53.
Definition emax : Z := 1024.

Definition float_of_int (n : Z) : spec_float :=
  match n with
  | Z0 => S754_zero false
  | Zpos p => S754_finite false p 0
  | Zneg p => S754_finite true p 0
  end.

Definition float_100 : spec_float := S754_finite false 100 0.

(** [n / 100] for an [int] [n]: true division rounds the exact quotient
    to the nearest float, and raises when that is out of range. *)
Definition int_div_100 (n : Z) : result spec_float :=
  match SFdiv prec emax (float_of_int n) float_100 with
  | S754_infinity _ => Raise OverflowError
  | q => Ok q
  end.

(** [x / 100] for a [float] [x]. *)
Definition float_div_100 (x : spec_float) : spec_float :=
  SFdiv prec emax x float_100.

(** *** [repr] of a float

    The shortest decimal string that reads back as the same float, the
    closest one to the float's value among those of that length.  A
    finite float is first brought to its canonical mantissa and exponent;
    the last two cases below are met only by a pair that is not a
    binary64 number. *)

Definition round_half_even (a b : Z) : Z :=
  let q := a / b in
  let r := a mod b in
  match 2 * r ?= b with
  | Lt => q
  | Gt => q + 1
  | Eq => if Z.even q then q else q + 1
  end.

Definition ceil_div (a b : Z) : Z := (a + b - 1) / b.

(** The multiples [d * 10^k] with [d >= 1] that round to the float
    [m * 2^e] (in canonical form): the closest one of them, if any. *)
Definition digits_at (m e k : Z) : option Z :=
  let narrow := (m =? 2 ^ 52) && (-1074 <? e) in
  let scale := 2 ^ Z.max 0 (e - 2) * 10 ^ Z.max 0 (- k) in
  let den := 2 ^ Z.max 0 (2 - e) * 10 ^ Z.max 0 k in
  let v := 4 * m * scale in
  let lo := (4 * m - (if narrow then 1 else 2)) * scale in
  let hi := (4 * m + 2) * scale in
  let dmin := if Z.even m then ceil_div lo den else lo / den + 1 in
  let dmax := if Z.even m then hi / den else ceil_div hi den - 1 in
  let dmin := Z.max 1 dmin in
  if dmin <=? dmax
  then Some (Z.max dmin (Z.min dmax (round_half_even v den)))
  else None.

Fixpoint shortest_from (fuel : nat) (m e k : Z) : Z * Z :=
  match fuel with
  | O => (0, k)
  | S fuel' =>
      match digits_at m e k with
      | Some d => (d, k)
      | None => shortest_from fuel' m e (k - 1)
      end
  end.

(** The search starts above the decimal exponent of the value and needs
    at most 17 digits. *)
Definition shortest_digits (m e : Z) : Z * Z :=
  shortest_from 40 m e ((Z.log2 m + e + 1) * 30103 / 100000 + 2).

Fixpoint zeros (n : nat) : string :=
  match n with
  | O => EmptyString
  | S n' => String "0" (zeros n')
  end.

Definition exponent_digits (x : Z) : string :=
  if x <? 10 then String "0" (str_nonneg x) else str_nonneg x.

(** The layout of [repr]: exponent form when the decimal point would
    stand more than three places before or 16 after the first digit. *)
Definition repr_layout (ds : string) (k : Z) : string :=
  let n := Z.of_nat (String.length ds) in
  let decpt := n + k in
  if (decpt <=? -4) || (16 <? decpt) then
    let mant :=
      match ds with
      | String c (String c' rest) => String c ("." ++ String c' rest)
      | _ => ds
      end in
    let x := decpt - 1 in
    mant ++ "e" ++ (if x <? 0 then "-" else "+") ++ exponent_digits (Z.abs x)
  else if decpt <=? 0 then "0." ++ zeros (Z.to_nat (- decpt)) ++ ds
  else if n <=? decpt then ds ++ zeros (Z.to_nat (decpt - n)) ++ ".0"
  else substring 0 (Z.to_nat decpt) ds ++ "." ++
       substring (Z.to_nat decpt) (Z.to_nat (n - decpt)) ds.

Definition repr_finite (m e : Z) : string :=
  let '(d, k) := shortest_digits m e in
  repr_layout (str_nonneg d) k.

Definition float_repr (x : spec_float) : string :=
  match x with
  | S754_zero s => if s then "-0.0" else "0.0"
  | S754_infinity s => if s then "-inf" else "inf"
  | S754_nan => "nan"
  | S754_finite s m e =>
      (if s then "-" else EmptyString) ++
      match binary_normalize prec emax (Z.pos m) e false with
      | S754_finite _ m' e' => repr_finite (Z.pos m') e'
      | S754_zero _ => "0.0"
      | _ => "inf"
      end
  end.

(** ** JSON-shaped values

    What [json.load] and the host's configuration store hand to the code.
    A [dict] keeps its items in insertion order, which [items()] follows;
    its keys are strings and occur once. *)

Inductive value : Type :=
  | VNone
  | VBool (b : bool)
  | VInt (n : Z)
  | VFloat (x : spec_float)
  | VStr (s : string)
  | VList (l : list value)
  | VDict (d : list (string * value)).

Definition dict : Type := list (string * value).

Fixpoint lookup (k : string) (d : dict) : option value :=
  match d with
  | [] => None
  | (k', v) :: d' => if String.eqb k k' then Some v else lookup k d'
  end.

(** [k in d] *)
Definition has_key (k : string) (d : dict) : bool :=
  match lookup k d with
  | Some _ => true
  | None => false
  end.

(** [d.get(k, dflt)] on a dict *)
Definition dict_get (k : string) (dflt : value) (d : dict) : value :=
  match lookup k d with
  | Some v => v
  | None => dflt
  end.

(** [v.get(k, dflt)] on any value: only a dict has the method. *)
Definition get (v : value) (k : string) (dflt : value) : result value :=
  match v with
  | VDict d => Ok (dict_get k dflt d)
  | _ => Raise AttributeError
  end.

(** [v[k]] for a string key [k]. *)
Definition subscript (v : value) (k : string) : result value :=
  match v with
  | VDict d =>
      match lookup k d with
      | Some x => Ok x
      | None => Raise KeyError
      end
  | _ => Raise TypeError
  end.

(** Truth value, as [if v] and [v or w] test it. *)
Definition truthy (v : value) : bool :=
  match v with
  | VNone => false
  | VBool b => b
  | VInt n => negb (n =? 0)
  | VFloat (S754_zero _) => false
  | VFloat _ => true
  | VStr EmptyString => false
  | VStr _ => true
  | VList [] => false
  | VList _ => true
  | VDict [] => false
  | VDict _ => true
  end.

(** [v / 100]: defined on numbers, [bool] being a subclass of [int]. *)
Definition div_100 (v : value) : result spec_float :=
  match v with
  | VInt n => int_div_100 n
  | VBool b => int_div_100 (if b then 1 else 0)
  | VFloat x => Ok (float_div_100 x)
  | _ => Raise TypeError
  end.

End Py.

(* ===================================================================== *)
(** * The document the injected scripts run against *)
(* ===================================================================== *)

Module Dom.

Record element : Type := {
  tag : string;
  ident : option string;      (* the id attribute, if set *)
  textContent : string;
  depth : nat                 (* the number of its ancestors in its list *)
}.

(** The elements of a document in tree order: the descendants of its
    head, then the elements after the head.  An element is listed
    without its descendants, which follow it with a greater [depth]; a
    child of the head has depth 0.  The root and the head themselves are
    not listed; they are taken not to carry an identifier that a script
    looks up. *)
Record document : Type := {
  head : list element;
  rest : list element
}.

Definition elements (d : document) : list element := (head d ++ rest d)%list.

Definition has_id (i : string) (e : element) : bool :=
  match ident e with
  | Some j => String.eqb i j
  | None => false
  end.

Definition is_style (e : element) : bool := String.eqb (tag e) "style".

(** [document.getElementById(i)]: the first element in tree order. *)
Definition getElementById (i : string) (d : document) : option element :=
  find (has_id i) (elements d).

(** What is left of the elements that follow an element of depth [d]
    once its descendants, the elements that are deeper, are taken away. *)
Fixpoint drop_inside (d : nat) (l : list element) : list element :=
  match l with
  | [] => []
  | x :: l' => if (d <? depth x)%nat then drop_inside d l' else l
  end.

(** The list without the first element that satisfies [p] and without
    the descendants of that element. *)
Fixpoint remove_first (p : element -> bool) (l : list element) : list element :=
  match l with
  | [] => []
  | e :: l' => if p e then drop_inside (depth e) l' else e :: remove_first p l'
  end.

(** [e.remove()] for the element [e] that [getElementById(i)] returned:
    the element leaves the document with its subtree. *)
Definition remove_found (i : string) (d : document) : document :=
  if existsb (has_id i) (head d)
  then {| head := remove_first (has_id i) (head d); rest := rest d |}
  else {| head := head d; rest := remove_first (has_id i) (rest d) |}.

(** [document.createElement(t)] *)
Definition createElement (t : string) : element :=
  {| tag := t; ident := None; textContent := EmptyString; depth := 0 |}.

Definition set_id (i : string) (e : element) : element :=
  {| tag := tag e; ident := Some i; textContent := textContent e;
     depth := depth e |}.

Definition set_textContent (t : string) (e : element) : element :=
  {| tag := tag e; ident := ident e; textContent := t; depth := depth e |}.

(** [document.head.appendChild(e)] for a new element [e], which has no
    descendants: it becomes the last child of the head. *)
Definition appendChild_head (e : element) (d : document) : document :=
  {| head := (head d ++ [e])%list; rest := rest d |}.

Definition count_styles (d : document) : nat :=
  List.length (filter is_style (elements d)).

Definition count_id (i : string) (d : document) : nat :=
  List.length (filter (has_id i) (elements d)).

Definition count_styles_id (i : string) (d : document) : nat :=
  List.length (filter (fun e => is_style e && has_id i e) (elements d)).

(** ** Scripts

    The webview's [eval] hands its text to the page's [runJavaScript],
    which evaluates it as a classic script in the page's global scope.
    The names that scripts declare at their top level stay declared in
    that scope for as long as the document lives; a script that declares
    with [const] or [let] a name already declared there is rejected with
    a SyntaxError before any of its statements runs (ECMAScript,
    GlobalDeclarationInstantiation).  This is why the host wraps its own
    scripts in a function. *)

Record page : Type := {
  doc : document;
  declared : list string
}.

Record script : Type := {
  lexical : list string;              (* its top-level const and let names *)
  body : document -> document         (* the effect of its statements *)
}.

Inductive completion : Type :=
  | Completed
  | SyntaxError.

Definition is_declared (p : page) (x : string) : bool :=
  existsb (String.eqb x) (declared p).

Definition evaluate (s : script) (p : page) : completion * page :=
  if existsb (is_declared p) (lexical s)
  then (SyntaxError, p)
  else (Completed,
        {| doc := body s (doc p);
           declared := (declared p ++ lexical s)%list |}).

(** A document that has just been loaded, before any script ran. *)
Definition fresh (d : document) : page := {| doc := d; declared := [] |}.

End Dom.

(* ===================================================================== *)
(** * The overlay addon *)
(* ===================================================================== *)

Module Addon.

Import Py.

(** The addon object and what it has asked of the host: [config] is
    [self.config]; [written] lists the configurations passed to
    [mw.addonManager.writeConfig], [notices] the messages passed to
    [showInfo], both oldest first. *)
Record state : Type := {
  config : option dict;
  written : list dict;
  notices : list string
}.

(** [self.config = mw.addonManager.getConfig(__name__)], of [__init__]. *)
Definition load (stored : option dict) : state :=
  {| config := stored; written := []; notices := [] |}.

Definition theme (color : string) (alpha : Z) : value :=
  VDict [("color", VStr color); ("alpha", VInt alpha)].

Definition default_config : dict :=
  [("light_theme", theme "#ffffff" 15); ("dark_theme", theme "#000000" 30)].

Definition migration_notice : string :=
  "Transparent Overlay: Updated to support separate Dark/Light theme colors!"
  ++ nl ++ nl ++
  "Your previous settings have been preserved for Dark theme." ++ nl ++
  "You can now configure different colors for Light theme in the addon settings.".

Definition migrate_config_if_needed (st : state) : state :=
  match config st with
  | None =>
      {| config := Some default_config;
         written := written st; notices := notices st |}
  | Some c =>
      if has_key "color" c && has_key "alpha" c then
        let old_color := dict_get "color" (VStr "#000000") c in
        let old_alpha := dict_get "alpha" (VInt 30) c in
        let c' :=
          [("light_theme",
            VDict [("color", VStr "#ffffff"); ("alpha", old_alpha)]);
           ("dark_theme",
            VDict [("color", old_color); ("alpha", old_alpha)])] in
        {| config := Some c';
           written := (written st ++ [c'])%list;
           notices := (notices st ++ [migration_notice])%list |}
      else st
  end.

(** [night_mode] is [theme_manager.night_mode]. *)
Definition get_current_theme_config (st : state) (night_mode : bool)
  : result value :=
  let theme_key := if night_mode then "dark_theme" else "light_theme" in
  let fallback :=
    VDict [("color", VStr (if night_mode then "#000000" else "#ffffff"));
           ("alpha", VInt (if night_mode then 30 else 15))] in
  match config st with
  | Some c => Ok (dict_get theme_key fallback c)
  | None => Raise AttributeError
  end.

(** [int(color[i:j], 16)]; a colour that is not a string cannot be
    converted. *)
Definition channel (color : value) (i j : nat) : result Z :=
  match color with
  | VStr s => int16 (slice i j s)
  | _ => Raise TypeError
  end.

(** The lines that the three injectors share: the two [get]s, the three
    conversions and, evaluated last inside the f-string, [alpha/100]. *)
Definition rgba_of_theme (theme_config : value)
  : result (Z * Z * Z * spec_float) :=
  color <- get theme_config "color" (VStr "#000000") ;;
  alpha <- get theme_config "alpha" (VInt 30) ;;
  r <- channel color 1 3 ;;
  g <- channel color 3 5 ;;
  b <- channel color 5 7 ;;
  a <- div_100 alpha ;;
  Ok (r, g, b, a).

(** [rgba({r}, {g}, {b}, {alpha/100})] *)
Definition rgba_text (c : Z * Z * Z * spec_float) : string :=
  let '(r, g, b, a) := c in
  "rgba(" ++ str_int r ++ ", " ++ str_int g ++ ", " ++ str_int b ++ ", "
  ++ float_repr a ++ ")".

(** The text between the backquotes of both scripts. *)
Definition overlay_style (rgba : string) : string :=
  "
            html {
                background-color: " ++ rgba ++ " !important;
            }
            body {
                background-color: transparent !important;
            }
        ".

Definition overlay_id : string := "transparent-overlay-theme-style".

(** The [js_code] of [inject_current_theme_style]. *)
Definition theme_change_js (rgba : string) : string :=
  "
        // Remove existing theme overlay styles
        const existingStyle = document.getElementById('transparent-overlay-theme-style');
        if (existingStyle) {
            existingStyle.remove();
        }

        // Add new theme overlay style
        const style = document.createElement('style');
        style.id = 'transparent-overlay-theme-style';
        style.textContent = `" ++ overlay_style rgba ++ "`;
        document.head.appendChild(style);
        ".

(** The [js_code] of [inject_finished_screen_style]. *)
Definition finished_screen_js (rgba : string) : string :=
  "
        const style = document.createElement('style');
        style.textContent = `" ++ overlay_style rgba ++ "`;
        document.head.appendChild(style);
        ".

(** The [background_css] of [inject_overlay]: the text before the
    [rgba(...)] of its first rule, that call, and the text after it. *)
Definition css_before_rgba : string :=
  "
        <style>
        html {
            background-color: ".

Definition css_after_rgba : string :=
  " !important;
        }

        body {
            background-color: transparent !important;
        }

        /* Main web view - force background on all potential containers */
        #outer, #main, .main-webview {
            background-color: transparent !important;
        }

        /* Make card backgrounds transparent to show through */
        .card {
            background-color: transparent !important;
        }

        /* Congratulations screen - target all possible selectors */
        .congrats-container, .congrats, div[id*=" ++ dq ++ "congrat" ++ dq ++ "], div[class*=" ++ dq ++ "congrat" ++ dq ++ "] {
            background-color: transparent !important;
        }

        /* Overview screen */
        .overview, div[class*=" ++ dq ++ "overview" ++ dq ++ "] {
            background-color: transparent !important;
        }

        /* Force all divs to be transparent if they have default white backgrounds */
        div:not([style*=" ++ dq ++ "background" ++ dq ++ "]) {
            background-color: transparent !important;
        }
        </style>
        ".

Definition background_css (rgba : string) : string :=
  css_before_rgba ++ rgba ++ css_after_rgba.

(** What the statements of [theme_change_js] do to the document. *)
Definition theme_change_body (rgba : string) (d : Dom.document)
  : Dom.document :=
  let d1 :=
    match Dom.getElementById overlay_id d with
    | Some _ => Dom.remove_found overlay_id d
    | None => d
    end in
  let style :=
    Dom.set_textContent (overlay_style rgba)
      (Dom.set_id overlay_id (Dom.createElement "style")) in
  Dom.appendChild_head style d1.

Definition theme_change_script (rgba : string) : Dom.script :=
  {| Dom.lexical := ["existingStyle"; "style"];
     Dom.body := theme_change_body rgba |}.

(** What the statements of [finished_screen_js] do to the document. *)
Definition finished_screen_body (rgba : string) (d : Dom.document)
  : Dom.document :=
  let style :=
    Dom.set_textContent (overlay_style rgba) (Dom.createElement "style") in
  Dom.appendChild_head style d.

Definition finished_screen_script (rgba : string) : Dom.script :=
  {| Dom.lexical := ["style"];
     Dom.body := finished_screen_body rgba |}.

(** [mw.web.eval(js_code)]: the text handed to the webview and the page
    after the webview has evaluated it; an error of the script does not
    reach the Python caller. *)
Record injected : Type := {
  js_code : string;
  page_after : Dom.page
}.

Definition web_eval (js : string) (s : Dom.script) (web : Dom.page)
  : injected :=
  {| js_code := js; page_after := snd (Dom.evaluate s web) |}.

(** [web] is [mw.web], [None] when the main window has no webview. *)
Definition inject_current_theme_style
  (st : state) (night_mode : bool) (web : option Dom.page)
  : result (option injected) :=
  match web with
  | None => Ok None
  | Some p =>
      theme_config <- get_current_theme_config st night_mode ;;
      c <- rgba_of_theme theme_config ;;
      let rgba := rgba_text c in
      Ok (Some (web_eval (theme_change_js rgba) (theme_change_script rgba) p))
  end.

Definition on_theme_change
  (st : state) (night_mode : bool) (web : option Dom.page)
  : result (option injected) :=
  match web with
  | Some _ => inject_current_theme_style st night_mode web
  | None => Ok None
  end.

Definition inject_finished_screen_style
  (st : state) (night_mode : bool) (web : option Dom.page)
  : result injected :=
  theme_config <- get_current_theme_config st night_mode ;;
  c <- rgba_of_theme theme_config ;;
  let rgba := rgba_text c in
  match web with
  | Some p =>
      Ok (web_eval (finished_screen_js rgba) (finished_screen_script rgba) p)
  | None => Raise AttributeError
  end.

(** [head] is [web_content.head]; the result is its new value. *)
Definition inject_overlay (st : state) (night_mode : bool) (head : string)
  : result string :=
  theme_config <- get_current_theme_config st night_mode ;;
  c <- rgba_of_theme theme_config ;;
  Ok (head ++ background_css (rgba_text c)).

(** [TransparentOverlay.__init__], up to the registration of the hooks. *)
Definition init (stored : option dict) : state :=
  migrate_config_if_needed (load stored).

End Addon.

(* ===================================================================== *)
(** * The release-check script *)
(* ===================================================================== *)

Module ReleaseCheck.

Import Py.

(** A [datetime] to the microsecond; [aware] when it carries an offset.
    [datetime.now()] is naive. *)
Record datetime : Type := {
  micros : Z;
  aware : bool
}.

(** [timedelta(hours=2)] in microseconds. *)
Definition two_hours : Z := 2 * 3600 * 1000000.

(** A file as the script meets it: missing, present but failing with [e]
    when opened or read, readable with the given text, or at a path where
    the test [exists()] itself fails with [e] (up to Python 3.13 the test
    lets an [OSError] through unless it says that there is no such file,
    as a [PermissionError] on a directory of the path does not). *)
Inductive file : Type :=
  | Absent
  | Unreadable (e : exn)
  | Holds (text : string)
  | Inaccessible (e : exn).

Record response : Type := {
  status_code : Z;
  json : result value          (* what [response.json()] gives *)
}.

(** What the script does to the outside, in order. *)
Inductive event : Type :=
  | Print (line : string)
  | PrintValue (line : string) (v : value)     (* line followed by str(v) *)
  | PrintExn (line : string) (e : exn)         (* line followed by str(e) *)
  | HttpGet (url : string) (headers : list (string * string))
  | AppendOutput (path name : string) (v : value)
      (* name=value appended to the file that GITHUB_OUTPUT names *)
  | SetOutput (name : string) (v : value)
      (* the printed workflow command ::set-output name=name::value *)
  | WriteCheck (text : string).                (* .last-check rewritten *)

Record world : Type := {
  (* the environment variables *)
  GITHUB_REPOSITORY : option string;
  GITHUB_TOKEN : option string;
  FORCE_CHECK : option string;
  GITHUB_OUTPUT : option string;
  (* the network, the clock and the failures of the two writes *)
  http : string -> result response;
  clock : nat -> Z;
  output_error : option exn;
  check_write_error : option exn;
  (* the files, the number of clock readings so far, the events so far *)
  version_file : file;
  check_file : file;
  ticks : nat;
  trace : list event
}.

Definition log (e : event) (w : world) : world :=
  {| GITHUB_REPOSITORY := GITHUB_REPOSITORY w; GITHUB_TOKEN := GITHUB_TOKEN w;
     FORCE_CHECK := FORCE_CHECK w; GITHUB_OUTPUT := GITHUB_OUTPUT w;
     http := http w; clock := clock w; output_error := output_error w;
     check_write_error := check_write_error w;
     version_file := version_file w; check_file := check_file w;
     ticks := ticks w; trace := (trace w ++ [e])%list |}.

Definition tick (w : world) : world :=
  {| GITHUB_REPOSITORY := GITHUB_REPOSITORY w; GITHUB_TOKEN := GITHUB_TOKEN w;
     FORCE_CHECK := FORCE_CHECK w; GITHUB_OUTPUT := GITHUB_OUTPUT w;
     http := http w; clock := clock w; output_error := output_error w;
     check_write_error := check_write_error w;
     version_file := version_file w; check_file := check_file w;
     ticks := S (ticks w); trace := trace w |}.

Definition set_check_file (f : file) (w : world) : world :=
  {| GITHUB_REPOSITORY := GITHUB_REPOSITORY w; GITHUB_TOKEN := GITHUB_TOKEN w;
     FORCE_CHECK := FORCE_CHECK w; GITHUB_OUTPUT := GITHUB_OUTPUT w;
     http := http w; clock := clock w; output_error := output_error w;
     check_write_error := check_write_error w;
     version_file := version_file w; check_file := f;
     ticks := ticks w; trace := trace w |}.

Definition set_version_file (f : file) (w : world) : world :=
  {| GITHUB_REPOSITORY := GITHUB_REPOSITORY w; GITHUB_TOKEN := GITHUB_TOKEN w;
     FORCE_CHECK := FORCE_CHECK w; GITHUB_OUTPUT := GITHUB_OUTPUT w;
     http := http w; clock := clock w; output_error := output_error w;
     check_write_error := check_write_error w;
     version_file := f; check_file := check_file w;
     ticks := ticks w; trace := trace w |}.

(** [os.environ.get(name, dflt)] *)
Definition environ_get (var : option string) (dflt : string) : string :=
  match var with
  | Some s => s
  | None => dflt
  end.

(** Code that reads and changes the world and may raise. *)
Definition M (A : Type) : Type := world -> result A * world.

Definition ret {A : Type} (a : A) : M A := fun w => (Ok a, w).

Definition raise {A : Type} (e : exn) : M A := fun w => (Raise e, w).

Definition bindM {A B : Type} (c : M A) (k : A -> M B) : M B :=
  fun w =>
    match c w with
    | (Ok a, w') => k a w'
    | (Raise e, w') => (Raise e, w')
    end.

Definition lift {A : Type} (r : result A) : M A := fun w => (r, w).

Definition emit (e : event) : M unit := fun w => (Ok tt, log e w).

Notation "x <~ c ;; k" := (bindM c (fun x => k))
  (at level 61, c at next level, right associativity).
Notation "c ;;; k" := (bindM c (fun _ => k))
  (at level 61, right associativity).

Definition ANKI_REPO : string := "ankitects/anki".

Definition get_github_headers (w : world) : list (string * string) :=
  let token := environ_get (GITHUB_TOKEN w) EmptyString in
  let authorization := "token " ++ token in
  ("Accept", "application/vnd.github.v3+json") ::
  match token with
  | EmptyString => []
  | _ => [("Authorization", authorization)]
  end.

(** [requests.get] raises when the request fails, [raise_for_status] on a
    status from 400 to 599. *)
Definition get_latest_anki_release : M value :=
  fun w =>
    let url := "https://api.github.com/repos/" ++ ANKI_REPO ++ "/releases/latest" in
    let w1 := log (HttpGet url (get_github_headers w)) w in
    match http w url with
    | Raise e => (Raise e, w1)
    | Ok resp =>
        if (400 <=? status_code resp) && (status_code resp <? 600)
        then (Raise HTTPError, w1)
        else (json resp, w1)
    end.

Section Library.

(** The library functions the script calls on the text of its files. *)
Variable json_load : string -> result value.
Variable fromisoformat : string -> result datetime.
Variable isoformat : datetime -> string.

(** The test [VERSION_FILE.exists()] stands before the [try] statement:
    what it raises is not handled here. *)
Definition load_version_mapping : M value :=
  fun w =>
    let except (e : exn) : result value :=
      if isinstance e JSONDecodeError || isinstance e OSError
      then Ok (VDict [])
      else Raise e in
    (match version_file w with
     | Inaccessible e => Raise e
     | Absent => Ok (VDict [])
     | Unreadable e => except e
     | Holds text =>
         match json_load text with
         | Ok v => Ok v
         | Raise e => except e
         end
     end, w).

(** The test [CHECK_FILE.exists()] stands before the [try] statement as
    well. *)
Definition was_recently_checked : M bool :=
  fun w =>
    match check_file w with
    | Inaccessible e => (Raise e, w)
    | Absent => (Ok false, w)
    | Unreadable e =>
        if isinstance e ValueError || isinstance e OSError
        then (Ok false, w) else (Raise e, w)
    | Holds text =>
        match fromisoformat (strip text) with
        | Raise e =>
            if isinstance e ValueError || isinstance e OSError
            then (Ok false, w) else (Raise e, w)
        | Ok last_check =>
            let now := clock w (ticks w) in
            if aware last_check
            then (Raise TypeError, tick w)
            else (Ok (now - micros last_check <? two_hours), tick w)
        end
    end.

Definition mark_checked : M unit :=
  fun w =>
    match check_write_error w with
    | Some e => (Raise e, w)
    | None =>
        let now := {| micros := clock w (ticks w); aware := false |} in
        let text := isoformat now in
        (Ok tt, log (WriteCheck text) (set_check_file (Holds text) (tick w)))
    end.

(** The loop over [version_mapping.items()]. *)
Fixpoint any_built (anki_version : string) (items : dict) : result bool :=
  match items with
  | [] => Ok false
  | (_, info) :: items' =>
      v <- get info "anki_version" (VStr EmptyString) ;;
      match v with
      | VStr s =>
          if String.eqb (lstrip_char "v" s) anki_version
          then Ok true
          else any_built anki_version items'
      | _ => Raise AttributeError
      end
  end.

Definition version_already_built (anki_version version_mapping : value)
  : result bool :=
  match anki_version with
  | VStr s =>
      match version_mapping with
      | VDict items => any_built (lstrip_char "v" s) items
      | _ => Raise AttributeError
      end
  | _ => Raise AttributeError
  end.

Definition is_dot (v : value) : bool :=
  match v with
  | VStr s => String.eqb s "."
  | _ => false
  end.

(** [tag.count('.')]: a method of strings and of lists. *)
Definition count_dots (tag : value) : result Z :=
  match tag with
  | VStr s => Ok (count_char "." s)
  | VList l => Ok (Z.of_nat (List.length (filter is_dot l)))
  | _ => Raise AttributeError
  end.

(** [a + b] where one side is known to be a string. *)
Definition add_str (a b : value) : result string :=
  match a, b with
  | VStr s, VStr t => Ok (s ++ t)
  | _, _ => Raise TypeError
  end.

Definition significant_keywords : list string :=
  ["major"; "breaking"; "new feature"; "ui change"; "interface";
   "rework"; "rewrite"; "overhaul"].

Definition is_significant_release (release : value) : result bool :=
  tag <- subscript release "tag_name" ;;
  n <- subscript release "name" ;;
  let name := if truthy n then n else tag in
  b <- subscript release "body" ;;
  let body := if truthy b then b else VStr EmptyString in
  pre <- subscript release "prerelease" ;;
  if truthy pre then Ok false else
  dots <- count_dots tag ;;
  if 2 <? dots then Ok false else
  name_sp <- add_str name (VStr " ") ;;
  text <- add_str (VStr name_sp) body ;;
  let text_to_check := lower text in
  if existsb (fun keyword => contains keyword text_to_check)
             significant_keywords
  then Ok true
  else Ok true.

(** [if github_output:] holds for a non-empty value of the variable. *)
Definition set_github_output (name : string) (v : value) : M unit :=
  fun w =>
    let appended :=
      match GITHUB_OUTPUT w with
      | None | Some EmptyString => (Ok tt, w)
      | Some path =>
          match output_error w with
          | Some e => (Raise e, w)
          | None => (Ok tt, log (AppendOutput path name v) w)
          end
      end in
    match appended with
    | (Ok _, w') => (Ok tt, log (SetOutput name v) w')
    | (Raise e, w') => (Raise e, w')
    end.

(** The body of the [try] statement of [main]; a [return] inside it and
    reaching its end both make [main] return. *)
Definition check_body : M unit :=
  latest_release <~ get_latest_anki_release ;;
  anki_version <~ lift (subscript latest_release "tag_name") ;;
  emit (PrintValue "Latest Anki release: " anki_version) ;;;
  version_mapping <~ load_version_mapping ;;
  built <~ lift (version_already_built anki_version version_mapping) ;;
  if built : bool then
    emit (PrintValue "Already built AnkiBlur for Anki " anki_version) ;;;
    set_github_output "new_release" (VStr "false") ;;;
    set_github_output "needs_review" (VStr "false") ;;;
    mark_checked
  else
    emit (PrintValue "New Anki release detected: " anki_version) ;;;
    significant <~ lift (is_significant_release latest_release) ;;
    (if significant : bool then
       emit (Print "Release appears significant, triggering automatic build") ;;;
       set_github_output "new_release" (VStr "true") ;;;
       set_github_output "needs_review" (VStr "false") ;;;
       set_github_output "anki_version" anki_version ;;;
       url <~ lift (subscript latest_release "html_url") ;;
       set_github_output "changes_url" url
     else
       emit (Print "Release appears minor, creating issue for manual review") ;;;
       set_github_output "new_release" (VStr "false") ;;;
       set_github_output "needs_review" (VStr "true") ;;;
       set_github_output "anki_version" anki_version ;;;
       url <~ lift (subscript latest_release "html_url") ;;
       set_github_output "changes_url" url) ;;;
    mark_checked.

(** How a run of [main] ends: it returns, it leaves through [sys.exit],
    or an exception escapes it. *)
Inductive outcome : Type :=
  | Returned
  | Exited (status : Z)
  | Uncaught (e : exn).

Definition skip_recent : M unit :=
  emit (Print "Recently checked for updates, skipping") ;;;
  set_github_output "new_release" (VStr "false") ;;;
  set_github_output "needs_review" (VStr "false").

Definition force_check (w : world) : bool :=
  String.eqb (lower (environ_get (FORCE_CHECK w) "false")) "true".

Definition handler_message (e : exn) : string :=
  if isinstance e RequestException
  then "Error checking for updates: "
  else "Unexpected error: ".

(** The condition [not force_check and was_recently_checked()]; [and]
    does not evaluate its right side when the left one is false. *)
Definition skip_test : M bool :=
  fun w => if force_check w then (Ok false, w) else was_recently_checked w.

Definition main (w : world) : outcome * world :=
  let w0 := log (Print "Checking for Anki updates...") w in
  let '(recent, w1) := skip_test w0 in
  match recent with
  | Raise e => (Uncaught e, w1)
  | Ok true =>
      match skip_recent w1 with
      | (Ok _, w2) => (Returned, w2)
      | (Raise e, w2) => (Uncaught e, w2)
      end
  | Ok false =>
      match check_body w1 with
      | (Ok _, w2) => (Returned, w2)
      | (Raise e, w2) => (Exited 1, log (PrintExn (handler_message e) e) w2)
      end
  end.

(** The status with which the interpreter ends after [main()]. *)
Definition exit_status (o : outcome) : Z :=
  match o with
  | Returned => 0
  | Exited status => status
  | Uncaught _ => 1
  end.

End Library.

End ReleaseCheck.

(* ===================================================================== *)
(** * Vocabulary of the statements *)
(* ===================================================================== *)

Module Spec.

Import Py.

(** The shape test of [migrate_config_if_needed]. *)
Definition legacy_shaped (c : dict) : bool :=
  has_key "color" c && has_key "alpha" c.

(** The configuration that the migration of a legacy one builds. *)
Definition migrated (C A : value) : dict :=
  [("light_theme", VDict [("color", VStr "#ffffff"); ("alpha", A)]);
   ("dark_theme", VDict [("color", C); ("alpha", A)])].

Fixpoint all_chars (p : ascii -> bool) (s : string) : bool :=
  match s with
  | EmptyString => true
  | String c s' => p c && all_chars p s'
  end.

(** The characters of the decimal texts of integers and floats. *)
Definition numeric_char (c : ascii) : bool :=
  str_contains_char c "0123456789-+.einfa".

Definition is_hex (c : ascii) : bool :=
  match hexval c with
  | Some _ => true
  | None => false
  end.

Definition hex_chars : list ascii :=
  list_ascii_of_string "0123456789abcdefABCDEF".

(** The colour of a ThemeStyle of the data model: six hexadecimal digits
    after [#]. *)
Definition is_theme_color (s : string) : bool :=
  match s with
  | String "#" t => Nat.eqb (String.length t) 6 && all_chars is_hex t
  | _ => false
  end.

(** [t] is a theme style with that colour and the integer [alpha]. *)
Definition theme_style (t : value) (color : string) (alpha : Z) : Prop :=
  exists d : dict,
    t = VDict d /\
    lookup "color" d = Some (VStr color) /\
    lookup "alpha" d = Some (VInt alpha) /\
    is_theme_color color = true.

Definition hex_digit (c : ascii) : Z :=
  match hexval c with
  | Some d => d
  | None => 0
  end.

(** The byte that two hexadecimal digits write. *)
Definition hex_pair (h l : ascii) : Z := 16 * hex_digit h + hex_digit l.

Definition char_at (i : nat) (s : string) : ascii :=
  match String.get i s with
  | Some c => c
  | None => "000"%char
  end.

(** The exact decimal writing of [alpha / 100], with one digit after the
    point when the quotient is whole, as [0.3], [1.5], [-0.25] or [1.0]. *)
Definition hundredths (alpha : Z) : string :=
  let n := Z.abs alpha in
  let frac := n mod 100 in
  (if alpha <? 0 then "-" else EmptyString) ++
  str_nonneg (n / 100) ++ "." ++
  String (digit_char (frac / 10))
    (if frac mod 10 =? 0 then EmptyString
     else String (digit_char (frac mod 10)) EmptyString).

(** [alpha / 100] is a float and prints as the exact quotient. *)
Definition div_100_exact (alpha : Z) : bool :=
  match int_div_100 alpha with
  | Ok q => String.eqb (float_repr q) (hundredths alpha)
  | Raise _ => false
  end.

Fixpoint Z_range (lo : Z) (n : nat) : list Z :=
  match n with
  | O => []
  | S n' => lo :: Z_range (lo + 1) n'
  end.

(** The selectors of the rules that follow the [html] rule; [q] is what
    stands before the three attribute selectors. *)
Definition selector_list (q : string) : list string :=
  ["body";
   "#outer, #main, .main-webview";
   ".card";
   ".congrats-container, .congrats, " ++ q ++ "[id*=" ++ dq ++ "congrat" ++ dq
     ++ "], " ++ q ++ "[class*=" ++ dq ++ "congrat" ++ dq ++ "]";
   ".overview, " ++ q ++ "[class*=" ++ dq ++ "overview" ++ dq ++ "]";
   "div:not([style*=" ++ dq ++ "background" ++ dq ++ "])"].

(** A rule with selector [sel] that sets a transparent background is
    written in the block. *)
Definition has_transparent_rule (block sel : string) : bool :=
  contains (sel ++ " {" ++ nl ++ "            background-color: transparent !important;"
            ++ nl ++ "        }") block.

(** The [html] rule with the given [rgba(...)] background. *)
Definition html_rule (rgba : string) : string :=
  "html {" ++ nl ++ "            background-color: " ++ rgba ++ " !important;"
  ++ nl ++ "        }".

(** The selector list as the specification writes it, in one line. *)
Definition congrats_selectors_unqualified : string :=
  ".congrats-container, .congrats, [id*=" ++ dq ++ "congrat" ++ dq
  ++ "], [class*=" ++ dq ++ "congrat" ++ dq ++ "]".

Definition overview_selectors_unqualified : string :=
  ".overview, [class*=" ++ dq ++ "overview" ++ dq ++ "]".

Definition empty_document : Dom.document :=
  {| Dom.head := []; Dom.rest := [] |}.

(** The float 0.5. *)
Definition one_half : spec_float := S754_finite false 4503599627370496 (-53).

End Spec.

Module RunSpec.

Import Py ReleaseCheck.

(** The URL of the one request of [main]. *)
Definition latest_url : string :=
  "https://api.github.com/repos/ankitects/anki/releases/latest".

(** The values given to the output [name] by the workflow commands among
    the events, and those appended to the output file, in order. *)
Definition printed_of (name : string) (e : event) : list value :=
  match e with
  | SetOutput n v => if String.eqb n name then [v] else []
  | _ => []
  end.

Definition appended_of (name : string) (e : event) : list value :=
  match e with
  | AppendOutput _ n v => if String.eqb n name then [v] else []
  | _ => []
  end.

Definition printed (name : string) (evs : list event) : list value :=
  flat_map (printed_of name) evs.

Definition appended (name : string) (evs : list event) : list value :=
  flat_map (appended_of name) evs.

(** Appending to the output file cannot fail: there is no such file to
    append to, or opening and writing it succeeds. *)
Definition output_writable (w : world) : bool :=
  match GITHUB_OUTPUT w with
  | None | Some EmptyString => true
  | Some _ =>
      match output_error w with
      | None => true
      | Some _ => false
      end
  end.

(** The events of a run that was skipped as recently checked: prints, and
    the two outputs set to [false]. *)
Definition skip_event (e : event) : bool :=
  match e with
  | Print _ => true
  | SetOutput n (VStr v) | AppendOutput _ n (VStr v) =>
      (String.eqb n "new_release" || String.eqb n "needs_review")
      && String.eqb v "false"
  | _ => false
  end.

(** What [set_github_output name v] adds to the events when it succeeds. *)
Definition output_events (w : world) (name : string) (v : value)
  : list event :=
  match GITHUB_OUTPUT w with
  | None | Some EmptyString => [SetOutput name v]
  | Some path => [AppendOutput path name v; SetOutput name v]
  end.

(** The output file is in use: GITHUB_OUTPUT is set and not empty. *)
Definition file_on (w : world) : bool :=
  match GITHUB_OUTPUT w with
  | Some (String _ _) => true
  | _ => false
  end.

(** An event that sets no output. *)
Definition quiet (e : event) : bool :=
  match e with
  | SetOutput _ _ | AppendOutput _ _ _ => false
  | _ => true
  end.

(** What a run added to the two outputs: [w'] has the events of [w] and
    then some, which set [new_release] to the values [nr] and
    [needs_review] to the values [rv], by workflow command and, when the
    output file is in use, by a line appended to it as well. *)
Definition adds (w w' : world) (nr rv : list value) : Prop :=
  exists evs,
    trace w' = (trace w ++ evs)%list /\
    GITHUB_OUTPUT w' = GITHUB_OUTPUT w /\
    printed "new_release" evs = nr /\
    printed "needs_review" evs = rv /\
    appended "new_release" evs = (if file_on w then nr else []) /\
    appended "needs_review" evs = (if file_on w then rv else []).

(** ** Sample inputs *)

Definition sample_release : value :=
  VDict [("tag_name", VStr "25.02"); ("name", VStr "25.02");
         ("body", VStr "Fixes"); ("prerelease", VBool false);
         ("html_url", VStr "https://github.com/ankitects/anki/releases/tag/25.02")].

Definition sample_response : result response :=
  Ok {| status_code := 200; json := Ok sample_release |}.

Definition sample_world (force : option string) (net : result response)
           (check : file) (write_error : option exn) : world :=
  {| GITHUB_REPOSITORY := None; GITHUB_TOKEN := None;
     FORCE_CHECK := force; GITHUB_OUTPUT := Some "/tmp/github_output";
     http := fun _ => net; clock := fun _ => 7000000000;
     output_error := None; check_write_error := write_error;
     version_file := Holds "{"; check_file := check;
     ticks := 0; trace := [] |}.

Definition sample_json_load (text : string) : result value :=
  if String.eqb text "{}" then Ok (VDict []) else Raise JSONDecodeError.

Definition sample_fromisoformat (text : string) : result datetime :=
  if String.eqb text "1970-01-01T01:00:00"
  then Ok {| micros := 3600000000; aware := false |}
  else Raise ValueError.

Definition sample_isoformat (d : datetime) : string := "1970-01-01T01:56:40".

(** A reader of timestamps that knows one with an offset and the one
    that [sample_isoformat] writes as well. *)
Definition sample_fromisoformat_more (text : string) : result datetime :=
  if String.eqb text "1970-01-01T01:00:00+00:00"
  then Ok {| micros := 3600000000; aware := true |}
  else if String.eqb text "1970-01-01T01:56:40"
  then Ok {| micros := 7000000000; aware := false |}
  else sample_fromisoformat text.

(** The sample world with an output file that cannot be appended to. *)
Definition sample_world_unwritable (check : file) : world :=
  {| GITHUB_REPOSITORY := None; GITHUB_TOKEN := None;
     FORCE_CHECK := None; GITHUB_OUTPUT := Some "/tmp/github_output";
     http := fun _ => sample_response; clock := fun _ => 7000000000;
     output_error := Some PermissionError; check_write_error := None;
     version_file := Holds "{"; check_file := check;
     ticks := 0; trace := [] |}.

Section Library.

Variable json_load : string -> result value.
Variable fromisoformat : string -> result datetime.
Variable isoformat : datetime -> string.

(** The exceptions that the two readers handle. *)
Definition mapping_handled (e : exn) : bool :=
  isinstance e JSONDecodeError || isinstance e OSError.

Definition check_handled (e : exn) : bool :=
  isinstance e ValueError || isinstance e OSError.

(** Reading the version mapping fails with a handled exception: when the
    file is opened or read, or when its text is parsed. *)
Definition mapping_read_fails (f : file) : Prop :=
  exists e, mapping_handled e = true /\
    (f = Unreadable e \/ exists text, f = Holds text /\ json_load text = Raise e).

(** Reading the last check fails with a handled exception. *)
Definition check_read_fails (f : file) : Prop :=
  exists e, check_handled e = true /\
    (f = Unreadable e \/
     exists text, f = Holds text /\ fromisoformat (strip text) = Raise e).

(** Reading the version mapping raises [e] to the caller: the test for
    the file fails with it, or opening, reading or parsing fails with it
    and it is not of a handled class. *)
Definition mapping_read_raises (f : file) (e : exn) : Prop :=
  f = Inaccessible e \/
  (mapping_handled e = false /\
   (f = Unreadable e \/
    exists text, f = Holds text /\ json_load text = Raise e)).

(** Reading the last check raises [e] to the caller, likewise. *)
Definition check_read_raises (f : file) (e : exn) : Prop :=
  f = Inaccessible e \/
  (check_handled e = false /\
   (f = Unreadable e \/
    exists text, f = Holds text /\ fromisoformat (strip text) = Raise e)).

(** Two worlds that differ at most in their two files, the version
    mappings loading alike. *)
Definition alike (w w' : world) : Prop :=
  GITHUB_REPOSITORY w = GITHUB_REPOSITORY w' /\
  GITHUB_TOKEN w = GITHUB_TOKEN w' /\
  FORCE_CHECK w = FORCE_CHECK w' /\
  GITHUB_OUTPUT w = GITHUB_OUTPUT w' /\
  http w = http w' /\
  clock w = clock w' /\
  output_error w = output_error w' /\
  check_write_error w = check_write_error w' /\
  ticks w = ticks w' /\
  trace w = trace w' /\
  fst (load_version_mapping json_load w) = fst (load_version_mapping json_load w').

Definition respects {A : Type} (c : M A) : Prop :=
  forall w w', alike w w' ->
    fst (c w) = fst (c w') /\ alike (snd (c w)) (snd (c w')).

(** Two runs end alike: same outcome, same events. *)
Definition same_run (r r' : outcome * world) : Prop :=
  fst r = fst r' /\ trace (snd r) = trace (snd r').

(** The last check is recent: the file holds a naive timestamp less than
    two hours before the clock's reading. *)
Definition recent (w : world) : Prop :=
  exists text last,
    check_file w = Holds text /\
    fromisoformat (strip text) = Ok last /\
    aware last = false /\
    clock w (ticks w) - micros last < two_hours.

End Library.

End RunSpec.

(* ===================================================================== *)
(** * The settings dialog *)
(* ===================================================================== *)

Module Dialog.

Import Py Addon.

(** ** Floats, continued: [n * x] and [int(x)] *)

(** The float of an [int]: the nearest one, an error beyond the range. *)
Definition int_to_float (n : Z) : result spec_float :=
  match binary_normalize prec emax n 0 false with
  | S754_infinity _ => Raise OverflowError
  | x => Ok x
  end.

(** [n * x] for an [int] [n] and a [float] [x]. *)
Definition int_mul_float (n : Z) (x : spec_float) : result spec_float :=
  y <- int_to_float n ;;
  Ok (SFmul prec emax y x).

(** [int(x)]: towards zero. *)
Definition int_of_float (x : spec_float) : result Z :=
  match x with
  | S754_zero _ => Ok 0
  | S754_infinity _ => Raise OverflowError
  | S754_nan => Raise ValueError
  | S754_finite s m e =>
      let a := if 0 <=? e then Z.pos m * 2 ^ e else Z.pos m / 2 ^ (- e) in
      Ok (if s then - a else a)
  end.

(** The float [2.55]. *)
Definition float_2_55 : spec_float := S754_finite false 5742089524897382 (-51).

(** ** The widgets

    A [QColor] by its three channels, each from 0 to 255 in a colour that
    the toolkit built. *)
Record QColor : Type := {
  red : Z;
  green : Z;
  blue : Z
}.

Definition hex_char (d : Z) : ascii :=
  ascii_of_nat (Z.to_nat (if d <? 10 then 48 + d else 87 + d)).

Definition hex2 (n : Z) : string :=
  String (hex_char (n / 16)) (String (hex_char (n mod 16)) EmptyString).

(** [color.name()]: [#rrggbb] in lower case. *)
Definition name (c : QColor) : string :=
  "#" ++ hex2 (red c) ++ hex2 (green c) ++ hex2 (blue c).

(** A tab of the dialog: [tab.current_color] and the value of
    [tab.alpha_slider], which the slider keeps in its range 0 to 100. *)
Record tab : Type := {
  current_color : QColor;
  alpha_slider : Z
}.

Definition hex_value (c : ascii) : Z :=
  match hexval c with
  | Some d => d
  | None => 0
  end.

Definition six_hex (t : string) : bool :=
  match t with
  | String a (String b (String c (String d (String e (String f EmptyString))))) =>
      match hexval a, hexval b, hexval c, hexval d, hexval e, hexval f with
      | Some _, Some _, Some _, Some _, Some _, Some _ => true
      | _, _, _, _, _, _ => false
      end
  | _ => false
  end.

Definition byte_at (i : nat) (s : string) : Z :=
  match String.get i s, String.get (S i) s with
  | Some h, Some l => 16 * hex_value h + hex_value l
  | _, _ => 0
  end.

Section Toolkit.

(** What the toolkit makes of the other arguments: [QColor(v)] for a [v]
    that is not a string of [#] and six hexadecimal digits, and
    [setValue(v)] for a [v] that is not an [int]. *)
Variable QColor_other : value -> result QColor.
Variable setValue_other : value -> result Z.

(** [QColor(v)] *)
Definition QColor_of (v : value) : result QColor :=
  match v with
  | VStr (String "#" t) =>
      if six_hex t
      then Ok {| red := byte_at 0 t; green := byte_at 2 t; blue := byte_at 4 t |}
      else QColor_other v
  | _ => QColor_other v
  end.

(** [alpha_slider.setValue(v)] after [setRange(0, 100)]: the argument is
    a C [int], and the slider brings it into its range. *)
Definition setValue (v : value) : result Z :=
  match v with
  | VInt n =>
      if (- 2 ^ 31 <=? n) && (n <? 2 ^ 31)
      then Ok (Z.max 0 (Z.min 100 n))
      else Raise OverflowError
  | _ => setValue_other v
  end.

(** The alpha that [update_preview] gives to [bg_color.setAlpha]:
    [int(alpha * 2.55)]. *)
Definition update_preview (t : tab) : result Z :=
  x <- int_mul_float (alpha_slider t) float_2_55 ;;
  int_of_float x.

Definition create_theme_tab (config : dict) (theme_key : string) : result tab :=
  let theme_config := dict_get theme_key (theme "#000000" 30) config in
  c <- get theme_config "color" (VStr "#000000") ;;
  color <- QColor_of c ;;
  a <- get theme_config "alpha" (VInt 30) ;;
  v <- setValue a ;;
  let t := {| current_color := color; alpha_slider := v |} in
  _ <- update_preview t ;;
  Ok t.

(** [setup_ui]: [stored] is what [getConfig] returns; [x or y] takes [y]
    for [None] and for an empty dict.  The result is the two tabs,
    light and dark. *)
Definition setup_ui (stored : option dict) : result (tab * tab) :=
  let config :=
    match stored with
    | Some c => if truthy (VDict c) then c else default_config
    | None => default_config
    end in
  light_tab <- create_theme_tab config "light_theme" ;;
  dark_tab <- create_theme_tab config "dark_theme" ;;
  Ok (light_tab, dark_tab).

Definition get_config (tabs : tab * tab) : dict :=
  [("light_theme",
    VDict [("color", VStr (name (current_color (fst tabs))));
           ("alpha", VInt (alpha_slider (fst tabs)))]);
   ("dark_theme",
    VDict [("color", VStr (name (current_color (snd tabs))));
           ("alpha", VInt (alpha_slider (snd tabs)))])].

Definition settings_notice : string :=
  "Color overlay settings updated! Restart Anki to see the changes.".

(** [on_config]: [stored] is what [getConfig] returns to the dialog;
    [user] is what the user does with the open dialog, the tabs on
    acceptance or [None] on cancelling. *)
Definition on_config (stored : option dict)
           (user : tab * tab -> option (tab * tab)) (st : state)
  : result state :=
  tabs <- setup_ui stored ;;
  match user tabs with
  | Some tabs' =>
      let c := get_config tabs' in
      Ok {| config := Some c;
            written := (written st ++ [c])%list;
            notices := (notices st ++ [settings_notice])%list |}
  | None => Ok st
  end.

End Toolkit.

End Dialog.

(* ===================================================================== *)
(** * The release-check script: the functions that [main] does not call *)
(* ===================================================================== *)

Module ReleaseMore.

Import Py ReleaseCheck.

(** [get_anki_releases] *)
Definition get_anki_releases : M value :=
  fun w =>
    let url := "https://api.github.com/repos/" ++ ANKI_REPO ++ "/releases" in
    let w1 := log (HttpGet url (get_github_headers w)) w in
    match http w url with
    | Raise e => (Raise e, w1)
    | Ok resp =>
        if (400 <=? status_code resp) && (status_code resp <? 600)
        then (Raise HTTPError, w1)
        else (json resp, w1)
    end.

(** [BLUR_REPO] is the value of GITHUB_REPOSITORY, empty when unset. *)
Definition BLUR_REPO (w : world) : string :=
  environ_get (GITHUB_REPOSITORY w) EmptyString.

Definition get_existing_ankiblur_releases : M value :=
  fun w =>
    match BLUR_REPO w with
    | EmptyString => (Ok (VList []), w)
    | repo =>
        let url := "https://api.github.com/repos/" ++ repo ++ "/releases" in
        let w1 := log (HttpGet url (get_github_headers w)) w in
        let attempt :=
          match http w url with
          | Raise e => Raise e
          | Ok resp =>
              if (400 <=? status_code resp) && (status_code resp <? 600)
              then Raise HTTPError
              else json resp
          end in
        match attempt with
        | Ok v => (Ok v, w1)
        | Raise e =>
            if isinstance e RequestException
            then (Ok (VList []), w1)
            else (Raise e, w1)
        end
    end.

Section Library.

Variable json_dump : value -> string.


End Library.

End ReleaseMore.

(* ===================================================================== *)
(** * Vocabulary of the further statements *)
(* ===================================================================== *)

Module MoreSpec.

Import Py Addon Spec Dialog ReleaseCheck ReleaseMore RunSpec.

(** ** The overlay and the dialog *)

Definition byte (n : Z) : Prop := 0 <= n <= 255.

Definition valid_color (c : QColor) : Prop :=
  byte (red c) /\ byte (green c) /\ byte (blue c).

(** A tab as the widgets keep it. *)
Definition valid_tab (t : tab) : Prop :=
  valid_color (current_color t) /\ 0 <= alpha_slider t <= 100.

Definition clamp_100 (n : Z) : Z := Z.max 0 (Z.min 100 n).

Definition c_int (n : Z) : Prop := - 2 ^ 31 <= n < 2 ^ 31.

(** A theme dict with a colour and any alpha. *)
Definition colored (color : string) (alpha : value) : value :=
  VDict [("color", VStr color); ("alpha", alpha)].

(** The theme of a configuration has the colour string [color]. *)
Definition has_color (t : value) (color : string) : Prop :=
  exists d : dict, t = VDict d /\ lookup "color" d = Some (VStr color).

(** An alpha that is not a number. *)
Definition not_a_number (v : value) : bool :=
  match v with
  | VNone | VStr _ | VList _ | VDict _ => true
  | _ => false
  end.

Definition hex2_reads_back (n : Z) : bool :=
  match int16 (hex2 n) with
  | Ok m => m =? n
  | Raise _ => false
  end.

Definition float_0 : spec_float := S754_zero false.
Definition float_1 : spec_float := S754_finite false 4503599627370496 (-52).

(** [alpha / 100] lies between 0.0 and 1.0. *)
Definition fraction_in_range (alpha : Z) : bool :=
  match int_div_100 alpha with
  | Ok q => SFleb float_0 q && SFleb q float_1
  | Raise _ => false
  end.

Definition black : QColor := {| red := 0; green := 0; blue := 0 |}.

(** The preview alpha of a slider value: eight-bit scaling rounded down,
    except at the top of the slider. *)
Definition preview_as_expected (alpha : Z) : bool :=
  match update_preview {| current_color := black; alpha_slider := alpha |} with
  | Ok a => a =? (if alpha =? 100 then 254 else alpha * 255 / 100)
  | Raise _ => false
  end.

(** The tab of the mode. *)
Definition tab_of_mode (night_mode : bool) (tabs : tab * tab) : tab :=
  if night_mode then snd tabs else fst tabs.

(** The [rgba(...)] call that shows what a tab holds. *)
Definition rgba_of_tab (t : tab) : string :=
  "rgba(" ++ str_int (red (current_color t)) ++ ", " ++
  str_int (green (current_color t)) ++ ", " ++
  str_int (blue (current_color t)) ++ ", " ++
  hundredths (alpha_slider t) ++ ")".

(** What the dialog saves for a theme style that it was opened on. *)
Definition reopened (color : string) (alpha : Z) : value :=
  theme (lower color) (clamp_100 alpha).

Definition hex_pair_name (h l : ascii) : bool :=
  String.eqb (hex2 (16 * hex_value h + hex_value l))
    (String (lower_char h) (String (lower_char l) EmptyString)).

(** A toolkit that takes nothing but colours of six digits and [int]
    slider values, for the examples. *)
Definition strict_QColor (v : value) : result QColor := Raise ValueError.
Definition strict_setValue (v : value) : result Z := Raise TypeError.

Definition sample_tabs : tab * tab :=
  ({| current_color := {| red := 255; green := 128; blue := 0 |};
      alpha_slider := 20 |},
   {| current_color := {| red := 26; green := 43; blue := 60 |};
      alpha_slider := 50 |}).

(** The elements of [l] are all deeper than [d]: [l] lies inside an
    element of depth [d] that it follows. *)
Definition inside (d : nat) (l : list Dom.element) : bool :=
  forallb (fun x => (d <? Dom.depth x)%nat) l.

(** [l] does not go on inside an element of depth [d] that it follows:
    it is empty or starts with an element that is not deeper. *)
Definition outside (d : nat) (l : list Dom.element) : bool :=
  match l with
  | [] => true
  | x :: _ => (Dom.depth x <=? d)%nat
  end.

(** A document whose head has four children, the second of them the
    overlay's style element of an earlier theme with an element inside
    it. *)
Definition sample_element (t : string) (i : option string) (d : nat)
  : Dom.element :=
  {| Dom.tag := t; Dom.ident := i; Dom.textContent := EmptyString;
     Dom.depth := d |}.

Definition sample_document : Dom.document :=
  {| Dom.head := [sample_element "title" None 0;
                  sample_element "style" (Some overlay_id) 0;
                  sample_element "span" None 1;
                  sample_element "link" None 0];
     Dom.rest := [sample_element "body" None 0;
                  sample_element "div" (Some "qa") 1] |}.

(** The style element that both scripts create, with or without the
    identifier. *)
Definition overlay_element (with_id : bool) (rgba : string) : Dom.element :=
  {| Dom.tag := "style";
     Dom.ident := if with_id then Some overlay_id else None;
     Dom.textContent := overlay_style rgba;
     Dom.depth := 0 |}.

(** ** The version mapping and the release *)

(** The [anki_version] of an entry of the mapping, when the entry is a
    dict and the version a string; an entry without the key has the
    empty version. *)
Definition entry_version (info : value) : option string :=
  match info with
  | VDict i =>
      match dict_get "anki_version" (VStr EmptyString) i with
      | VStr s => Some s
      | _ => None
      end
  | _ => None
  end.

Definition well_formed_entry (e : string * value) : bool :=
  match entry_version (snd e) with
  | Some _ => true
  | None => false
  end.

(** The version of the entry, leading [v]s apart, is [a]. *)
Definition entry_is (a : string) (e : string * value) : bool :=
  match entry_version (snd e) with
  | Some s => String.eqb (lstrip_char "v" s) a
  | None => false
  end.

(** The entry is for the version [a], leading [v]s apart. *)
Definition entry_matches (a : string) (e : string * value) : bool :=
  entry_is (lstrip_char "v" a) e.

Definition str_or_none (v : value) : bool :=
  match v with
  | VStr _ | VNone => true
  | _ => false
  end.

(** The URLs of the two requests that [main] does not make. *)
Definition releases_url : string :=
  "https://api.github.com/repos/ankitects/anki/releases".

Definition existing_url (w : world) : string :=
  "https://api.github.com/repos/" ++ BLUR_REPO w ++ "/releases".

(** A world with a repository of its own. *)
Definition sample_repo_world (net : result response) : world :=
  {| GITHUB_REPOSITORY := Some "NullGates/AnkiBlur"; GITHUB_TOKEN := None;
     FORCE_CHECK := None; GITHUB_OUTPUT := None;
     http := fun _ => net; clock := fun _ => 7000000000;
     output_error := None; check_write_error := None;
     version_file := Absent; check_file := Absent;
     ticks := 0; trace := [] |}.

Definition sample_not_found : result response :=
  Ok {| status_code := 404; json := Ok VNone |}.

(** A version mapping with one entry, and a JSON library that knows its
    text. *)
Definition sample_mapping : value :=
  VDict [("1.0.0", VDict [("anki_version", VStr "25.02")])].




(** ** Runs of [main] *)

Definition logs (evs : list event) (w : world) : world :=
  fold_left (fun w' e => log e w') evs w.

(** Two worlds with the same environment, network, clock and files: they
    differ at most in the clock readings and the events so far. *)
Definition same_inputs (w' w : world) : Prop :=
  GITHUB_REPOSITORY w' = GITHUB_REPOSITORY w /\
  GITHUB_TOKEN w' = GITHUB_TOKEN w /\
  FORCE_CHECK w' = FORCE_CHECK w /\
  GITHUB_OUTPUT w' = GITHUB_OUTPUT w /\
  http w' = http w /\
  clock w' = clock w /\
  output_error w' = output_error w /\
  check_write_error w' = check_write_error w /\
  version_file w' = version_file w /\
  check_file w' = check_file w.

Definition is_request (e : event) : bool :=
  match e with
  | HttpGet _ _ => true
  | _ => false
  end.

Definition is_write (e : event) : bool :=
  match e with
  | WriteCheck _ => true
  | _ => false
  end.

(** Nothing was written but outputs and prints: the inputs are the same
    and no event rewrites the last check. *)
Definition no_write (w w' : world) : Prop :=
  same_inputs w' w /\
  exists evs, trace w' = (trace w ++ evs)%list /\ existsb is_write evs = false.

(** The ways in which [main] returns. *)
Inductive path : Type :=
  | Skipped
  | AlreadyBuilt (tag : value)
  | Significant (tag url : value)
  | Minor (tag url : value).

Definition is_skipped (p : path) : bool :=
  match p with
  | Skipped => true
  | _ => false
  end.

(** The events of the body of the [try] statement on each path, before
    the last check is marked. *)
Definition body_events (w : world) (p : path) : list event :=
  match p with
  | Skipped => []
  | AlreadyBuilt tag =>
      [HttpGet latest_url (get_github_headers w);
       PrintValue "Latest Anki release: " tag;
       PrintValue "Already built AnkiBlur for Anki " tag] ++
      output_events w "new_release" (VStr "false") ++
      output_events w "needs_review" (VStr "false")
  | Significant tag url =>
      [HttpGet latest_url (get_github_headers w);
       PrintValue "Latest Anki release: " tag;
       PrintValue "New Anki release detected: " tag;
       Print "Release appears significant, triggering automatic build"] ++
      output_events w "new_release" (VStr "true") ++
      output_events w "needs_review" (VStr "false") ++
      output_events w "anki_version" tag ++
      output_events w "changes_url" url
  | Minor tag url =>
      [HttpGet latest_url (get_github_headers w);
       PrintValue "Latest Anki release: " tag;
       PrintValue "New Anki release detected: " tag;
       Print "Release appears minor, creating issue for manual review"] ++
      output_events w "new_release" (VStr "false") ++
      output_events w "needs_review" (VStr "true") ++
      output_events w "anki_version" tag ++
      output_events w "changes_url" url
  end%list.

Definition skip_events (w : world) : list event :=
  (Print "Recently checked for updates, skipping" ::
   output_events w "new_release" (VStr "false") ++
   output_events w "needs_review" (VStr "false"))%list.

(** All the events of a run that returns on the path [p]; [text] is what
    it wrote to the last-check file. *)
Definition path_events (w : world) (text : string) (p : path) : list event :=
  (Print "Checking for Anki updates..." ::
   match p with
   | Skipped => skip_events w
   | _ => body_events w p ++ [WriteCheck text]
   end)%list.

Section Library.

Variable json_load : string -> result value.
Variable fromisoformat : string -> result datetime.
Variable isoformat : datetime -> string.

(** The text that [mark_checked] writes in the world [w]. *)
Definition mark_text (w : world) : string :=
  isoformat {| micros := clock w (ticks w); aware := false |}.

(** The world after a successful [mark_checked]. *)
Definition marked (w : world) : world :=
  log (WriteCheck (mark_text w)) (set_check_file (Holds (mark_text w)) (tick w)).

(** The release that the API answers with, and its tag. *)
Definition latest (w : world) (release tag : value) : Prop :=
  fst (get_latest_anki_release w) = Ok release /\
  subscript release "tag_name" = Ok tag.

Definition built (w : world) (tag : value) (b : bool) : Prop :=
  exists mapping,
    fst (load_version_mapping json_load w) = Ok mapping /\
    version_already_built tag mapping = Ok b.

(** What leads [check_body] to the path [p]. *)
Definition taken_body (w : world) (p : path) : Prop :=
  match p with
  | Skipped => False
  | AlreadyBuilt tag =>
      exists release, latest w release tag /\ built w tag true
  | Significant tag url =>
      exists release,
        latest w release tag /\ built w tag false /\
        is_significant_release release = Ok true /\
        subscript release "html_url" = Ok url
  | Minor tag url =>
      exists release,
        latest w release tag /\ built w tag false /\
        is_significant_release release = Ok false /\
        subscript release "html_url" = Ok url
  end.

(** The test of the last check answers that it is not recent. *)
Definition not_recent (w : world) : Prop :=
  fst (was_recently_checked fromisoformat w) = Ok false.

(** What leads [main] to the path [p]. *)
Definition taken (w : world) (p : path) : Prop :=
  match p with
  | Skipped => force_check w = false /\ recent fromisoformat w
  | _ => (force_check w = true \/ not_recent w) /\ taken_body w p
  end.

(** The world in which the test of the last check leaves a run. *)
Definition after_test (w : world) : world :=
  snd (skip_test fromisoformat (log (Print "Checking for Anki updates...") w)).

(** The world in which a run that returns on the path [p] ends. *)
Definition final (w : world) (p : path) : world :=
  if is_skipped p
  then logs (skip_events w) (after_test w)
  else marked (logs (body_events w p) (after_test w)).

(** The library reads back the timestamp that [mark_checked] writes in
    the world [w]. *)
Definition reads_mark (w : world) : Prop :=
  fromisoformat (strip (mark_text w)) =
  Ok {| micros := clock w (ticks w); aware := false |}.

End Library.

(** Combinators for what every step of a computation keeps. *)
Definition keeps {A : Type} (R : world -> world -> Prop) (c : M A) : Prop :=
  forall w r w', c w = (r, w') -> R w w'.

Definition keeps_on_raise {A : Type} (R : world -> world -> Prop) (c : M A)
  : Prop :=
  forall w e w', c w = (Raise e, w') -> R w w'.

End MoreSpec.

(* ===================================================================== *)
(** * Properties of the configuration store *)
(* ===================================================================== *)

Module ConfigFacts.

Import Py Addon Spec.

Lemma has_key_lookup (k : string) (d : dict) (v : value) :
  lookup k d = Some v -> has_key k d = true /\ forall dflt, dict_get k dflt d = v.
Proof.
  intros H. unfold has_key, dict_get. rewrite H. split; [reflexivity | trivial].
Qed.

Lemma has_key_true (k : string) (d : dict) :
  has_key k d = true -> exists v, lookup k d = Some v.
Proof.
  unfold has_key. destruct (lookup k d) as [v|]; [eauto | discriminate].
Qed.

Lemma migrated_not_legacy (C A : value) : legacy_shaped (migrated C A) = false.
Proof. reflexivity. Qed.

Lemma default_not_legacy : legacy_shaped default_config = false.
Proof. reflexivity. Qed.

Lemma migrate_new_shape (st : state) (c : dict) :
  config st = Some c -> legacy_shaped c = false ->
  migrate_config_if_needed st = st.
Proof.
  intros Hc Hl. unfold migrate_config_if_needed, legacy_shaped in *.
  rewrite Hc, Hl. reflexivity.
Qed.

Lemma migrate_legacy (st : state) (c : dict) (C A : value) :
  config st = Some c -> lookup "color" c = Some C -> lookup "alpha" c = Some A ->
  migrate_config_if_needed st =
    {| config := Some (migrated C A);
       written := (written st ++ [migrated C A])%list;
       notices := (notices st ++ [migration_notice])%list |}.
Proof.
  intros Hc HC HA. unfold migrate_config_if_needed. rewrite Hc.
  destruct (has_key_lookup _ _ _ HC) as [-> ->].
  destruct (has_key_lookup _ _ _ HA) as [-> ->].
  reflexivity.
Qed.

(** C1.  A legacy configuration, one with both top-level keys [color]
    (value [C]) and [alpha] (value [A]), is replaced by
    [{light_theme: {color: "#ffffff", alpha: A},
      dark_theme: {color: C, alpha: A}}], whose light colour is the fixed
    white and not [C], and this new configuration is at once handed to the
    host's [writeConfig] (with the notice shown to the user). *)
Theorem C1_legacy_migration (st : state) (c : dict) (C A : value) :
  config st = Some c ->
  lookup "color" c = Some C ->
  lookup "alpha" c = Some A ->
  let st' := migrate_config_if_needed st in
  config st' =
    Some [("light_theme", VDict [("color", VStr "#ffffff"); ("alpha", A)]);
          ("dark_theme", VDict [("color", C); ("alpha", A)])] /\
  written st' =
    (written st ++
       [[("light_theme", VDict [("color", VStr "#ffffff"); ("alpha", A)]);
         ("dark_theme", VDict [("color", C); ("alpha", A)])]])%list /\
  notices st' = (notices st ++ [migration_notice])%list.
Proof.
  intros Hc HC HA st'. subst st'.
  rewrite (migrate_legacy st c C A Hc HC HA). simpl. auto.
Qed.

Lemma C1_legacy_migration_witness :
  let c := [("color", VStr "#123456"); ("alpha", VInt 40)] in
  let st' := migrate_config_if_needed (load (Some c)) in
  config st' =
    Some [("light_theme", VDict [("color", VStr "#ffffff"); ("alpha", VInt 40)]);
          ("dark_theme", VDict [("color", VStr "#123456"); ("alpha", VInt 40)])] /\
  written st' =
    [[("light_theme", VDict [("color", VStr "#ffffff"); ("alpha", VInt 40)]);
      ("dark_theme", VDict [("color", VStr "#123456"); ("alpha", VInt 40)])]] /\
  notices st' = [migration_notice].
Proof.
  intros c.
  exact (C1_legacy_migration (load (Some c)) c (VStr "#123456") (VInt 40)
           eq_refl eq_refl eq_refl).
Defined.

(** C3, as the specification has it, fails on the empty object: the test
    of the code is [is None], and an empty dict is kept as it is. *)
Lemma C3_empty_object_not_default :
  config (migrate_config_if_needed (load (Some []))) <> Some default_config.
Proof. discriminate. Qed.

(** C3, amended.  An absent configuration becomes the default
    [{light_theme: {color: "#ffffff", alpha: 15},
      dark_theme: {color: "#000000", alpha: 30}}] with nothing written
    back.  An empty object is left as the empty object, again with nothing
    written back; the defaults then come from the resolver, which falls
    back to the same two theme styles for the missing keys. *)
Theorem C3_absent_or_empty (w : list dict) (n : list string) :
  migrate_config_if_needed {| config := None; written := w; notices := n |} =
    {| config :=
         Some [("light_theme", VDict [("color", VStr "#ffffff"); ("alpha", VInt 15)]);
               ("dark_theme", VDict [("color", VStr "#000000"); ("alpha", VInt 30)])];
       written := w; notices := n |} /\
  migrate_config_if_needed {| config := Some []; written := w; notices := n |} =
    {| config := Some []; written := w; notices := n |} /\
  (forall night_mode : bool,
     get_current_theme_config
       (migrate_config_if_needed {| config := Some []; written := w; notices := n |})
       night_mode
     = get_current_theme_config
         (migrate_config_if_needed {| config := None; written := w; notices := n |})
         night_mode) /\
  get_current_theme_config {| config := Some []; written := w; notices := n |} true
    = Ok (VDict [("color", VStr "#000000"); ("alpha", VInt 30)]) /\
  get_current_theme_config {| config := Some []; written := w; notices := n |} false
    = Ok (VDict [("color", VStr "#ffffff"); ("alpha", VInt 15)]).
Proof.
  repeat split; try reflexivity. intros []; reflexivity.
Qed.

(** C6.  Migration is idempotent.  A configuration that is present and
    does not have both top-level keys [color] and [alpha] comes back
    unchanged, with no write to the host and no notice; and migrating the
    result of a migration changes nothing, whatever was migrated. *)
Theorem C6_migration_idempotent :
  (forall (st : state) (c : dict),
     config st = Some c ->
     has_key "color" c && has_key "alpha" c = false ->
     migrate_config_if_needed st = st) /\
  (forall st : state,
     migrate_config_if_needed (migrate_config_if_needed st) =
     migrate_config_if_needed st).
Proof.
  split.
  - intros st c Hc Hn. exact (migrate_new_shape st c Hc Hn).
  - intros st. destruct (config st) as [c|] eqn:Hc.
    + destruct (legacy_shaped c) eqn:Hl.
      * unfold legacy_shaped in Hl. apply andb_prop in Hl as [H1 H2].
        destruct (has_key_true _ _ H1) as [C HC].
        destruct (has_key_true _ _ H2) as [A HA].
        rewrite (migrate_legacy st c C A Hc HC HA).
        eapply migrate_new_shape; [reflexivity | apply migrated_not_legacy].
      * rewrite (migrate_new_shape st c Hc Hl).
        exact (migrate_new_shape st c Hc Hl).
    + assert (Hm : migrate_config_if_needed st =
                   {| config := Some default_config;
                      written := written st; notices := notices st |})
        by (unfold migrate_config_if_needed; rewrite Hc; reflexivity).
      rewrite Hm.
      eapply migrate_new_shape; [reflexivity | apply default_not_legacy].
Qed.

Lemma C6_migration_idempotent_witness :
  let st := load (Some default_config) in
  migrate_config_if_needed st = st.
Proof.
  intros st.
  exact (proj1 C6_migration_idempotent st default_config eq_refl eq_refl).
Defined.

End ConfigFacts.

(* ===================================================================== *)
(** * Facts about the texts *)
(* ===================================================================== *)

Module TextFacts.

Import Py Spec.

(** ** The conversions on known values *)

Example int16_values :
  int16 "1a" = Ok 26 /\ int16 "FF" = Ok 255 /\ int16 " f" = Ok 15 /\
  int16 "-1" = Ok (-1) /\ int16 "1_0" = Ok 16 /\ int16 "0x1f" = Ok 31 /\
  int16 "0x" = Raise ValueError /\ int16 "g0" = Raise ValueError /\
  int16 "1_" = Raise ValueError /\ int16 EmptyString = Raise ValueError.
Proof. vm_compute. repeat split. Qed.

Example str_int_values :
  str_int 0 = "0" /\ str_int 26 = "26" /\ str_int 255 = "255" /\
  str_int (-1) = "-1" /\ str_int 1000 = "1000".
Proof. vm_compute. repeat split. Qed.

Example int_div_100_values :
  int_div_100 30 = Ok (S754_finite false 5404319552844595 (-54)) /\
  int_div_100 50 = Ok (S754_finite false 4503599627370496 (-53)) /\
  int_div_100 0 = Ok (S754_zero false) /\
  int_div_100 (10 ^ 400) = Raise OverflowError.
Proof. vm_compute. repeat split. Qed.

Example float_repr_values :
  float_repr (S754_finite false 5404319552844595 (-54)) = "0.3" /\
  float_repr (S754_finite false 5404319552844596 (-54)) = "0.30000000000000004" /\
  float_repr (S754_finite false 6004799503160661 (-54)) = "0.3333333333333333" /\
  float_repr (S754_finite false 5742089524897382 (-51)) = "2.55" /\
  float_repr (S754_finite true 5629499534213120 (-51)) = "-2.5" /\
  float_repr (S754_finite false 4503599627370496 (-52)) = "1.0" /\
  float_repr (S754_finite false 8285044871266304 (-26)) = "123456789.125" /\
  float_repr (S754_finite false 7378697629483821 (-66)) = "0.0001" /\
  float_repr (S754_finite false 5902958103587057 (-69)) = "1e-05" /\
  float_repr (S754_finite false 5000000000000000 1) = "1e+16" /\
  float_repr (S754_finite false 4768371582031250 21) = "1e+22".
Proof. vm_compute. repeat split. Qed.

(** ** Texts and their parts *)

Lemma append_assoc (a b c : string) : (a ++ b) ++ c = a ++ b ++ c.
Proof. induction a as [|x a IH]; simpl; [reflexivity | now rewrite IH]. Qed.

Lemma prefix_empty (b : string) : prefix EmptyString b = true.
Proof. destruct b; reflexivity. Qed.

Lemma prefix_append (x b : string) : prefix x (x ++ b) = true.
Proof.
  induction x as [|c x IH]; simpl; [apply prefix_empty|].
  destruct (ascii_dec c c) as [_|n]; [exact IH | now elim n].
Qed.

Lemma prefix_weaken (x a b : string) :
  prefix x a = true -> prefix x (a ++ b) = true.
Proof.
  revert a. induction x as [|c x IH]; intros a H; [apply prefix_empty|].
  destruct a as [|d a]; [discriminate|]. simpl in *.
  destruct (ascii_dec c d); [now apply IH | discriminate].
Qed.

Lemma contains_append_r (x a b : string) :
  contains x b = true -> contains x (a ++ b) = true.
Proof.
  intros H. induction a as [|c a IH]; [exact H|].
  change (String c a ++ b) with (String c (a ++ b)). cbn [contains].
  rewrite IH. apply orb_true_r.
Qed.

Lemma contains_append_l (x a b : string) :
  contains x a = true -> contains x (a ++ b) = true.
Proof.
  induction a as [|c a IH]; intros H.
  - cbn [contains] in H. rewrite orb_false_r in H.
    destruct x; [|discriminate].
    change (EmptyString ++ b) with b. destruct b; reflexivity.
  - cbn [contains] in H.
    change (String c a ++ b) with (String c (a ++ b)). cbn [contains].
    apply orb_prop in H as [H|H].
    + change (String c (a ++ b)) with (String c a ++ b).
      rewrite (prefix_weaken _ _ b H). reflexivity.
    + rewrite (IH H). apply orb_true_r.
Qed.

Lemma prefix_refl (x : string) : prefix x x = true.
Proof.
  induction x as [|c x IH]; simpl; [reflexivity|].
  destruct (ascii_dec c c) as [_|n]; [exact IH | now elim n].
Qed.

Lemma contains_middle (x a b : string) : contains x (a ++ x ++ b) = true.
Proof.
  apply contains_append_r, contains_append_l.
  destruct x; cbn [contains]; [reflexivity|].
  now rewrite prefix_refl.
Qed.

(** A character foreign to the pattern cannot lie inside an occurrence. *)
Lemma prefix_foreign (pat a b : string) (c : ascii) :
  str_contains_char c pat = false ->
  prefix pat (a ++ String c b) = prefix pat a.
Proof.
  revert a. induction pat as [|p pat IH]; intros a H;
    [now rewrite !prefix_empty|].
  simpl in H. apply orb_false_elim in H as [Hp Hpat].
  destruct a as [|x a]; simpl.
  - destruct (ascii_dec p c) as [->|_]; [|reflexivity].
    rewrite Ascii.eqb_refl in Hp. discriminate.
  - destruct (ascii_dec p x); [now apply IH | reflexivity].
Qed.

Lemma occurrences_foreign (p : ascii) (pat a b : string) (c : ascii) :
  str_contains_char c (String p pat) = false ->
  occurrences (String p pat) (a ++ String c b) =
  (occurrences (String p pat) a + occurrences (String p pat) b)%nat.
Proof.
  intros H. induction a as [|x a IH].
  - change (EmptyString ++ String c b) with (String c b).
    cbn [occurrences].
    change (String c b) with (EmptyString ++ String c b) at 1.
    rewrite (prefix_foreign _ EmptyString b c H). simpl. reflexivity.
  - change (String x a ++ String c b) with (String x (a ++ String c b)).
    cbn [occurrences].
    change (String x (a ++ String c b)) with (String x a ++ String c b).
    rewrite (prefix_foreign _ (String x a) b c H), IH. lia.
Qed.

(** No occurrence starts inside a text that lacks the pattern's first
    character. *)
Lemma occurrences_skip (p : ascii) (pat x b : string) :
  str_contains_char p x = false ->
  occurrences (String p pat) (x ++ b) = occurrences (String p pat) b.
Proof.
  induction x as [|c x IH]; intros H; [reflexivity|].
  simpl in H. apply orb_false_elim in H as [Hc Hx].
  change (String c x ++ b) with (String c (x ++ b)).
  cbn [occurrences]. rewrite (IH Hx).
  simpl. destruct (ascii_dec p c) as [->|_]; [|reflexivity].
  rewrite Ascii.eqb_refl in Hc. discriminate.
Qed.

Lemma all_chars_append (p : ascii -> bool) (a b : string) :
  all_chars p (a ++ b) = all_chars p a && all_chars p b.
Proof.
  induction a as [|c a IH]; simpl; [reflexivity|].
  rewrite IH. apply andb_assoc.
Qed.

Lemma all_chars_substring (p : ascii -> bool) (s : string) :
  all_chars p s = true -> forall n m, all_chars p (substring n m s) = true.
Proof.
  induction s as [|c s IH]; intros H n m.
  - destruct n, m; reflexivity.
  - simpl in H. apply andb_prop in H as [Hc Hs].
    destruct n as [|n]; [destruct m as [|m]|]; simpl; auto.
    rewrite Hc. simpl. auto.
Qed.

Lemma all_chars_zeros (n : nat) : all_chars numeric_char (zeros n) = true.
Proof. induction n; simpl; auto. Qed.

Lemma numeric_digit_char (d : Z) :
  0 <= d < 10 -> numeric_char (digit_char d) = true.
Proof.
  intros H.
  assert (E : d = 0 \/ d = 1 \/ d = 2 \/ d = 3 \/ d = 4 \/ d = 5 \/ d = 6 \/
              d = 7 \/ d = 8 \/ d = 9) by lia.
  repeat (destruct E as [->|E]; [reflexivity|]). subst d. reflexivity.
Qed.

Lemma numeric_dec_digits (fuel : nat) :
  forall (n : Z) (acc : string),
    all_chars numeric_char acc = true ->
    all_chars numeric_char (dec_digits fuel n acc) = true.
Proof.
  induction fuel as [|fuel IH]; intros n acc H; simpl; [exact H|].
  assert (Hd : numeric_char (digit_char (n mod 10)) = true)
    by (apply numeric_digit_char, Z.mod_pos_bound; lia).
  destruct (n <? 10).
  - simpl. now rewrite Hd, H.
  - apply IH. simpl. now rewrite Hd, H.
Qed.

Lemma numeric_str_nonneg (n : Z) : all_chars numeric_char (str_nonneg n) = true.
Proof. apply numeric_dec_digits. reflexivity. Qed.

Lemma numeric_str_int (n : Z) : all_chars numeric_char (str_int n) = true.
Proof.
  unfold str_int. destruct (n <? 0).
  - simpl. apply numeric_str_nonneg.
  - apply numeric_str_nonneg.
Qed.

Lemma numeric_exponent_digits (x : Z) :
  all_chars numeric_char (exponent_digits x) = true.
Proof.
  unfold exponent_digits. destruct (x <? 10); simpl; apply numeric_str_nonneg.
Qed.

Lemma numeric_repr_layout (ds : string) (k : Z) :
  all_chars numeric_char ds = true ->
  all_chars numeric_char (repr_layout ds k) = true.
Proof.
  intros H. unfold repr_layout.
  destruct ((Z.of_nat (String.length ds) + k <=? -4) ||
            (16 <? Z.of_nat (String.length ds) + k)).
  - rewrite !all_chars_append, numeric_exponent_digits.
    assert (Hm : all_chars numeric_char
                   match ds with
                   | String c (String c' rest) => String c ("." ++ String c' rest)
                   | _ => ds
                   end = true).
    { destruct ds as [|c [|c' rest]]; exact H. }
    rewrite Hm. destruct (_ <? 0); reflexivity.
  - destruct (_ <=? 0).
    + rewrite !all_chars_append, all_chars_zeros, H. reflexivity.
    + destruct (_ <=? _).
      * rewrite !all_chars_append, all_chars_zeros, H. reflexivity.
      * rewrite !all_chars_append, !all_chars_substring by exact H.
        reflexivity.
Qed.

Lemma numeric_float_repr (x : spec_float) :
  all_chars numeric_char (float_repr x) = true.
Proof.
  destruct x as [s|s| |s m e]; unfold float_repr;
    try (destruct s; reflexivity); try reflexivity.
  rewrite all_chars_append.
  destruct (binary_normalize prec emax (Z.pos m) e false) as [| | |s' m' e'];
    try (destruct s; reflexivity).
  assert (H : all_chars numeric_char (repr_finite (Z.pos m') e') = true).
  { unfold repr_finite. destruct (shortest_digits (Z.pos m') e') as [d k].
    apply numeric_repr_layout, numeric_str_nonneg. }
  rewrite H. destruct s; reflexivity.
Qed.

(** A numeric text holds none of the letters of [html]. *)
Lemma numeric_lacks (c : ascii) (s : string) :
  numeric_char c = false ->
  all_chars numeric_char s = true -> str_contains_char c s = false.
Proof.
  intros Hc. induction s as [|d s IH]; intros H; simpl; [reflexivity|].
  simpl in H. apply andb_prop in H as [Hd Hs]. rewrite (IH Hs).
  destruct (Ascii.eqb_spec c d) as [->|_]; [congruence | reflexivity].
Qed.

(** ** Hexadecimal digits *)

Lemma hex_cases (P : ascii -> Prop) :
  Forall P hex_chars -> forall c, is_hex c = true -> P c.
Proof.
  intros HF c Hc. rewrite Forall_forall in HF. apply HF.
  destruct c as [[] [] [] [] [] [] [] []]; vm_compute in Hc;
    try discriminate; vm_compute; tauto.
Qed.

Lemma int16_hex_pair (h l : ascii) :
  is_hex h = true -> is_hex l = true ->
  int16 (String h (String l EmptyString)) = Ok (hex_pair h l).
Proof.
  intros Hh. revert l. revert h Hh.
  apply (hex_cases (fun h => forall l, is_hex l = true ->
           int16 (String h (String l EmptyString)) = Ok (hex_pair h l))).
  repeat (apply Forall_cons;
          [apply (hex_cases (fun l => int16 (String _ (String l EmptyString)) = _));
           repeat (apply Forall_cons; [vm_compute; reflexivity|]); apply Forall_nil|]).
  apply Forall_nil.
Qed.

Lemma hex_pair_byte (h l : ascii) :
  is_hex h = true -> is_hex l = true -> 0 <= hex_pair h l <= 255.
Proof.
  intros Hh. revert l. revert h Hh.
  apply (hex_cases (fun h => forall l, is_hex l = true -> 0 <= hex_pair h l <= 255)).
  repeat (apply Forall_cons;
          [apply (hex_cases (fun l => 0 <= hex_pair _ l <= 255));
           repeat (apply Forall_cons; [vm_compute; split; discriminate|]);
           apply Forall_nil|]).
  apply Forall_nil.
Qed.

(** A colour of the data model, taken apart. *)
Lemma theme_color_chars (s : string) :
  is_theme_color s = true ->
  exists h1 h2 h3 h4 h5 h6 : ascii,
    s = String "#" (String h1 (String h2 (String h3 (String h4
          (String h5 (String h6 EmptyString)))))) /\
    is_hex h1 = true /\ is_hex h2 = true /\ is_hex h3 = true /\
    is_hex h4 = true /\ is_hex h5 = true /\ is_hex h6 = true.
Proof.
  unfold is_theme_color. intros H.
  destruct s as [|c s]; [discriminate|].
  destruct (Ascii.eqb_spec c "#") as [->|Hne].
  - apply andb_prop in H as [Hlen Hall].
    destruct s as [|h1 [|h2 [|h3 [|h4 [|h5 [|h6 [|h7 s]]]]]]]; try discriminate.
    simpl in Hall.
    repeat (apply andb_prop in Hall as [? Hall]).
    exists h1, h2, h3, h4, h5, h6. repeat split; assumption.
  - exfalso. destruct c as [[] [] [] [] [] [] [] []]; try discriminate;
      now apply Hne.
Qed.

Lemma Z_range_In (lo : Z) (n : nat) (x : Z) :
  lo <= x < lo + Z.of_nat n -> In x (Z_range lo n).
Proof.
  revert lo. induction n as [|n IH]; intros lo H; [lia|].
  simpl. destruct (Z.eq_dec lo x) as [->|Hne]; [now left | right].
  apply IH. lia.
Qed.

End TextFacts.

(* ===================================================================== *)
(** * Properties of the overlay renderer *)
(* ===================================================================== *)

Module OverlayFacts.

Import Py Addon Spec TextFacts.

Lemma div_100_exact_range :
  forallb div_100_exact (Z_range (-1000) 2001) = true.
Proof. vm_compute. reflexivity. Qed.

(** From -10.0 to 10.0 the quotient is a float whose text is the exact
    decimal quotient: nothing is clamped to the interval from 0 to 1. *)
Lemma int_div_100_exact (alpha : Z) :
  -1000 <= alpha <= 1000 ->
  exists a, int_div_100 alpha = Ok a /\ float_repr a = hundredths alpha.
Proof.
  intros H.
  assert (Hin : In alpha (Z_range (-1000) 2001)) by (apply Z_range_In; lia).
  pose proof (proj1 (forallb_forall _ _) div_100_exact_range alpha Hin) as E.
  unfold div_100_exact in E. destruct (int_div_100 alpha) as [a|]; [|discriminate].
  exists a. split; [reflexivity|]. now apply String.eqb_eq.
Qed.

Lemma rgba_of_theme_style (t : value) (color : string) (alpha : Z) :
  theme_style t color alpha ->
  channel (VStr color) 1 3 = Ok (hex_pair (char_at 1 color) (char_at 2 color)) /\
  channel (VStr color) 3 5 = Ok (hex_pair (char_at 3 color) (char_at 4 color)) /\
  channel (VStr color) 5 7 = Ok (hex_pair (char_at 5 color) (char_at 6 color)) /\
  rgba_of_theme t =
    (a <- int_div_100 alpha ;;
     Ok (hex_pair (char_at 1 color) (char_at 2 color),
         hex_pair (char_at 3 color) (char_at 4 color),
         hex_pair (char_at 5 color) (char_at 6 color), a)).
Proof.
  intros (d & -> & Hc & Ha & Hcol).
  destruct (theme_color_chars _ Hcol)
    as (h1 & h2 & h3 & h4 & h5 & h6 & -> & H1 & H2 & H3 & H4 & H5 & H6).
  assert (C1 : channel (VStr (String "#" (String h1 (String h2 (String h3
                 (String h4 (String h5 (String h6 EmptyString)))))))) 1 3
               = Ok (hex_pair h1 h2)) by (apply int16_hex_pair; assumption).
  assert (C2 : channel (VStr (String "#" (String h1 (String h2 (String h3
                 (String h4 (String h5 (String h6 EmptyString)))))))) 3 5
               = Ok (hex_pair h3 h4)) by (apply int16_hex_pair; assumption).
  assert (C3 : channel (VStr (String "#" (String h1 (String h2 (String h3
                 (String h4 (String h5 (String h6 EmptyString)))))))) 5 7
               = Ok (hex_pair h5 h6)) by (apply int16_hex_pair; assumption).
  repeat split; try assumption.
  unfold rgba_of_theme, get, dict_get. rewrite Hc, Ha.
  cbn [bind]. rewrite C1, C2, C3. reflexivity.
Qed.

(** ** The style block of [inject_overlay] *)

Lemma str_contains_char_append (c : ascii) (a b : string) :
  str_contains_char c (a ++ b) = str_contains_char c a || str_contains_char c b.
Proof.
  induction a as [|x a IH]; simpl; [reflexivity|].
  rewrite IH. apply orb_assoc.
Qed.

(** The call [rgba(...)] starts with [r]; a character that is neither
    numeric nor one of its punctuation does not occur after that. *)
Lemma rgba_text_lacks (ch : ascii) (c : Z * Z * Z * spec_float) :
  numeric_char ch = false ->
  str_contains_char ch "gba(, )" = false ->
  exists x, rgba_text c = String "r" x /\ str_contains_char ch x = false.
Proof.
  intros Hn Hp. destruct c as [[[r g] b] a]. unfold rgba_text.
  eexists. split; [reflexivity|].
  assert (Hi : forall n, str_contains_char ch (str_int n) = false)
    by (intros n; apply numeric_lacks; [exact Hn | apply numeric_str_int]).
  assert (Hf : str_contains_char ch (float_repr a) = false)
    by (apply numeric_lacks; [exact Hn | apply numeric_float_repr]).
  simpl in Hp. repeat (apply orb_false_elim in Hp as [? Hp]).
  repeat first
    [ rewrite str_contains_char_append
    | rewrite Hi
    | rewrite Hf
    | progress cbn [str_contains_char append orb]
    | match goal with H : Ascii.eqb ch _ = false |- _ => rewrite H end ].
  reflexivity.
Qed.

Lemma occurrences_around_rgba (p : ascii) (pat pre post : string)
      (c : Z * Z * Z * spec_float) :
  numeric_char p = false ->
  str_contains_char p "gba(, )" = false ->
  str_contains_char "r" (String p pat) = false ->
  occurrences (String p pat) (pre ++ rgba_text c ++ post) =
  (occurrences (String p pat) pre + occurrences (String p pat) post)%nat.
Proof.
  intros Hn Hp Hr.
  destruct (rgba_text_lacks p c Hn Hp) as (x & -> & Hx).
  change (String "r" x ++ post) with (String "r" (x ++ post)).
  rewrite (occurrences_foreign p pat pre (x ++ post) "r" Hr).
  now rewrite (occurrences_skip p pat x post Hx).
Qed.

Lemma transparent_rule_after (rgba sel : string) :
  has_transparent_rule css_after_rgba sel = true ->
  has_transparent_rule (background_css rgba) sel = true.
Proof.
  unfold has_transparent_rule, background_css. intros H.
  now apply contains_append_r, contains_append_r.
Qed.

Lemma css_rules_after :
  forallb (has_transparent_rule css_after_rgba) (selector_list "div") = true.
Proof. vm_compute. reflexivity. Qed.

Lemma html_rule_in_css (rgba : string) :
  contains (html_rule rgba) (background_css rgba) = true.
Proof.
  unfold background_css, html_rule.
  pose (P := nl ++ "        <style>" ++ nl ++ "        ").
  pose (A := "html {" ++ nl ++ "            background-color: ").
  pose (B := " !important;" ++ nl ++ "        }").
  pose (Q := substring (String.length B) (String.length css_after_rgba)
               css_after_rgba).
  assert (E1 : css_before_rgba = P ++ A) by (vm_compute; reflexivity).
  assert (E2 : css_after_rgba = B ++ Q) by (vm_compute; reflexivity).
  rewrite E1, E2.
  change ("html {" ++ nl ++ "            background-color: " ++ rgba ++
          " !important;" ++ nl ++ "        }")
    with (A ++ rgba ++ B).
  replace ((P ++ A) ++ rgba ++ B ++ Q) with (P ++ (A ++ rgba ++ B) ++ Q)
    by (now rewrite !append_assoc).
  apply contains_middle.
Qed.

Lemma inject_overlay_result (st : state) (night_mode : bool) (head out : string) :
  inject_overlay st night_mode head = Ok out ->
  exists c, out = head ++ background_css (rgba_text c).
Proof.
  unfold inject_overlay. intros H.
  destruct (get_current_theme_config st night_mode) as [t|]; [|discriminate].
  cbn [bind] in H. destruct (rgba_of_theme t) as [c|]; [|discriminate].
  cbn [bind] in H. exists c. congruence.
Qed.

(** C2, as the specification has it, fails: the three attribute selectors
    of the code are qualified by [div], so the unqualified selector lists
    [.congrats-container, .congrats, [id*="congrat"], [class*="congrat"]]
    and [.overview, [class*="overview"]] are not in the block. *)
Lemma C2_unqualified_selectors_absent :
  exists out,
    inject_overlay (init None) false EmptyString = Ok out /\
    contains congrats_selectors_unqualified out = false /\
    contains overview_selectors_unqualified out = false /\
    forallb (has_transparent_rule out) (selector_list EmptyString) = false.
Proof. eexists. split; [reflexivity|]. vm_compute. auto. Qed.

(** C2, amended.  Whatever the colour and alpha of the theme, an
    injection that goes through appends to the head one style block; the
    block has exactly one [html] rule and that rule sets the [rgba(...)]
    background; and the block has, verbatim, the rules of the fixed
    selectors [body], [#outer, #main, .main-webview], [.card],
    [.congrats-container, .congrats, div[id*="congrat"], div[class*="congrat"]],
    [.overview, div[class*="overview"]] and the catch-all
    [div:not([style*="background"])], the attribute selectors being
    qualified by [div].  For every theme style of the data model (a colour
    of six hexadecimal digits, an integer alpha from 0 to 100) the
    injection does go through. *)
Theorem C2_injection_css (st : state) (night_mode : bool) (head : string) :
  (forall out : string,
     inject_overlay st night_mode head = Ok out ->
     exists (c : Z * Z * Z * spec_float) (block : string),
       block = background_css (rgba_text c) /\
       out = head ++ block /\
       occurrences "<style>" block = 1%nat /\
       occurrences "</style>" block = 1%nat /\
       occurrences "html" block = 1%nat /\
       contains (html_rule (rgba_text c)) block = true /\
       forallb (has_transparent_rule block) (selector_list "div") = true) /\
  (forall (t : value) (color : string) (alpha : Z),
     get_current_theme_config st night_mode = Ok t ->
     theme_style t color alpha ->
     0 <= alpha <= 100 ->
     exists out : string, inject_overlay st night_mode head = Ok out).
Proof.
  split.
  - intros out H. destruct (inject_overlay_result _ _ _ _ H) as [c ->].
    exists c, (background_css (rgba_text c)).
    split; [reflexivity|]. split; [reflexivity|].
    split; [|split; [|split; [|split]]].
    + unfold background_css.
      rewrite occurrences_around_rgba by reflexivity. vm_compute. reflexivity.
    + unfold background_css.
      rewrite occurrences_around_rgba by reflexivity. vm_compute. reflexivity.
    + unfold background_css.
      rewrite occurrences_around_rgba by reflexivity. vm_compute. reflexivity.
    + apply html_rule_in_css.
    + apply forallb_forall. intros sel Hsel. apply transparent_rule_after.
      exact (proj1 (forallb_forall _ _) css_rules_after sel Hsel).
  - intros t color alpha Ht Hs Ha.
    destruct (rgba_of_theme_style _ _ _ Hs) as (_ & _ & _ & E).
    destruct (int_div_100_exact alpha ltac:(lia)) as (a & Ea & _).
    unfold inject_overlay. rewrite Ht. cbn [bind]. rewrite E, Ea. cbn [bind].
    eexists. reflexivity.
Qed.

Lemma C2_injection_css_witness :
  exists out : string,
    inject_overlay (init (Some [("dark_theme", theme "#1a2b3c" 50)])) true
      "<title>deck</title>" = Ok out.
Proof.
  refine (proj2 (C2_injection_css
                   (init (Some [("dark_theme", theme "#1a2b3c" 50)])) true
                   "<title>deck</title>")
                (theme "#1a2b3c" 50) "#1a2b3c" 50 eq_refl _ _).
  - exists [("color", VStr "#1a2b3c"); ("alpha", VInt 50)].
    repeat split; reflexivity.
  - lia.
Defined.

(** ** The conversion to [rgba(...)] *)

Lemma finished_screen_dark_default (w : list dict) (n : list string)
      (web : Dom.page) :
  inject_finished_screen_style
    {| config := Some [("dark_theme", theme "#000000" 30)];
       written := w; notices := n |} true (Some web)
  = Ok (web_eval (finished_screen_js "rgba(0, 0, 0, 0.3)")
                 (finished_screen_script "rgba(0, 0, 0, 0.3)") web).
Proof.
  unfold inject_finished_screen_style.
  change (get_current_theme_config _ true) with (Ok (theme "#000000" 30)).
  cbn [bind].
  replace (rgba_of_theme (theme "#000000" 30))
    with (Ok (0, 0, 0, S754_finite false 5404319552844595 (-54)))
    by (vm_compute; reflexivity).
  cbn [bind].
  replace (rgba_text (0, 0, 0, S754_finite false 5404319552844595 (-54)))
    with "rgba(0, 0, 0, 0.3)" by (vm_compute; reflexivity).
  reflexivity.
Qed.

(** C5.  For every theme style, whatever its integer alpha, the
    conversion reads [color[1:3]], [color[3:5]] and [color[5:7]] as
    base-16 integers for r, g and b, the bytes that the three pairs of
    digits write, and takes as the alpha fraction the quotient
    [alpha / 100] of the division as it is: the alpha is compared with
    nothing, and the conversion fails only where the division does, with
    an [OverflowError] for a quotient beyond the floats.  From -1000 to
    1000 the fraction is the float that prints as the exact quotient, as
    1.5 for 150 and -0.2 for -20, and further out 123456.78 for 12345678.
    In particular [{color: "#1a2b3c", alpha: 50}] gives r = 26, g = 43,
    b = 60 and the fraction 0.5, and with the dark theme
    [{color: "#000000", alpha: 30}] active the finished-screen script
    contains [rgba(0, 0, 0, 0.3)]. *)
Theorem C5_rgba_conversion :
  (forall (t : value) (color : string) (alpha : Z),
     theme_style t color alpha ->
     exists r g b : Z,
       int16 (slice 1 3 color) = Ok r /\
       int16 (slice 3 5 color) = Ok g /\
       int16 (slice 5 7 color) = Ok b /\
       r = hex_pair (char_at 1 color) (char_at 2 color) /\
       g = hex_pair (char_at 3 color) (char_at 4 color) /\
       b = hex_pair (char_at 5 color) (char_at 6 color) /\
       rgba_of_theme t =
         match int_div_100 alpha with
         | Ok a => Ok (r, g, b, a)
         | Raise e => Raise e
         end) /\
  (forall (t : value) (color : string) (alpha : Z),
     theme_style t color alpha ->
     -1000 <= alpha <= 1000 ->
     exists (r g b : Z) (a : spec_float),
       rgba_of_theme t = Ok (r, g, b, a) /\
       int16 (slice 1 3 color) = Ok r /\
       int16 (slice 3 5 color) = Ok g /\
       int16 (slice 5 7 color) = Ok b /\
       r = hex_pair (char_at 1 color) (char_at 2 color) /\
       g = hex_pair (char_at 3 color) (char_at 4 color) /\
       b = hex_pair (char_at 5 color) (char_at 6 color) /\
       int_div_100 alpha = Ok a /\
       float_repr a = hundredths alpha) /\
  hundredths 150 = "1.5" /\
  hundredths (-20) = "-0.2" /\
  (exists a : spec_float,
     rgba_of_theme (theme "#1a2b3c" 12345678) = Ok (26, 43, 60, a) /\
     float_repr a = "123456.78") /\
  rgba_of_theme (theme "#1a2b3c" (10 ^ 400)) = Raise OverflowError /\
  rgba_of_theme (theme "#1a2b3c" 50) = Ok (26, 43, 60, one_half) /\
  float_repr one_half = "0.5" /\
  (forall (w : list dict) (n : list string) (web : Dom.page),
     exists inj : injected,
       inject_finished_screen_style
         {| config := Some [("dark_theme", theme "#000000" 30)];
            written := w; notices := n |} true (Some web) = Ok inj /\
       contains "rgba(0, 0, 0, 0.3)" (js_code inj) = true).
Proof.
  split; [|split; [|split; [|split; [|split; [|split; [|split; [|split]]]]]]].
  - intros t color alpha Hs.
    destruct (rgba_of_theme_style _ _ _ Hs) as (C1 & C2 & C3 & E).
    exists (hex_pair (char_at 1 color) (char_at 2 color)),
           (hex_pair (char_at 3 color) (char_at 4 color)),
           (hex_pair (char_at 5 color) (char_at 6 color)).
    repeat split; assumption.
  - intros t color alpha Hs Ha.
    destruct (rgba_of_theme_style _ _ _ Hs) as (C1 & C2 & C3 & E).
    destruct (int_div_100_exact alpha Ha) as (a & Ea & Er).
    exists (hex_pair (char_at 1 color) (char_at 2 color)),
           (hex_pair (char_at 3 color) (char_at 4 color)),
           (hex_pair (char_at 5 color) (char_at 6 color)), a.
    rewrite E, Ea. cbn [bind]. repeat split; assumption.
  - vm_compute. reflexivity.
  - vm_compute. reflexivity.
  - eexists. split; [vm_compute; reflexivity|]. vm_compute. reflexivity.
  - vm_compute. reflexivity.
  - vm_compute. reflexivity.
  - vm_compute. reflexivity.
  - intros w n web. rewrite finished_screen_dark_default.
    eexists. split; [reflexivity|]. vm_compute. reflexivity.
Qed.

Lemma C5_rgba_conversion_witness :
  (exists r g b : Z,
     int16 (slice 1 3 "#ff8000") = Ok r /\
     int16 (slice 3 5 "#ff8000") = Ok g /\
     int16 (slice 5 7 "#ff8000") = Ok b /\
     r = 255 /\ g = 128 /\ b = 0 /\
     rgba_of_theme (theme "#ff8000" 250000) =
       match int_div_100 250000 with
       | Ok a => Ok (r, g, b, a)
       | Raise e => Raise e
       end) /\
  (exists (r g b : Z) (a : spec_float),
     rgba_of_theme (theme "#ff8000" 150) = Ok (r, g, b, a) /\
     int16 (slice 1 3 "#ff8000") = Ok r /\
     int16 (slice 3 5 "#ff8000") = Ok g /\
     int16 (slice 5 7 "#ff8000") = Ok b /\
     r = 255 /\ g = 128 /\ b = 0 /\
     int_div_100 150 = Ok a /\
     float_repr a = "1.5").
Proof.
  split.
  - refine (proj1 C5_rgba_conversion (theme "#ff8000" 250000) "#ff8000" 250000 _).
    exists [("color", VStr "#ff8000"); ("alpha", VInt 250000)].
    repeat split; reflexivity.
  - refine (proj1 (proj2 C5_rgba_conversion) (theme "#ff8000" 150) "#ff8000" 150 _ _).
    + exists [("color", VStr "#ff8000"); ("alpha", VInt 150)].
      repeat split; reflexivity.
    + lia.
Defined.

(** ** The two scripts *)

Section Counting.

Variable p : Dom.element -> bool.

Lemma filter_find_none (l : list Dom.element) :
  find p l = None -> filter p l = [].
Proof.
  induction l as [|e l IH]; simpl; [reflexivity|].
  destruct (p e); [discriminate | exact IH].
Qed.

Lemma filter_existsb_false (l : list Dom.element) :
  existsb p l = false -> filter p l = [].
Proof.
  induction l as [|e l IH]; simpl; [reflexivity|].
  destruct (p e); [discriminate | exact IH].
Qed.

Lemma filter_existsb_true (l : list Dom.element) :
  existsb p l = true -> (1 <= List.length (filter p l))%nat.
Proof.
  induction l as [|e l IH]; simpl; [discriminate|].
  destruct (p e); simpl; [lia | exact IH].
Qed.

Lemma filter_drop_inside (d : nat) (l : list Dom.element) :
  (List.length (filter p (Dom.drop_inside d l)) <= List.length (filter p l))%nat.
Proof.
  induction l as [|e l IH]; cbn [Dom.drop_inside]; [lia|].
  destruct (d <? Dom.depth e)%nat; [|lia].
  cbn [filter]. destruct (p e); simpl; lia.
Qed.

Lemma filter_remove_first (l : list Dom.element) :
  (List.length (filter p (Dom.remove_first p l)) <=
   Nat.pred (List.length (filter p l)))%nat.
Proof.
  induction l as [|e l IH]; simpl; [lia|].
  destruct (p e) eqn:E; simpl; [apply filter_drop_inside|].
  rewrite E. exact IH.
Qed.

Lemma filter_both_le (q : Dom.element -> bool) (l : list Dom.element) :
  (List.length (filter (fun e => q e && p e) l) <= List.length (filter p l))%nat.
Proof.
  induction l as [|e l IH]; simpl; [lia|].
  destruct (q e), (p e); simpl; lia.
Qed.

End Counting.

Lemma count_id_remove_found (i : string) (d : Dom.document) :
  (Dom.count_id i (Dom.remove_found i d) <= Nat.pred (Dom.count_id i d))%nat.
Proof.
  unfold Dom.count_id, Dom.remove_found, Dom.elements.
  destruct (existsb (Dom.has_id i) (Dom.head d)) eqn:E; simpl;
    rewrite !filter_app, !length_app.
  - pose proof (filter_existsb_true _ _ E).
    pose proof (filter_remove_first (Dom.has_id i) (Dom.head d)). lia.
  - rewrite (filter_existsb_false _ _ E).
    pose proof (filter_remove_first (Dom.has_id i) (Dom.rest d)). simpl. lia.
Qed.

Lemma count_append (q : Dom.element -> bool) (e : Dom.element)
      (d : Dom.document) :
  List.length (filter q (Dom.elements (Dom.appendChild_head e d))) =
  (List.length (filter q (Dom.elements d)) + if q e then 1 else 0)%nat.
Proof.
  unfold Dom.elements, Dom.appendChild_head. simpl.
  rewrite !filter_app, !length_app. simpl. destruct (q e); simpl; lia.
Qed.

(** The statements of the theme-change script leave one element with the
    identifier, a style element, when at most one had it before. *)
Lemma theme_change_body_one (rgba : string) (d : Dom.document) :
  (Dom.count_id overlay_id d <= 1)%nat ->
  Dom.count_id overlay_id (theme_change_body rgba d) = 1%nat /\
  Dom.count_styles_id overlay_id (theme_change_body rgba d) = 1%nat.
Proof.
  intros H. unfold theme_change_body.
  set (d1 := match Dom.getElementById overlay_id d with
             | Some _ => Dom.remove_found overlay_id d
             | None => d
             end).
  assert (H1 : Dom.count_id overlay_id d1 = 0%nat).
  { subst d1. destruct (Dom.getElementById overlay_id d) eqn:E.
    - pose proof (count_id_remove_found overlay_id d). lia.
    - unfold Dom.count_id. unfold Dom.getElementById in E.
      now rewrite (filter_find_none _ _ E). }
  assert (H2 : Dom.count_styles_id overlay_id d1 = 0%nat).
  { pose proof (filter_both_le (Dom.has_id overlay_id) Dom.is_style
                  (Dom.elements d1)) as L.
    unfold Dom.count_id in H1. unfold Dom.count_styles_id. lia. }
  unfold Dom.count_id, Dom.count_styles_id in *.
  rewrite !count_append, H1, H2. split; reflexivity.
Qed.

(** The statements of the finished-screen script remove nothing and add
    one style element without identifier. *)
Lemma finished_screen_body_adds (rgba : string) (d : Dom.document) :
  Dom.count_styles (finished_screen_body rgba d) = S (Dom.count_styles d) /\
  (forall i, Dom.count_id i (finished_screen_body rgba d) = Dom.count_id i d).
Proof.
  unfold finished_screen_body, Dom.count_styles, Dom.count_id. split.
  - rewrite count_append. simpl. lia.
  - intros i. rewrite count_append. simpl. lia.
Qed.

Lemma finished_screen_body_twice (rgba : string) (d : Dom.document) :
  Dom.count_styles (finished_screen_body rgba (finished_screen_body rgba d))
  = S (S (Dom.count_styles d)).
Proof.
  now rewrite !(proj1 (finished_screen_body_adds _ _)).
Qed.

(** A script whose names the page has just declared is rejected. *)
Lemma evaluate_again (s : Dom.script) (d : Dom.document) :
  Dom.lexical s <> [] ->
  let p1 := snd (Dom.evaluate s (Dom.fresh d)) in
  p1 = {| Dom.doc := Dom.body s d; Dom.declared := Dom.lexical s |} /\
  Dom.evaluate s p1 = (Dom.SyntaxError, p1).
Proof.
  intros Hne p1. subst p1. unfold Dom.evaluate, Dom.fresh. simpl.
  assert (E : existsb (Dom.is_declared {| Dom.doc := d; Dom.declared := [] |})
                (Dom.lexical s) = false).
  { clear Hne. induction (Dom.lexical s) as [|x l IH]; simpl;
      [reflexivity | exact IH]. }
  rewrite E. simpl. split; [reflexivity|].
  destruct (Dom.lexical s) as [|x l] eqn:El; [now elim Hne|].
  unfold Dom.is_declared. simpl. rewrite String.eqb_refl. reflexivity.
Qed.

Lemma finished_screen_injected (st : state) (night_mode : bool) :
  exists rgba, forall (web : Dom.page) (i : injected),
    inject_finished_screen_style st night_mode (Some web) = Ok i ->
    i = web_eval (finished_screen_js rgba) (finished_screen_script rgba) web.
Proof.
  unfold inject_finished_screen_style.
  destruct (get_current_theme_config st night_mode) as [t|];
    [|exists EmptyString; discriminate].
  cbn [bind]. destruct (rgba_of_theme t) as [c|];
    [|exists EmptyString; discriminate].
  cbn [bind]. exists (rgba_text c). congruence.
Qed.

Lemma theme_change_injected (st : state) (night_mode : bool) :
  exists rgba, forall (web : Dom.page) (j : injected),
    inject_current_theme_style st night_mode (Some web) = Ok (Some j) ->
    j = web_eval (theme_change_js rgba) (theme_change_script rgba) web.
Proof.
  unfold inject_current_theme_style.
  destruct (get_current_theme_config st night_mode) as [t|];
    [|exists EmptyString; discriminate].
  cbn [bind]. destruct (rgba_of_theme t) as [c|];
    [|exists EmptyString; discriminate].
  cbn [bind]. exists (rgba_text c). congruence.
Qed.

(** C4.  What two executions of each script leave in a document that has
    just been loaded.  Both scripts declare [style] with [const] at their
    top level, so the second execution in the same document is rejected
    before any statement runs and changes nothing.  After two executions
    of the finished-screen script the document has one style element
    more, not two; after two executions of the theme-change script it has
    exactly one style element with identifier
    [transparent-overlay-theme-style], the one of the first execution. *)
Theorem C4_two_executions
  (st : state) (night_mode : bool) (d : Dom.document) (i1 i2 j1 j2 : injected) :
  inject_finished_screen_style st night_mode (Some (Dom.fresh d)) = Ok i1 ->
  inject_finished_screen_style st night_mode (Some (page_after i1)) = Ok i2 ->
  inject_current_theme_style st night_mode (Some (Dom.fresh d)) = Ok (Some j1) ->
  inject_current_theme_style st night_mode (Some (page_after j1)) = Ok (Some j2) ->
  (Dom.count_id overlay_id d <= 1)%nat ->
  js_code i2 = js_code i1 /\
  page_after i2 = page_after i1 /\
  Dom.count_styles (Dom.doc (page_after i2)) = S (Dom.count_styles d) /\
  js_code j2 = js_code j1 /\
  page_after j2 = page_after j1 /\
  Dom.count_styles_id overlay_id (Dom.doc (page_after j2)) = 1%nat /\
  Dom.count_id overlay_id (Dom.doc (page_after j2)) = 1%nat.
Proof.
  intros Hi1 Hi2 Hj1 Hj2 Hd.
  destruct (finished_screen_injected st night_mode) as [r Hr].
  destruct (theme_change_injected st night_mode) as [q Hq].
  rewrite (Hr _ _ Hi2), (Hr _ _ Hi1), (Hq _ _ Hj2), (Hq _ _ Hj1).
  unfold web_eval; cbn [js_code page_after].
  destruct (evaluate_again (finished_screen_script r) d) as [P1 P2];
    [discriminate|].
  destruct (evaluate_again (theme_change_script q) d) as [Q1 Q2];
    [discriminate|].
  cbv zeta in P1, P2, Q1, Q2. rewrite P2, Q2. cbn [snd].
  rewrite P1, Q1. cbn [Dom.doc Dom.body finished_screen_script theme_change_script].
  destruct (theme_change_body_one q d Hd) as [T1 T2].
  rewrite (proj1 (finished_screen_body_adds r d)), T1, T2.
  repeat split; reflexivity.
Qed.

Lemma C4_two_executions_witness :
  exists i1 i2 j1 j2 : injected,
    inject_finished_screen_style (init None) true
      (Some (Dom.fresh empty_document)) = Ok i1 /\
    inject_finished_screen_style (init None) true (Some (page_after i1)) = Ok i2 /\
    inject_current_theme_style (init None) true
      (Some (Dom.fresh empty_document)) = Ok (Some j1) /\
    inject_current_theme_style (init None) true (Some (page_after j1))
      = Ok (Some j2) /\
    Dom.count_styles (Dom.doc (page_after i2)) = 1%nat /\
    Dom.count_styles_id overlay_id (Dom.doc (page_after j2)) = 1%nat.
Proof.
  pose (r := "rgba(0, 0, 0, 0.3)").
  pose (i1 := web_eval (finished_screen_js r) (finished_screen_script r)
                (Dom.fresh empty_document)).
  pose (i2 := web_eval (finished_screen_js r) (finished_screen_script r)
                (page_after i1)).
  pose (j1 := web_eval (theme_change_js r) (theme_change_script r)
                (Dom.fresh empty_document)).
  pose (j2 := web_eval (theme_change_js r) (theme_change_script r)
                (page_after j1)).
  assert (A1 : inject_finished_screen_style (init None) true
                 (Some (Dom.fresh empty_document)) = Ok i1)
    by (vm_compute; reflexivity).
  assert (A2 : inject_finished_screen_style (init None) true
                 (Some (page_after i1)) = Ok i2)
    by (vm_compute; reflexivity).
  assert (B1 : inject_current_theme_style (init None) true
                 (Some (Dom.fresh empty_document)) = Ok (Some j1))
    by (vm_compute; reflexivity).
  assert (B2 : inject_current_theme_style (init None) true
                 (Some (page_after j1)) = Ok (Some j2))
    by (vm_compute; reflexivity).
  exists i1, i2, j1, j2.
  destruct (C4_two_executions (init None) true empty_document i1 i2 j1 j2
              A1 A2 B1 B2 (Nat.le_0_l 1))
    as (_ & _ & H3 & _ & _ & H6 & _).
  repeat split; assumption.
Defined.

End OverlayFacts.

(* ===================================================================== *)
(** * Properties of the release-check script *)
(* ===================================================================== *)

Module RunFacts.

Import Py ReleaseCheck RunSpec.

Lemma printed_app (n : string) (a b : list event) :
  printed n (a ++ b) = (printed n a ++ printed n b)%list.
Proof. apply flat_map_app. Qed.

Lemma appended_app (n : string) (a b : list event) :
  appended n (a ++ b) = (appended n a ++ appended n b)%list.
Proof. apply flat_map_app. Qed.

Lemma bindM_ok {A B : Type} (c : M A) (k : A -> M B) (w w' : world) (b : B) :
  bindM c k w = (Ok b, w') ->
  exists a w1, c w = (Ok a, w1) /\ k a w1 = (Ok b, w').
Proof.
  unfold bindM. destruct (c w) as [[a|e] w1]; intros H.
  - exists a, w1. split; [reflexivity | exact H].
  - discriminate.
Qed.

Lemma bindM_raise_first {A B : Type} (c : M A) (k : A -> M B)
      (w w' : world) (e : exn) :
  c w = (Raise e, w') -> bindM c k w = (Raise e, w').
Proof. unfold bindM. intros ->. reflexivity. Qed.

Lemma trace_log (e : event) (w : world) : trace (log e w) = (trace w ++ [e])%list.
Proof. reflexivity. Qed.

(** The request of [main] and its three ways to fail. *)
Lemma get_latest_cases (w : world) :
  let w1 := log (HttpGet latest_url (get_github_headers w)) w in
  get_latest_anki_release w =
    (match http w latest_url with
     | Raise e => Raise e
     | Ok resp =>
         if (400 <=? status_code resp) && (status_code resp <? 600)
         then Raise HTTPError else json resp
     end, w1).
Proof.
  unfold get_latest_anki_release.
  change ("https://api.github.com/repos/" ++ ANKI_REPO ++ "/releases/latest")
    with latest_url.
  destruct (http w latest_url) as [resp|e]; [|reflexivity].
  destruct ((400 <=? status_code resp) && (status_code resp <? 600)); reflexivity.
Qed.

Section Library.

Variable json_load : string -> result value.
Variable fromisoformat : string -> result datetime.
Variable isoformat : datetime -> string.

#[local] Abbreviation main := (ReleaseCheck.main json_load fromisoformat isoformat).
#[local] Abbreviation check_body := (ReleaseCheck.check_body json_load isoformat).
#[local] Abbreviation skip_test := (ReleaseCheck.skip_test fromisoformat).
#[local] Abbreviation was_recently_checked :=
  (ReleaseCheck.was_recently_checked fromisoformat).
#[local] Abbreviation load_version_mapping :=
  (ReleaseCheck.load_version_mapping json_load).
#[local] Abbreviation mark_checked := (ReleaseCheck.mark_checked isoformat).

(** ** Failures inside the [try] statement *)

Lemma main_body_raises (w w1 w2 : world) (e : exn) :
  skip_test (log (Print "Checking for Anki updates...") w) = (Ok false, w1) ->
  check_body w1 = (Raise e, w2) ->
  main w = (Exited 1, log (PrintExn (handler_message e) e) w2).
Proof.
  intros Hs Hb. unfold ReleaseCheck.main. rewrite Hs, Hb. reflexivity.
Qed.

Lemma check_body_request_raises (w : world) (e : exn) :
  fst (get_latest_anki_release w) = Raise e ->
  check_body w = (Raise e, snd (get_latest_anki_release w)).
Proof.
  intros H. unfold ReleaseCheck.check_body. apply bindM_raise_first.
  destruct (get_latest_anki_release w) as [r w1]. simpl in *. now subst r.
Qed.

(** C7.  When [main] has entered its [try] statement, every exception
    raised inside it is logged and ends the run with [sys.exit(1)]: as
    [Error checking for updates] when it is a [RequestException], as
    [Unexpected error] otherwise.  A request that fails, an answer with
    an error status and an answer that is not JSON each raise inside it. *)
Theorem C7_failure_exit (w w1 : world) :
  skip_test (log (Print "Checking for Anki updates...") w) = (Ok false, w1) ->
  (forall (e : exn) (w2 : world),
     check_body w1 = (Raise e, w2) ->
     main w = (Exited 1, log (PrintExn (handler_message e) e) w2) /\
     exit_status (fst (main w)) = 1 /\
     handler_message e =
       (if isinstance e RequestException
        then "Error checking for updates: " else "Unexpected error: ")) /\
  (forall e : exn,
     http w1 latest_url = Raise e ->
     exists w2, check_body w1 = (Raise e, w2)) /\
  (forall resp : response,
     http w1 latest_url = Ok resp ->
     400 <= status_code resp < 600 ->
     exists w2, check_body w1 = (Raise HTTPError, w2) /\
                isinstance HTTPError RequestException = true) /\
  (forall (resp : response) (e : exn),
     http w1 latest_url = Ok resp ->
     ~ 400 <= status_code resp < 600 ->
     json resp = Raise e ->
     exists w2, check_body w1 = (Raise e, w2)).
Proof.
  intros Hs. split; [|split; [|split]].
  - intros e w2 H. rewrite (main_body_raises w w1 w2 e Hs H).
    repeat split; reflexivity.
  - intros e He. eexists. apply check_body_request_raises.
    rewrite get_latest_cases. simpl. now rewrite He.
  - intros resp He Hst. eexists. split; [|reflexivity].
    apply check_body_request_raises.
    rewrite get_latest_cases. simpl. rewrite He.
    replace ((400 <=? status_code resp) && (status_code resp <? 600)) with true;
      [reflexivity|].
    symmetry. apply andb_true_intro. split; [apply Z.leb_le | apply Z.ltb_lt]; lia.
  - intros resp e He Hst Hj. eexists. apply check_body_request_raises.
    rewrite get_latest_cases. simpl. rewrite He.
    replace ((400 <=? status_code resp) && (status_code resp <? 600)) with false;
      [exact Hj|].
    symmetry. apply andb_false_iff.
    destruct (Z.leb_spec 400 (status_code resp)); [right | now left].
    apply Z.ltb_ge. lia.
Qed.

(** ** A recent check *)

Lemma skip_test_recent (w : world) :
  force_check w = false ->
  recent fromisoformat w ->
  skip_test w = (Ok true, tick w).
Proof.
  intros Hf (text & last & Hc & Hp & Ha & Hlt).
  unfold ReleaseCheck.skip_test. rewrite Hf.
  unfold ReleaseCheck.was_recently_checked. rewrite Hc, Hp, Ha.
  replace (clock w (ticks w) - micros last <? two_hours) with true;
    [reflexivity|].
  symmetry. now apply Z.ltb_lt.
Qed.

(** C10, amended.  When FORCE_CHECK is not [true] in any casing and the
    last-check file holds a timestamp without offset less than two hours
    before the current time,
    [main] requests nothing from the API, does not set [anki_version] or
    [changes_url], and leaves the last-check and version-mapping files as
    they are: all it adds to the events are prints and the two outputs
    [new_release] and [needs_review] with the value [false].  Where the
    output file can be appended to (or there is none), it sets both
    outputs to [false], once each, and returns. *)
Theorem C10_recent_check_skips (w : world) :
  force_check w = false ->
  recent fromisoformat w ->
  check_file (snd (main w)) = check_file w /\
  version_file (snd (main w)) = version_file w /\
  (exists evs,
     trace (snd (main w)) = (trace w ++ evs)%list /\
     forallb skip_event evs = true) /\
  (output_writable w = true ->
   fst (main w) = Returned /\
   trace (snd (main w)) =
     (trace w ++
        [Print "Checking for Anki updates...";
         Print "Recently checked for updates, skipping"] ++
        output_events w "new_release" (VStr "false") ++
        output_events w "needs_review" (VStr "false"))%list).
Proof.
  intros Hf Hr.
  assert (Hs : skip_test (log (Print "Checking for Anki updates...") w)
               = (Ok true, tick (log (Print "Checking for Anki updates...") w)))
    by (apply skip_test_recent; assumption).
  unfold ReleaseCheck.main. rewrite Hs.
  unfold skip_recent, bindM, emit, set_github_output, output_writable,
    output_events.
  destruct (GITHUB_OUTPUT w) as [[|c path]|] eqn:Eo;
    destruct (output_error w) as [err|] eqn:Ee;
    repeat (cbn [GITHUB_OUTPUT output_error log tick fst snd check_file
                 version_file trace];
            rewrite ?Eo, ?Ee);
    (split; [reflexivity|]); (split; [reflexivity|]);
    (split; [eexists; split; [rewrite <- ?app_assoc; reflexivity | reflexivity]|]);
    intros Hw; try discriminate;
    (split; [reflexivity | rewrite <- ?app_assoc; reflexivity]).
Qed.

(** ** The outputs of a run that returns *)

Lemma adds_refl (w w' : world) :
  trace w' = trace w -> GITHUB_OUTPUT w' = GITHUB_OUTPUT w -> adds w w' [] [].
Proof.
  intros H G. exists []. rewrite H, app_nil_r.
  destruct (file_on w); repeat split; assumption.
Qed.

Lemma adds_trans (w w1 w2 : world) (a b c d : list value) :
  adds w w1 a b -> adds w1 w2 c d -> adds w w2 (a ++ c) (b ++ d).
Proof.
  intros (e1 & T1 & G1 & A1 & B1 & F1 & H1) (e2 & T2 & G2 & A2 & B2 & F2 & H2).
  exists (e1 ++ e2)%list.
  assert (Eon : file_on w1 = file_on w) by (unfold file_on; now rewrite G1).
  rewrite Eon in F2, H2.
  rewrite T2, T1, <- app_assoc, !printed_app, !appended_app, F1, F2, H1, H2.
  subst. destruct (file_on w); repeat split; congruence.
Qed.

Lemma adds_quiet (e : event) (w : world) :
  quiet e = true -> adds w (log e w) [] [].
Proof.
  intros Q. exists [e].
  destruct e; try discriminate; destruct (file_on w); repeat split.
Qed.

Lemma adds_set_github_output (n : string) (v : value) (w w' : world) :
  set_github_output n v w = (Ok tt, w') ->
  adds w w' (if String.eqb n "new_release" then [v] else [])
            (if String.eqb n "needs_review" then [v] else []).
Proof.
  unfold set_github_output, adds, file_on.
  destruct (GITHUB_OUTPUT w) as [[|c path]|] eqn:G;
    [|destruct (output_error w)|];
    intros H; try discriminate; injection H as <-.
  - exists [SetOutput n v]. cbn. rewrite !app_nil_r. repeat split; assumption.
  - exists [AppendOutput (String c path) n v; SetOutput n v].
    cbn. rewrite !app_nil_r, <- app_assoc. repeat split; assumption.
  - exists [SetOutput n v]. cbn. rewrite !app_nil_r. repeat split; assumption.
Qed.

Lemma adds_get_latest (w w' : world) (r : result value) :
  get_latest_anki_release w = (r, w') -> adds w w' [] [].
Proof.
  rewrite get_latest_cases. intros H. injection H as _ <-.
  now apply adds_quiet.
Qed.

Lemma adds_mark_checked (w w' : world) :
  mark_checked w = (Ok tt, w') -> adds w w' [] [].
Proof.
  unfold ReleaseCheck.mark_checked. destruct (check_write_error w);
    [discriminate|].
  intros H. injection H as <-.
  refine (adds_trans _ _ _ _ _ _ _ (adds_refl w _ _ _) (adds_quiet _ _ _));
    reflexivity.
Qed.

Lemma skip_test_same (w w' : world) (r : result bool) :
  skip_test w = (r, w') ->
  trace w' = trace w /\ GITHUB_OUTPUT w' = GITHUB_OUTPUT w.
Proof.
  unfold ReleaseCheck.skip_test, ReleaseCheck.was_recently_checked.
  destruct (force_check w); [intros H; now injection H as _ <-|].
  destruct (check_file w) as [|e|text|e].
  - intros H. now injection H as _ <-.
  - destruct (_ || _); intros H; now injection H as _ <-.
  - destruct (fromisoformat (strip text)) as [last|e].
    + destruct (aware last); intros H; now injection H as _ <-.
    + destruct (_ || _); intros H; now injection H as _ <-.
  - intros H. now injection H as _ <-.
Qed.

Ltac bind_step H a w E :=
  apply bindM_ok in H; destruct H as (a & w & E & H).

(** A step that only prints, a step that lifts a pure result. *)
Ltac same_world H a w :=
  let E := fresh "E" in
  bind_step H a w E; injection E as _ <-.

Ltac output_step H w C :=
  let E := fresh "E" in
  let u := fresh "u" in
  bind_step H u w E; destruct u;
  pose proof (adds_set_github_output _ _ _ _ E) as C; clear E.

Lemma adds_skip_recent (w w' : world) :
  skip_recent w = (Ok tt, w') ->
  adds w w' [VStr "false"] [VStr "false"].
Proof.
  unfold skip_recent. intros H.
  same_world H u1 w1.
  output_step H w2 A1.
  pose proof (adds_set_github_output _ _ _ _ H) as A2.
  refine (adds_trans _ _ _ _ _ _ _
            (adds_trans _ _ _ _ _ _ _ (adds_quiet _ w _) A1) A2).
  reflexivity.
Qed.

Lemma adds_check_body (w w' : world) :
  check_body w = (Ok tt, w') ->
  adds w w' [VStr "false"] [VStr "false"] \/
  adds w w' [VStr "true"] [VStr "false"] \/
  adds w w' [VStr "false"] [VStr "true"].
Proof.
  unfold ReleaseCheck.check_body. intros H.
  bind_step H latest_release w1 E1.
  pose proof (adds_get_latest _ _ _ E1) as A1. clear E1.
  same_world H anki_version w2.
  same_world H u3 w3.
  pose proof (adds_quiet (PrintValue "Latest Anki release: " anki_version)
                w1 eq_refl) as A3.
  same_world H version_mapping w4.
  same_world H built w5.
  pose proof (adds_trans _ _ _ _ _ _ _ A1 A3) as A. clear A1 A3.
  destruct built.
  - same_world H u6 w6.
    output_step H w7 B1.
    output_step H w8 B2.
    pose proof (adds_mark_checked _ _ H) as B3.
    left.
    refine (adds_trans _ _ _ _ _ _ _
              (adds_trans _ _ _ _ _ _ _
                 (adds_trans _ _ _ _ _ _ _
                    (adds_trans _ _ _ _ _ _ _ A (adds_quiet _ _ _)) B1)
                 B2) B3).
    reflexivity.
  - same_world H u6 w6.
    same_world H significant w7.
    bind_step H u8 w8 E8. destruct u8.
    pose proof (adds_mark_checked _ _ H) as B3. clear H. rename E8 into H.
    destruct significant; [right; left | right; right].
    all: same_world H u9 w9;
      output_step H w10 C1;
      output_step H w11 C2;
      output_step H w12 C3;
      same_world H url w13;
      pose proof (adds_set_github_output _ _ _ _ H) as C4;
      refine (adds_trans _ _ _ _ _ _ _
                (adds_trans _ _ _ _ _ _ _
                   (adds_trans _ _ _ _ _ _ _
                      (adds_trans _ _ _ _ _ _ _
                         (adds_trans _ _ _ _ _ _ _
                            (adds_trans _ _ _ _ _ _ _
                               (adds_trans _ _ _ _ _ _ _ A
                                  (adds_quiet _ _ _))
                               (adds_quiet _ _ _)) C1) C2) C3) C4) B3);
      reflexivity.
Qed.

(** C9.  A run of [main] that returns has set each of the outputs
    [new_release] and [needs_review] exactly once, and not both to
    [true]: to [false] and [false], to [true] and [false], or to [false]
    and [true].  Where the output file is in use, the same values were
    appended to it, once each as well. *)
Theorem C9_outputs_once (w w' : world) :
  main w = (Returned, w') ->
  exists evs : list event,
    trace w' = (trace w ++ evs)%list /\
    ((printed "new_release" evs = [VStr "false"] /\
      printed "needs_review" evs = [VStr "false"]) \/
     (printed "new_release" evs = [VStr "true"] /\
      printed "needs_review" evs = [VStr "false"]) \/
     (printed "new_release" evs = [VStr "false"] /\
      printed "needs_review" evs = [VStr "true"])) /\
    appended "new_release" evs =
      (if file_on w then printed "new_release" evs else []) /\
    appended "needs_review" evs =
      (if file_on w then printed "needs_review" evs else []).
Proof.
  unfold ReleaseCheck.main. intros H.
  destruct (skip_test (log (Print "Checking for Anki updates...") w))
    as [[recent|e] w1] eqn:Hs; [|discriminate].
  destruct (skip_test_same _ _ _ Hs) as [Ht Hg].
  pose proof (adds_trans _ _ _ _ _ _ _
                (adds_quiet (Print "Checking for Anki updates...") w eq_refl)
                (adds_refl _ _ Ht Hg)) as A0.
  assert (D : adds w w' [VStr "false"] [VStr "false"] \/
              adds w w' [VStr "true"] [VStr "false"] \/
              adds w w' [VStr "false"] [VStr "true"]).
  { destruct recent.
    - destruct (skip_recent w1) as [[[]|e] w2] eqn:Hk; [|discriminate].
      injection H as <-. left.
      exact (adds_trans _ _ _ _ _ _ _ A0 (adds_skip_recent _ _ Hk)).
    - destruct (check_body w1) as [[[]|e] w2] eqn:Hb; [|discriminate].
      injection H as <-.
      destruct (adds_check_body _ _ Hb) as [B|[B|B]];
        [left | right; left | right; right];
        exact (adds_trans _ _ _ _ _ _ _ A0 B). }
  destruct D as [D|[D|D]];
    destruct D as (evs & T & _ & P1 & P2 & F1 & F2);
    exists evs; rewrite P1, P2; repeat split; auto.
Qed.

(** ** Files that cannot be read *)

#[local] Abbreviation alike := (RunSpec.alike json_load).
#[local] Abbreviation respects := (RunSpec.respects json_load).

Ltac alike_tac :=
  unfold RunSpec.alike, ReleaseCheck.load_version_mapping in *;
  cbn [GITHUB_REPOSITORY GITHUB_TOKEN FORCE_CHECK GITHUB_OUTPUT http clock
       output_error check_write_error version_file check_file ticks trace
       log tick set_check_file set_version_file fst snd] in *;
  intuition congruence.

Lemma alike_log (e : event) (w w' : world) :
  alike w w' -> alike (log e w) (log e w').
Proof. intros H. alike_tac. Qed.

Lemma respects_bind {A B : Type} (c : M A) (k : A -> M B) :
  respects c -> (forall a, respects (k a)) -> respects (bindM c k).
Proof.
  intros Hc Hk w w' Hw. unfold bindM.
  destruct (Hc w w' Hw) as [E1 E2].
  destruct (c w) as [[a|e] w1], (c w') as [[a'|e'] w1'];
    cbn [fst snd] in *; try discriminate.
  - injection E1 as <-. now apply Hk.
  - injection E1 as <-. split; [reflexivity | assumption].
Qed.

Lemma respects_lift {A : Type} (r : result A) : respects (lift r).
Proof. intros w w' H. split; [reflexivity | exact H]. Qed.

Lemma respects_emit (e : event) : respects (emit e).
Proof. intros w w' H. split; [reflexivity | now apply alike_log]. Qed.

Lemma respects_get_latest : respects get_latest_anki_release.
Proof.
  intros w w' H. rewrite !get_latest_cases. cbn [fst snd].
  assert (E1 : http w = http w') by alike_tac.
  assert (E2 : get_github_headers w = get_github_headers w')
    by (unfold get_github_headers; replace (GITHUB_TOKEN w')
          with (GITHUB_TOKEN w) by alike_tac; reflexivity).
  rewrite E1, E2. split; [reflexivity | now apply alike_log].
Qed.

Lemma respects_load : respects load_version_mapping.
Proof.
  intros w w' H. split; [alike_tac | exact H].
Qed.

Lemma respects_set_github_output (n : string) (v : value) :
  respects (set_github_output n v).
Proof.
  intros w w' H. unfold set_github_output.
  replace (GITHUB_OUTPUT w') with (GITHUB_OUTPUT w) by alike_tac.
  replace (output_error w') with (output_error w) by alike_tac.
  destruct (GITHUB_OUTPUT w) as [[|c path]|]; [|destruct (output_error w)|];
    cbn [fst snd]; (split; [reflexivity|]);
    repeat apply alike_log; exact H.
Qed.

Lemma respects_mark_checked : respects mark_checked.
Proof.
  intros w w' H. unfold ReleaseCheck.mark_checked.
  replace (check_write_error w') with (check_write_error w) by alike_tac.
  replace (clock w') with (clock w) by alike_tac.
  replace (ticks w') with (ticks w) by alike_tac.
  destruct (check_write_error w); cbn [fst snd];
    (split; [reflexivity|]); [exact H | alike_tac].
Qed.

Lemma respects_skip_recent : respects skip_recent.
Proof.
  unfold skip_recent.
  repeat first
    [ apply respects_emit
    | apply respects_set_github_output
    | apply respects_bind; [|intros ?] ].
Qed.

Lemma respects_check_body : respects check_body.
Proof.
  unfold ReleaseCheck.check_body.
  repeat first
    [ apply respects_emit
    | apply respects_lift
    | apply respects_get_latest
    | apply respects_load
    | apply respects_mark_checked
    | apply respects_set_github_output
    | match goal with |- RunSpec.respects _ (if ?b then _ else _) =>
        destruct b end
    | apply respects_bind; [|intros ?] ].
Qed.

Lemma main_alike (w w' : world) :
  alike w w' ->
  fst (skip_test (log (Print "Checking for Anki updates...") w)) =
  fst (skip_test (log (Print "Checking for Anki updates...") w')) ->
  alike (snd (skip_test (log (Print "Checking for Anki updates...") w)))
        (snd (skip_test (log (Print "Checking for Anki updates...") w'))) ->
  same_run (main w) (main w').
Proof.
  intros Hw Hf Hs. unfold ReleaseCheck.main, same_run.
  destruct (skip_test (log (Print "Checking for Anki updates...") w))
    as [r w1].
  destruct (skip_test (log (Print "Checking for Anki updates...") w'))
    as [r' w1'].
  cbn [fst snd] in Hf, Hs. subst r'.
  destruct r as [[|]|e].
  - destruct (respects_skip_recent w1 w1' Hs) as [E1 E2].
    destruct (skip_recent w1) as [[u|e] w2], (skip_recent w1') as [[u'|e'] w2'];
      cbn [fst snd] in *; try discriminate;
      [|injection E1 as <-]; split; try reflexivity; alike_tac.
  - destruct (respects_check_body w1 w1' Hs) as [E1 E2].
    destruct (check_body w1) as [[u|e] w2], (check_body w1') as [[u'|e'] w2'];
      cbn [fst snd] in *; try discriminate;
      [|injection E1 as <-]; split; try reflexivity; alike_tac.
  - cbn [fst snd]. split; [reflexivity | alike_tac].
Qed.

Lemma skip_test_alike (w w' : world) :
  alike w w' -> check_file w = check_file w' ->
  fst (skip_test w) = fst (skip_test w') /\
  alike (snd (skip_test w)) (snd (skip_test w')).
Proof.
  intros H Hc.
  unfold ReleaseCheck.skip_test, ReleaseCheck.was_recently_checked, force_check.
  replace (FORCE_CHECK w') with (FORCE_CHECK w) by alike_tac.
  replace (clock w') with (clock w) by alike_tac.
  replace (ticks w') with (ticks w) by alike_tac.
  rewrite <- Hc.
  destruct (String.eqb _ "true"); [split; [reflexivity | exact H]|].
  destruct (check_file w) as [|e|text|e].
  - split; [reflexivity | exact H].
  - destruct (_ || _); (split; [reflexivity | exact H]).
  - destruct (fromisoformat (strip text)) as [last|e].
    + destruct (aware last); cbn [fst snd]; (split; [reflexivity|]); alike_tac.
    + destruct (_ || _); (split; [reflexivity | exact H]).
  - split; [reflexivity | exact H].
Qed.

Lemma load_version_mapping_fails (w : world) :
  mapping_read_fails json_load (version_file w) ->
  load_version_mapping w = (Ok (VDict []), w).
Proof.
  intros (e & He & [Hf|(text & Hf & Hj)]);
    unfold ReleaseCheck.load_version_mapping, mapping_handled in *;
    rewrite Hf, ?Hj, He; reflexivity.
Qed.

Lemma was_recently_checked_fails (w : world) :
  check_read_fails fromisoformat (check_file w) ->
  was_recently_checked w = (Ok false, w).
Proof.
  intros (e & He & [Hf|(text & Hf & Hj)]);
    unfold ReleaseCheck.was_recently_checked, check_handled in *;
    rewrite Hf, ?Hj, He; reflexivity.
Qed.

Lemma load_version_mapping_raises (w : world) (e : exn) :
  mapping_read_raises json_load (version_file w) e ->
  load_version_mapping w = (Raise e, w).
Proof.
  intros [Hf|[He [Hf|(text & Hf & Hj)]]];
    unfold ReleaseCheck.load_version_mapping, mapping_handled in *;
    rewrite Hf, ?Hj, ?He; reflexivity.
Qed.

Lemma was_recently_checked_raises (w : world) (e : exn) :
  check_read_raises fromisoformat (check_file w) e ->
  was_recently_checked w = (Raise e, w).
Proof.
  intros [Hf|[He [Hf|(text & Hf & Hj)]]];
    unfold ReleaseCheck.was_recently_checked, check_handled in *;
    rewrite Hf, ?Hj, ?He; reflexivity.
Qed.

(** C8, amended.  A failure to open, read or parse the version-mapping
    file or the last-check file that is of a handled class (an [IOError]
    of either file, a [JSONDecodeError] of the mapping, a [ValueError] of
    the timestamp) is taken as if the file were absent: the mapping is
    empty, the last check is not recent, and the run ends as it would
    without the file, with the same outcome and the same events.  The
    other failures are raised to the caller: a failure of the test
    [exists()], which stands before the [try] statement, a failure of the
    read that is of another class, and a failure to write the last-check
    file, which [mark_checked] does not handle.  Raised by the reader of
    the last check in a run that is not forced, the exception escapes
    [main]. *)
Theorem C8_read_failures_as_absent :
  (forall w : world,
     mapping_read_fails json_load (version_file w) ->
     load_version_mapping w = (Ok (VDict []), w) /\
     same_run (main w) (main (set_version_file Absent w))) /\
  (forall w : world,
     check_read_fails fromisoformat (check_file w) ->
     was_recently_checked w = (Ok false, w) /\
     same_run (main w) (main (set_check_file Absent w))) /\
  (forall (w : world) (e : exn),
     check_write_error w = Some e ->
     mark_checked w = (Raise e, w)) /\
  (forall (w : world) (e : exn),
     mapping_read_raises json_load (version_file w) e ->
     load_version_mapping w = (Raise e, w)) /\
  (forall (w : world) (e : exn),
     check_read_raises fromisoformat (check_file w) e ->
     was_recently_checked w = (Raise e, w) /\
     (force_check w = false ->
      main w = (Uncaught e, log (Print "Checking for Anki updates...") w))).
Proof.
  split; [|split; [|split; [|split]]].
  - intros w Hf. split; [now apply load_version_mapping_fails|].
    assert (Ha : alike w (set_version_file Absent w)).
    { pose proof (load_version_mapping_fails w Hf) as E.
      unfold RunSpec.alike. rewrite E. repeat split. }
    assert (Ha0 : alike (log (Print "Checking for Anki updates...") w)
                        (log (Print "Checking for Anki updates...")
                             (set_version_file Absent w)))
      by (apply alike_log; exact Ha).
    destruct (skip_test_alike _ _ Ha0 eq_refl) as [E1 E2].
    now apply main_alike.
  - intros w Hf. split; [now apply was_recently_checked_fails|].
    assert (Ha : alike w (set_check_file Absent w))
      by (unfold RunSpec.alike; repeat split).
    pose (w0 := log (Print "Checking for Anki updates...") w).
    pose (w0' := log (Print "Checking for Anki updates...")
                     (set_check_file Absent w)).
    assert (Ha0 : alike w0 w0') by (apply alike_log; exact Ha).
    assert (E : skip_test w0 = (Ok false, w0)).
    { unfold ReleaseCheck.skip_test. destruct (force_check w0); [reflexivity|].
      apply was_recently_checked_fails. exact Hf. }
    assert (E' : skip_test w0' = (Ok false, w0')).
    { unfold ReleaseCheck.skip_test. destruct (force_check w0'); reflexivity. }
    apply main_alike; [exact Ha | |]; fold w0 w0'; rewrite E, E';
      [reflexivity | exact Ha0].
  - intros w e He. unfold ReleaseCheck.mark_checked. now rewrite He.
  - intros w e. apply load_version_mapping_raises.
  - intros w e Hr. split; [now apply was_recently_checked_raises|].
    intros Hf. unfold ReleaseCheck.main, ReleaseCheck.skip_test.
    change (force_check (log (Print "Checking for Anki updates...") w))
      with (force_check w).
    rewrite Hf.
    rewrite (was_recently_checked_raises
               (log (Print "Checking for Anki updates...") w) e Hr).
    reflexivity.
Qed.

End Library.

(** C8, as the specification has it, fails.  When the last-check file
    cannot be written, the run ends with the failure exit.  So it does
    when reading the version mapping fails with a [UnicodeDecodeError],
    which is neither a [JSONDecodeError] nor an [IOError], and when the
    test for the version-mapping file fails with a [PermissionError];
    when the test for the last-check file fails with it, the exception
    escapes [main]. *)
Lemma C8_failures_propagate :
  let run := ReleaseCheck.main sample_json_load sample_fromisoformat
               sample_isoformat in
  let w := sample_world None sample_response Absent None in
  fst (run (sample_world None sample_response Absent (Some PermissionError)))
    = Exited 1 /\
  fst (run (set_version_file (Unreadable UnicodeDecodeError) w)) = Exited 1 /\
  fst (run (set_version_file (Inaccessible PermissionError) w)) = Exited 1 /\
  fst (run (set_check_file (Inaccessible PermissionError) w))
    = Uncaught PermissionError /\
  fst (run w) = Returned.
Proof. vm_compute. repeat split. Qed.

Lemma C8_read_failures_as_absent_witness :
  let w := sample_world None sample_response (Unreadable PermissionError) None in
  same_run
    (ReleaseCheck.main sample_json_load sample_fromisoformat sample_isoformat w)
    (ReleaseCheck.main sample_json_load sample_fromisoformat sample_isoformat
       (set_version_file Absent w)) /\
  same_run
    (ReleaseCheck.main sample_json_load sample_fromisoformat sample_isoformat w)
    (ReleaseCheck.main sample_json_load sample_fromisoformat sample_isoformat
       (set_check_file Absent w)) /\
  fst (ReleaseCheck.main sample_json_load sample_fromisoformat
         sample_isoformat w) = Returned /\
  ReleaseCheck.load_version_mapping sample_json_load
    (set_version_file (Unreadable UnicodeDecodeError) w) =
    (Raise UnicodeDecodeError,
     set_version_file (Unreadable UnicodeDecodeError) w) /\
  ReleaseCheck.main sample_json_load sample_fromisoformat sample_isoformat
    (set_check_file (Inaccessible PermissionError) w) =
    (Uncaught PermissionError,
     log (Print "Checking for Anki updates...")
       (set_check_file (Inaccessible PermissionError) w)).
Proof.
  intros w.
  pose proof (C8_read_failures_as_absent sample_json_load sample_fromisoformat
                sample_isoformat) as (H1 & H2 & _ & H4 & H5).
  split; [|split; [|split; [|split]]].
  - refine (proj2 (H1 w _)).
    exists JSONDecodeError. split; [reflexivity|].
    right. exists "{". split; reflexivity.
  - refine (proj2 (H2 w _)).
    exists PermissionError. split; [reflexivity|]. left. reflexivity.
  - vm_compute. reflexivity.
  - apply H4. right. split; [reflexivity|]. left. reflexivity.
  - refine (proj2 (H5 (set_check_file (Inaccessible PermissionError) w)
                     PermissionError _) eq_refl).
    left. reflexivity.
Defined.

Lemma C9_outputs_once_witness :
  let w := sample_world None sample_response Absent None in
  let w' := snd (ReleaseCheck.main sample_json_load sample_fromisoformat
                   sample_isoformat w) in
  exists evs : list event,
    trace w' = (trace w ++ evs)%list /\
    ((printed "new_release" evs = [VStr "false"] /\
      printed "needs_review" evs = [VStr "false"]) \/
     (printed "new_release" evs = [VStr "true"] /\
      printed "needs_review" evs = [VStr "false"]) \/
     (printed "new_release" evs = [VStr "false"] /\
      printed "needs_review" evs = [VStr "true"])) /\
    appended "new_release" evs =
      (if file_on w then printed "new_release" evs else []) /\
    appended "needs_review" evs =
      (if file_on w then printed "needs_review" evs else []).
Proof.
  intros w w'.
  assert (Hm : ReleaseCheck.main sample_json_load sample_fromisoformat
                 sample_isoformat w = (Returned, w'))
    by (vm_compute; reflexivity).
  exact (C9_outputs_once sample_json_load sample_fromisoformat
           sample_isoformat w w' Hm).
Defined.

(** C10 fails without its two conditions.  With a last-check file whose
    timestamp, less than two hours old, carries an offset, the run sets
    no output: the [TypeError] of the subtraction escapes [main].  With a
    recent timestamp without offset and an output file that cannot be
    appended to, the run does not return either and prints no workflow
    command. *)
Lemma C10_recent_check_fails :
  let run := ReleaseCheck.main sample_json_load sample_fromisoformat_more
               sample_isoformat in
  let w := sample_world None sample_response
             (Holds "1970-01-01T01:00:00+00:00") None in
  let w' := sample_world_unwritable (Holds "1970-01-01T01:00:00") in
  force_check w = false /\
  sample_fromisoformat_more (strip "1970-01-01T01:00:00+00:00") =
    Ok {| micros := 3600000000; aware := true |} /\
  clock w (ticks w) - 3600000000 < two_hours /\
  fst (run w) = Uncaught TypeError /\
  printed "new_release" (trace (snd (run w))) = [] /\
  printed "needs_review" (trace (snd (run w))) = [] /\
  force_check w' = false /\
  recent sample_fromisoformat_more w' /\
  fst (run w') = Uncaught PermissionError /\
  printed "new_release" (trace (snd (run w'))) = [] /\
  printed "needs_review" (trace (snd (run w'))) = [].
Proof.
  intros run w w'.
  assert (Hr : recent sample_fromisoformat_more w').
  { exists "1970-01-01T01:00:00", {| micros := 3600000000; aware := false |}.
    repeat split. }
  split; [reflexivity|]. split; [reflexivity|]. split; [reflexivity|].
  split; [vm_compute; reflexivity|]. split; [vm_compute; reflexivity|].
  split; [vm_compute; reflexivity|]. split; [reflexivity|].
  split; [exact Hr|]. split; [vm_compute; reflexivity|].
  split; vm_compute; reflexivity.
Qed.

Lemma C10_recent_check_skips_witness :
  let w := sample_world (Some "no") (Raise ConnectionError)
             (Holds "1970-01-01T01:00:00") None in
  let r := ReleaseCheck.main sample_json_load sample_fromisoformat
             sample_isoformat w in
  check_file (snd r) = check_file w /\
  version_file (snd r) = version_file w /\
  (exists evs,
     trace (snd r) = (trace w ++ evs)%list /\
     forallb skip_event evs = true) /\
  fst r = Returned /\
  trace (snd r) =
    [Print "Checking for Anki updates...";
     Print "Recently checked for updates, skipping";
     AppendOutput "/tmp/github_output" "new_release" (VStr "false");
     SetOutput "new_release" (VStr "false");
     AppendOutput "/tmp/github_output" "needs_review" (VStr "false");
     SetOutput "needs_review" (VStr "false")].
Proof.
  intros w r.
  assert (Hf : force_check w = false) by reflexivity.
  assert (Hr : recent sample_fromisoformat w).
  { exists "1970-01-01T01:00:00", {| micros := 3600000000; aware := false |}.
    repeat split. }
  destruct (C10_recent_check_skips sample_json_load sample_fromisoformat
              sample_isoformat w Hf Hr) as (H1 & H2 & H3 & H4).
  destruct (H4 eq_refl) as [H5 H6].
  repeat split; assumption.
Defined.

Lemma C7_failure_exit_witness :
  let w := sample_world None (Raise ConnectionError) Absent None in
  exists w2,
    ReleaseCheck.main sample_json_load sample_fromisoformat sample_isoformat w
      = (Exited 1, w2) /\
    trace w2 =
      [Print "Checking for Anki updates...";
       HttpGet latest_url [("Accept", "application/vnd.github.v3+json")];
       PrintExn "Error checking for updates: " ConnectionError].
Proof.
  intros w.
  pose proof (C7_failure_exit sample_json_load sample_fromisoformat
                sample_isoformat w
                (log (Print "Checking for Anki updates...") w) eq_refl) as H.
  destruct H as (H1 & H2 & _).
  destruct (H2 ConnectionError eq_refl) as [w2 Hb].
  destruct (H1 ConnectionError w2 Hb) as (Hm & _).
  eexists. split; [exact Hm|].
  vm_compute in Hb. injection Hb as <-. reflexivity.
Defined.

End RunFacts.

(* ===================================================================== *)
(** * Further properties of the overlay *)
(* ===================================================================== *)

Module MoreOverlayFacts.

Import Py Addon Spec MoreSpec TextFacts.

(** ** The resolver *)

(** X1.  After [__init__] the configuration is present and not of the
    legacy shape, whatever was stored, so that the resolver does not
    fail: it returns the theme of the mode, or the fallback of the mode
    when the key is missing.  After the migration of a legacy
    configuration [{color: C, alpha: A}] it resolves to [C] and [A] in
    dark mode and to white and [A] in light mode. *)
Theorem X1_resolver_after_init (stored : option dict) :
  (exists c : dict,
     config (init stored) = Some c /\
     legacy_shaped c = false /\
     get_current_theme_config (init stored) true =
       Ok (dict_get "dark_theme" (theme "#000000" 30) c) /\
     get_current_theme_config (init stored) false =
       Ok (dict_get "light_theme" (theme "#ffffff" 15) c)) /\
  (forall (c : dict) (C A : value),
     stored = Some c ->
     lookup "color" c = Some C ->
     lookup "alpha" c = Some A ->
     get_current_theme_config (init stored) true = Ok (VDict [("color", C); ("alpha", A)]) /\
     get_current_theme_config (init stored) false =
       Ok (VDict [("color", VStr "#ffffff"); ("alpha", A)])).
Proof.
  split.
  - unfold init. destruct stored as [c|].
    + destruct (legacy_shaped c) eqn:Hl.
      * unfold legacy_shaped in Hl. apply andb_prop in Hl as [H1 H2].
        destruct (ConfigFacts.has_key_true _ _ H1) as [C HC].
        destruct (ConfigFacts.has_key_true _ _ H2) as [A HA].
        rewrite (ConfigFacts.migrate_legacy (load (Some c)) c C A eq_refl HC HA).
        exists (migrated C A). repeat split.
      * rewrite (ConfigFacts.migrate_new_shape (load (Some c)) c eq_refl Hl).
        exists c. repeat split. exact Hl.
    + exists default_config. repeat split.
  - intros c C A -> HC HA. unfold init.
    rewrite (ConfigFacts.migrate_legacy (load (Some c)) c C A eq_refl HC HA).
    split; reflexivity.
Qed.

Lemma X1_resolver_after_init_witness :
  get_current_theme_config
    (init (Some [("color", VStr "#123456"); ("alpha", VInt 40)])) true
    = Ok (VDict [("color", VStr "#123456"); ("alpha", VInt 40)]) /\
  get_current_theme_config
    (init (Some [("color", VStr "#123456"); ("alpha", VInt 40)])) false
    = Ok (VDict [("color", VStr "#ffffff"); ("alpha", VInt 40)]).
Proof.
  exact (proj2 (X1_resolver_after_init
                  (Some [("color", VStr "#123456"); ("alpha", VInt 40)]))
           [("color", VStr "#123456"); ("alpha", VInt 40)]
           (VStr "#123456") (VInt 40) eq_refl eq_refl eq_refl).
Defined.

(** ** The colour string *)

Lemma substring_beyond (s : string) :
  forall n m, (String.length s <= n)%nat -> substring n m s = EmptyString.
Proof.
  induction s as [|c s IH]; intros n m H.
  - destruct n, m; reflexivity.
  - destruct n as [|n]; simpl in H; [lia|]. simpl. apply IH. lia.
Qed.

Lemma substring_prefix (a b : string) :
  forall n m, (n + m <= String.length a)%nat ->
  substring n m (a ++ b) = substring n m a.
Proof.
  induction a as [|c a IH]; intros n m H; simpl in H.
  - assert (n = 0%nat) by lia. assert (m = 0%nat) by lia. subst.
    destruct b; reflexivity.
  - destruct n as [|n].
    + destruct m as [|m]; [reflexivity|]. simpl. f_equal.
      apply (IH 0%nat m). lia.
    + simpl. apply IH. lia.
Qed.

Lemma int16_only_ValueError (s : string) (e : exn) :
  int16 s = Raise e -> e = ValueError.
Proof.
  unfold int16.
  destruct (match strip_space s with
            | String "-" t' => (true, t')
            | String "+" t' => (false, t')
            | _ => (false, strip_space s)
            end) as [neg body].
  destruct (hex_body body); [discriminate | congruence].
Qed.

(** X2.  Of the colour string only the characters at the positions 1 to
    6 are read: the first character need not be [#], and what follows
    the sixth digit, as the alpha digits of [#rrggbbaa], is ignored. *)
Theorem X2_only_six_characters_read
  (first : ascii) (six rest : string) (alpha : value) :
  String.length six = 6%nat ->
  rgba_of_theme (colored (String first (six ++ rest)) alpha) =
  rgba_of_theme (colored (String "#" six) alpha).
Proof.
  intros H. unfold rgba_of_theme, colored, get, dict_get, channel, slice.
  cbn [lookup String.eqb Ascii.eqb Bool.eqb bind].
  change (substring 1 (3 - 1) (String first (six ++ rest)))
    with (substring 0 2 (six ++ rest)).
  change (substring 3 (5 - 3) (String first (six ++ rest)))
    with (substring 2 2 (six ++ rest)).
  change (substring 5 (7 - 5) (String first (six ++ rest)))
    with (substring 4 2 (six ++ rest)).
  rewrite !substring_prefix by lia. reflexivity.
Qed.

Lemma X2_only_six_characters_read_witness :
  rgba_of_theme (colored "x1a2b3cff" (VInt 50)) =
  rgba_of_theme (colored "#1a2b3c" (VInt 50)).
Proof.
  exact (X2_only_six_characters_read "x" "1a2b3c" "ff" (VInt 50) eq_refl).
Defined.

Lemma rgba_short_color (d : dict) (color : string) :
  lookup "color" d = Some (VStr color) ->
  (String.length color <= 5)%nat ->
  rgba_of_theme (VDict d) = Raise ValueError.
Proof.
  intros Hc Hl. unfold rgba_of_theme, get, dict_get. rewrite Hc.
  cbn [bind]. unfold channel.
  destruct (int16 (slice 1 3 color)) as [r|e] eqn:E1; cbn [bind];
    [|now rewrite (int16_only_ValueError _ _ E1)].
  destruct (int16 (slice 3 5 color)) as [g|e] eqn:E2; cbn [bind];
    [|now rewrite (int16_only_ValueError _ _ E2)].
  unfold slice at 1. rewrite substring_beyond by exact Hl. reflexivity.
Qed.

(** X3.  A colour string of fewer than six characters, such as the short
    form [#fff], makes each of the three injections fail with a
    [ValueError]; nothing is injected. *)
Theorem X3_short_color_rejected
  (st : state) (night_mode : bool) (t : value) (color head : string)
  (web : Dom.page) :
  get_current_theme_config st night_mode = Ok t ->
  has_color t color ->
  (String.length color <= 5)%nat ->
  inject_overlay st night_mode head = Raise ValueError /\
  inject_finished_screen_style st night_mode (Some web) = Raise ValueError /\
  inject_current_theme_style st night_mode (Some web) = Raise ValueError.
Proof.
  intros Ht (d & -> & Hc) Hl.
  pose proof (rgba_short_color d color Hc Hl) as E.
  unfold inject_overlay, inject_finished_screen_style,
    inject_current_theme_style.
  rewrite Ht. cbn [bind]. rewrite E. repeat split.
Qed.

Lemma X3_short_color_rejected_witness :
  let st := init (Some [("light_theme", theme "#fff" 15)]) in
  inject_overlay st false "<title>deck</title>" = Raise ValueError /\
  inject_finished_screen_style st false (Some (Dom.fresh empty_document))
    = Raise ValueError /\
  inject_current_theme_style st false (Some (Dom.fresh empty_document))
    = Raise ValueError.
Proof.
  intros st.
  refine (X3_short_color_rejected st false (theme "#fff" 15) "#fff" _ _
            eq_refl _ _).
  - exists [("color", VStr "#fff"); ("alpha", VInt 15)]. split; reflexivity.
  - simpl. lia.
Defined.

(** X4.  With a well-formed colour, an alpha that is not a number (a
    string, null, a list or an object) makes each of the three
    injections fail with a [TypeError]. *)
Theorem X4_non_numeric_alpha_rejected
  (st : state) (night_mode : bool) (d : dict) (color head : string)
  (alpha : value) (web : Dom.page) :
  get_current_theme_config st night_mode = Ok (VDict d) ->
  lookup "color" d = Some (VStr color) ->
  is_theme_color color = true ->
  lookup "alpha" d = Some alpha ->
  not_a_number alpha = true ->
  inject_overlay st night_mode head = Raise TypeError /\
  inject_finished_screen_style st night_mode (Some web) = Raise TypeError /\
  inject_current_theme_style st night_mode (Some web) = Raise TypeError.
Proof.
  intros Ht Hc Hcol Ha Hn.
  assert (E : rgba_of_theme (VDict d) = Raise TypeError).
  { destruct (theme_color_chars _ Hcol)
      as (h1 & h2 & h3 & h4 & h5 & h6 & -> & H1 & H2 & H3 & H4 & H5 & H6).
    unfold rgba_of_theme, get, dict_get. rewrite Hc, Ha. cbn [bind].
    unfold channel, slice. cbn [substring Nat.sub].
    rewrite !int16_hex_pair by assumption. cbn [bind].
    destruct alpha; try discriminate; reflexivity. }
  unfold inject_overlay, inject_finished_screen_style,
    inject_current_theme_style.
  rewrite Ht. cbn [bind]. rewrite E. repeat split.
Qed.

Lemma X4_non_numeric_alpha_rejected_witness :
  let st := init (Some [("dark_theme", colored "#000000" (VStr "30"))]) in
  inject_overlay st true "<title>deck</title>" = Raise TypeError /\
  inject_finished_screen_style st true (Some (Dom.fresh empty_document))
    = Raise TypeError /\
  inject_current_theme_style st true (Some (Dom.fresh empty_document))
    = Raise TypeError.
Proof.
  intros st.
  exact (X4_non_numeric_alpha_rejected st true
           [("color", VStr "#000000"); ("alpha", VStr "30")] "#000000" _
           (VStr "30") _ eq_refl eq_refl eq_refl eq_refl eq_refl).
Defined.

(** ** Values that a style sheet accepts *)

Lemma fraction_range : forallb fraction_in_range (Z_range 0 101) = true.
Proof. vm_compute. reflexivity. Qed.

(** X5.  For a theme style with an alpha from 0 to 100 the conversion
    goes through, the three channels are between 0 and 255 and the alpha
    fraction is a float between 0.0 and 1.0: the values are those that
    [rgba()] takes without clamping. *)
Theorem X5_valid_style_in_range (t : value) (color : string) (alpha : Z) :
  theme_style t color alpha ->
  0 <= alpha <= 100 ->
  exists (r g b : Z) (a : spec_float),
    rgba_of_theme t = Ok (r, g, b, a) /\
    byte r /\ byte g /\ byte b /\
    SFleb float_0 a = true /\ SFleb a float_1 = true.
Proof.
  intros Hs Ha.
  destruct (OverlayFacts.rgba_of_theme_style _ _ _ Hs) as (_ & _ & _ & E).
  destruct Hs as (d & _ & _ & _ & Hcol).
  destruct (theme_color_chars _ Hcol)
    as (h1 & h2 & h3 & h4 & h5 & h6 & -> & H1 & H2 & H3 & H4 & H5 & H6).
  assert (Hin : In alpha (Z_range 0 101)) by (apply Z_range_In; lia).
  pose proof (proj1 (forallb_forall _ _) fraction_range alpha Hin) as F.
  unfold fraction_in_range in F.
  destruct (int_div_100 alpha) as [a|]; [|discriminate].
  apply andb_prop in F as [F0 F1].
  cbn [bind] in E. cbn [char_at String.get] in E.
  exists (hex_pair h1 h2), (hex_pair h3 h4), (hex_pair h5 h6), a.
  split; [exact E|].
  repeat split; try assumption; now apply hex_pair_byte.
Qed.

Lemma X5_valid_style_in_range_witness :
  exists (r g b : Z) (a : spec_float),
    rgba_of_theme (theme "#ff8000" 100) = Ok (r, g, b, a) /\
    byte r /\ byte g /\ byte b /\
    SFleb float_0 a = true /\ SFleb a float_1 = true.
Proof.
  refine (X5_valid_style_in_range (theme "#ff8000" 100) "#ff8000" 100 _ _).
  - exists [("color", VStr "#ff8000"); ("alpha", VInt 100)].
    repeat split; reflexivity.
  - lia.
Defined.

(** ** The three injections together *)

(** X6.  In one state and mode the three injections stand or fall
    together: with a webview they fail with the same exception, or they
    all go through and put the same [rgba(...)] text in the style block
    and in the two scripts.  Without a webview the theme-change
    injection returns without doing anything, whereas the
    finished-screen injection fails. *)
Theorem X6_injections_agree
  (st : state) (night_mode : bool) (head : string) (web : Dom.page) :
  match inject_overlay st night_mode head with
  | Ok out =>
      exists c : Z * Z * Z * spec_float,
        out = head ++ background_css (rgba_text c) /\
        inject_finished_screen_style st night_mode (Some web) =
          Ok (web_eval (finished_screen_js (rgba_text c))
                (finished_screen_script (rgba_text c)) web) /\
        inject_current_theme_style st night_mode (Some web) =
          Ok (Some (web_eval (theme_change_js (rgba_text c))
                      (theme_change_script (rgba_text c)) web)) /\
        on_theme_change st night_mode (Some web) =
          inject_current_theme_style st night_mode (Some web) /\
        inject_finished_screen_style st night_mode None = Raise AttributeError
  | Raise e =>
      inject_finished_screen_style st night_mode (Some web) = Raise e /\
      inject_current_theme_style st night_mode (Some web) = Raise e /\
      on_theme_change st night_mode (Some web) = Raise e /\
      inject_finished_screen_style st night_mode None = Raise e
  end /\
  inject_current_theme_style st night_mode None = Ok None /\
  on_theme_change st night_mode None = Ok None.
Proof.
  split; [|split; reflexivity].
  unfold inject_overlay, inject_finished_screen_style, on_theme_change,
    inject_current_theme_style.
  destruct (get_current_theme_config st night_mode) as [t|e]; cbn [bind];
    [|repeat split].
  destruct (rgba_of_theme t) as [c|e]; cbn [bind]; [|repeat split].
  exists c. repeat split.
Qed.

(** ** The two scripts in one document *)

Lemma declared_after (s : Dom.script) (d : Dom.document) :
  snd (Dom.evaluate s (Dom.fresh d)) =
  {| Dom.doc := Dom.body s d; Dom.declared := Dom.lexical s |}.
Proof.
  unfold Dom.evaluate, Dom.fresh. simpl.
  assert (E : existsb (Dom.is_declared {| Dom.doc := d; Dom.declared := [] |})
                (Dom.lexical s) = false).
  { induction (Dom.lexical s) as [|x l IH]; simpl; [reflexivity | exact IH]. }
  rewrite E. reflexivity.
Qed.

(** X7.  Both scripts declare [style] at their top level, so that in one
    document they exclude each other: once the theme-change script has
    run in a document that was just loaded, a later finished-screen
    injection leaves the page as it is, and once the finished-screen
    script has run, a later theme-change injection leaves the page as it
    is, whatever the configuration and the mode then are. *)
Theorem X7_scripts_exclude_each_other
  (st st' : state) (night_mode night_mode' : bool) (d : Dom.document) :
  (forall j i : injected,
     inject_current_theme_style st night_mode (Some (Dom.fresh d)) = Ok (Some j) ->
     inject_finished_screen_style st' night_mode' (Some (page_after j)) = Ok i ->
     page_after i = page_after j) /\
  (forall i j : injected,
     inject_finished_screen_style st night_mode (Some (Dom.fresh d)) = Ok i ->
     inject_current_theme_style st' night_mode' (Some (page_after i)) = Ok (Some j) ->
     page_after j = page_after i).
Proof.
  destruct (OverlayFacts.theme_change_injected st night_mode) as [r1 T1].
  destruct (OverlayFacts.theme_change_injected st' night_mode') as [r2 T2].
  destruct (OverlayFacts.finished_screen_injected st night_mode) as [r3 F1].
  destruct (OverlayFacts.finished_screen_injected st' night_mode') as [r4 F2].
  split.
  - intros j i Hj Hi. rewrite (F2 _ _ Hi). rewrite (T1 _ _ Hj).
    unfold web_eval. cbn [page_after]. rewrite declared_after. reflexivity.
  - intros i j Hi Hj. rewrite (T2 _ _ Hj). rewrite (F1 _ _ Hi).
    unfold web_eval. cbn [page_after]. rewrite declared_after. reflexivity.
Qed.

Lemma X7_scripts_exclude_each_other_witness :
  let j := web_eval (theme_change_js "rgba(0, 0, 0, 0.3)")
             (theme_change_script "rgba(0, 0, 0, 0.3)")
             (Dom.fresh empty_document) in
  let i := web_eval (finished_screen_js "rgba(255, 255, 255, 0.15)")
             (finished_screen_script "rgba(255, 255, 255, 0.15)")
             (page_after j) in
  page_after i = page_after j.
Proof.
  intros j i.
  assert (A : inject_current_theme_style (init None) true
                (Some (Dom.fresh empty_document)) = Ok (Some j))
    by (vm_compute; reflexivity).
  assert (B : inject_finished_screen_style (init None) false
                (Some (page_after j)) = Ok i)
    by (vm_compute; reflexivity).
  exact (proj1 (X7_scripts_exclude_each_other (init None) (init None)
                  true false empty_document) j i A B).
Defined.

Section Others.

Variable p : Dom.element -> bool.

Lemma filter_nil_find (l : list Dom.element) :
  filter p l = [] -> find p l = None.
Proof.
  induction l as [|e l IH]; simpl; [reflexivity|].
  destruct (p e); [discriminate | exact IH].
Qed.

Lemma find_app_none (a b : list Dom.element) :
  find p a = None -> find p (a ++ b) = find p b.
Proof.
  induction a as [|e a IH]; simpl; [reflexivity|].
  destruct (p e); [discriminate | exact IH].
Qed.

Lemma existsb_find_none (l : list Dom.element) :
  existsb p l = false -> find p l = None.
Proof.
  induction l as [|e l IH]; simpl; [reflexivity|].
  destruct (p e); [discriminate | exact IH].
Qed.

Lemma drop_inside_subtree (d : nat) (ins post : list Dom.element) :
  inside d ins = true -> outside d post = true ->
  Dom.drop_inside d (ins ++ post) = post.
Proof.
  intros Hi Ho. induction ins as [|x ins IH].
  - destruct post as [|x post]; [reflexivity|].
    cbn [app Dom.drop_inside]. cbn [outside] in Ho.
    apply Nat.leb_le in Ho.
    destruct (Nat.ltb_spec d (Dom.depth x)); [lia | reflexivity].
  - cbn [inside forallb] in Hi. apply andb_prop in Hi as [Hx Hi].
    cbn [app Dom.drop_inside]. rewrite Hx. now apply IH.
Qed.

(** Removing the first element that satisfies [p]: it goes with the
    elements inside it, and the elements around stay. *)
Lemma remove_first_subtree (pre ins post : list Dom.element) (e : Dom.element) :
  existsb p pre = false -> p e = true ->
  inside (Dom.depth e) ins = true -> outside (Dom.depth e) post = true ->
  Dom.remove_first p (pre ++ e :: ins ++ post) = (pre ++ post)%list.
Proof.
  intros Hp He Hi Ho. induction pre as [|x pre IH].
  - cbn [app Dom.remove_first]. rewrite He. now apply drop_inside_subtree.
  - cbn [existsb] in Hp. apply orb_false_elim in Hp as [Hx Hp].
    cbn [app Dom.remove_first]. rewrite Hx. f_equal. now apply IH.
Qed.

Lemma find_first (pre l : list Dom.element) (e : Dom.element) :
  existsb p pre = false -> p e = true -> find p (pre ++ e :: l) = Some e.
Proof.
  intros Hp He. rewrite (find_app_none _ _ (existsb_find_none _ Hp)).
  cbn [find]. now rewrite He.
Qed.

End Others.

(** X8.  The statements of the theme-change script take away the first
    element that carries the identifier together with the elements
    inside it, and nothing else: the elements before it and the elements
    after its subtree stay, in their order, whether it is in the head or
    after it, and a document without such an element loses nothing.  The
    new style element becomes the last child of the head.  In a document
    where at most one element carried the identifier, looking the
    identifier up afterwards finds the new style element with the new
    rule. *)
Theorem X8_theme_change_replaces (rgba : string) (d : Dom.document) :
  (Dom.getElementById overlay_id d = None ->
   theme_change_body rgba d =
     {| Dom.head := (Dom.head d ++ [overlay_element true rgba])%list;
        Dom.rest := Dom.rest d |}) /\
  (forall (pre ins post : list Dom.element) (e : Dom.element),
     Dom.head d = (pre ++ e :: ins ++ post)%list ->
     existsb (Dom.has_id overlay_id) pre = false ->
     Dom.has_id overlay_id e = true ->
     inside (Dom.depth e) ins = true ->
     outside (Dom.depth e) post = true ->
     theme_change_body rgba d =
       {| Dom.head := (pre ++ post ++ [overlay_element true rgba])%list;
          Dom.rest := Dom.rest d |}) /\
  (forall (pre ins post : list Dom.element) (e : Dom.element),
     existsb (Dom.has_id overlay_id) (Dom.head d) = false ->
     Dom.rest d = (pre ++ e :: ins ++ post)%list ->
     existsb (Dom.has_id overlay_id) pre = false ->
     Dom.has_id overlay_id e = true ->
     inside (Dom.depth e) ins = true ->
     outside (Dom.depth e) post = true ->
     theme_change_body rgba d =
       {| Dom.head := (Dom.head d ++ [overlay_element true rgba])%list;
          Dom.rest := (pre ++ post)%list |}) /\
  ((Dom.count_id overlay_id d <= 1)%nat ->
   Dom.getElementById overlay_id (theme_change_body rgba d) =
     Some (overlay_element true rgba)).
Proof.
  unfold theme_change_body.
  change (Dom.set_textContent (overlay_style rgba)
            (Dom.set_id overlay_id (Dom.createElement "style")))
    with (overlay_element true rgba).
  split; [|split; [|split]].
  - intros ->. reflexivity.
  - intros pre ins post e Hh Hp He Hi Ho.
    assert (Hx : existsb (Dom.has_id overlay_id) (Dom.head d) = true).
    { rewrite Hh, existsb_app. cbn [existsb]. rewrite He.
      now rewrite orb_true_r. }
    assert (Hg : Dom.getElementById overlay_id d = Some e).
    { unfold Dom.getElementById, Dom.elements. rewrite Hh, <- app_assoc.
      cbn [app]. now apply find_first. }
    rewrite Hg. unfold Dom.remove_found, Dom.appendChild_head. rewrite Hx.
    cbn [Dom.head Dom.rest]. rewrite Hh.
    rewrite (remove_first_subtree _ pre ins post e Hp He Hi Ho).
    now rewrite <- app_assoc.
  - intros pre ins post e Hn Hr Hp He Hi Ho.
    assert (Hg : Dom.getElementById overlay_id d = Some e).
    { unfold Dom.getElementById, Dom.elements.
      rewrite (find_app_none _ _ _ (existsb_find_none _ _ Hn)), Hr.
      now apply find_first. }
    rewrite Hg. unfold Dom.remove_found, Dom.appendChild_head. rewrite Hn.
    cbn [Dom.head Dom.rest]. rewrite Hr.
    now rewrite (remove_first_subtree _ pre ins post e Hp He Hi Ho).
  - intros H.
    set (d1 := match Dom.getElementById overlay_id d with
               | Some _ => Dom.remove_found overlay_id d
               | None => d
               end).
    assert (H1 : Dom.count_id overlay_id d1 = 0%nat).
    { subst d1. destruct (Dom.getElementById overlay_id d) eqn:E.
      - pose proof (OverlayFacts.count_id_remove_found overlay_id d). lia.
      - unfold Dom.count_id. unfold Dom.getElementById in E.
        now rewrite (OverlayFacts.filter_find_none _ _ E). }
    unfold Dom.count_id, Dom.elements in H1.
    apply length_zero_iff_nil in H1. rewrite filter_app in H1.
    apply app_eq_nil in H1 as [Hh Hr].
    unfold Dom.getElementById, Dom.appendChild_head, Dom.elements. simpl.
    rewrite <- app_assoc.
    rewrite (find_app_none _ _ _ (filter_nil_find _ _ Hh)).
    reflexivity.
Qed.

Lemma X8_theme_change_replaces_witness :
  theme_change_body "rgba(0, 0, 0, 0.3)" sample_document =
    {| Dom.head := [sample_element "title" None 0;
                    sample_element "link" None 0;
                    overlay_element true "rgba(0, 0, 0, 0.3)"];
       Dom.rest := Dom.rest sample_document |} /\
  Dom.getElementById overlay_id
    (theme_change_body "rgba(0, 0, 0, 0.3)" sample_document) =
    Some (overlay_element true "rgba(0, 0, 0, 0.3)").
Proof.
  split.
  - exact (proj1 (proj2 (X8_theme_change_replaces "rgba(0, 0, 0, 0.3)"
                           sample_document))
             [sample_element "title" None 0]
             [sample_element "span" None 1]
             [sample_element "link" None 0]
             (sample_element "style" (Some overlay_id) 0)
             eq_refl eq_refl eq_refl eq_refl eq_refl).
  - apply (proj2 (proj2 (proj2 (X8_theme_change_replaces "rgba(0, 0, 0, 0.3)"
                                  sample_document)))).
    vm_compute. lia.
Defined.

End MoreOverlayFacts.

(* ===================================================================== *)
(** * Properties of the settings dialog *)
(* ===================================================================== *)

Module DialogFacts.

Import Py Addon Dialog Spec MoreSpec TextFacts.

(** ** Colour names *)

Lemma hex2_range : forallb hex2_reads_back (Z_range 0 256) = true.
Proof. vm_compute. reflexivity. Qed.

Lemma int16_hex2 (n : Z) : byte n -> int16 (hex2 n) = Ok n.
Proof.
  intros H.
  assert (Hin : In n (Z_range 0 256)) by (apply Z_range_In; unfold byte in H; lia).
  pose proof (proj1 (forallb_forall _ _) hex2_range n Hin) as E.
  unfold hex2_reads_back in E.
  destruct (int16 (hex2 n)) as [m|]; [|discriminate].
  apply Z.eqb_eq in E. now subst.
Qed.

Lemma is_hex_hexval (h : ascii) :
  is_hex h = true -> hexval h = Some (hex_value h).
Proof.
  unfold is_hex, hex_value. destruct (hexval h); [reflexivity | discriminate].
Qed.

Lemma hex2_of_pair (h l : ascii) :
  is_hex h = true -> is_hex l = true ->
  hex2 (16 * hex_value h + hex_value l) =
  String (lower_char h) (String (lower_char l) EmptyString).
Proof.
  intros Hh Hl. apply String.eqb_eq. fold (hex_pair_name h l).
  revert l Hl. revert h Hh.
  apply (hex_cases (fun h => forall l, is_hex l = true -> hex_pair_name h l = true)).
  repeat (apply Forall_cons;
          [apply (hex_cases (fun l => hex_pair_name _ l = true));
           repeat (apply Forall_cons; [vm_compute; reflexivity|]);
           apply Forall_nil|]).
  apply Forall_nil.
Qed.

Lemma get_theme_color (color : string) (alpha dflt : value) :
  get (colored color alpha) "color" dflt = Ok (VStr color).
Proof. reflexivity. Qed.

Lemma get_theme_alpha (color : string) (alpha dflt : value) :
  get (colored color alpha) "alpha" dflt = Ok alpha.
Proof. reflexivity. Qed.

Lemma preview_range : forallb preview_as_expected (Z_range 0 101) = true.
Proof. vm_compute. reflexivity. Qed.

Section Toolkit.

Variable QColor_other : value -> result QColor.
Variable setValue_other : value -> result Z.

Lemma preview_of (t : tab) :
  0 <= alpha_slider t <= 100 ->
  update_preview t =
  Ok (if alpha_slider t =? 100 then 254 else alpha_slider t * 255 / 100).
Proof.
  intros H.
  assert (Hin : In (alpha_slider t) (Z_range 0 101)) by (apply Z_range_In; lia).
  pose proof (proj1 (forallb_forall _ _) preview_range _ Hin) as E.
  unfold preview_as_expected, update_preview in E. cbn [alpha_slider] in E.
  unfold update_preview.
  destruct (x <- int_mul_float (alpha_slider t) float_2_55 ;; int_of_float x)
    as [a|]; [|discriminate].
  apply Z.eqb_eq in E. now subst.
Qed.

(** X9.  The alpha that the preview of a tab is painted with is the
    slider value scaled to eight bits and rounded down, except at the top
    of the slider, where it is 254: the preview is never fully opaque. *)
Theorem X9_preview_alpha (t : tab) :
  0 <= alpha_slider t <= 100 ->
  exists a : Z,
    update_preview t = Ok a /\
    a = (if alpha_slider t =? 100 then 254 else alpha_slider t * 255 / 100) /\
    0 <= a <= 254.
Proof.
  intros H. eexists. split; [apply preview_of; exact H|]. split; [reflexivity|].
  destruct (Z.eqb_spec (alpha_slider t) 100) as [E|E]; [lia|].
  split.
  - apply Z.div_pos; lia.
  - apply Z.div_le_upper_bound; lia.
Qed.

(** ** What the dialog saves *)

Lemma theme_of_saved (tabs : tab * tab) (w : list dict) (n : list string)
      (night_mode : bool) :
  get_current_theme_config
    {| config := Some (get_config tabs); written := w; notices := n |} night_mode
  = Ok (theme (name (current_color (tab_of_mode night_mode tabs)))
          (alpha_slider (tab_of_mode night_mode tabs))).
Proof. destruct night_mode; reflexivity. Qed.

Lemma rgba_of_saved (t : tab) :
  valid_tab t ->
  exists c,
    rgba_of_theme (theme (name (current_color t)) (alpha_slider t)) = Ok c /\
    rgba_text c = rgba_of_tab t.
Proof.
  intros [(Hr & Hg & Hb) Ha].
  destruct (OverlayFacts.int_div_100_exact (alpha_slider t) ltac:(lia))
    as (a & Ea & Er).
  exists (red (current_color t), green (current_color t),
          blue (current_color t), a).
  split.
  - unfold rgba_of_theme.
    change (theme (name (current_color t)) (alpha_slider t))
      with (colored (name (current_color t)) (VInt (alpha_slider t))).
    rewrite get_theme_color, get_theme_alpha. cbn [bind]. unfold channel.
    change (slice 1 3 (name (current_color t))) with (hex2 (red (current_color t))).
    change (slice 3 5 (name (current_color t))) with (hex2 (green (current_color t))).
    change (slice 5 7 (name (current_color t))) with (hex2 (blue (current_color t))).
    rewrite !int16_hex2 by assumption. cbn [bind div_100].
    rewrite Ea. reflexivity.
  - unfold rgba_text, rgba_of_tab. now rewrite Er.
Qed.

Lemma saved_not_legacy (tabs : tab * tab) :
  init (Some (get_config tabs)) = load (Some (get_config tabs)).
Proof. reflexivity. Qed.

(** X10.  When the user accepts the dialog, the configuration of its two
    tabs is written once and the notice is shown, and the injection uses
    it from then on: the style block has the channels of the colour of
    the tab of the mode and its slider value over 100.  The saved
    configuration is not of the legacy shape, so that after a restart
    nothing is migrated or written and the injection gives the same
    block. *)
Theorem X10_accepted_settings_render
  (stored : option dict) (user : tab * tab -> option (tab * tab)) (st : state)
  (tabs tabs' : tab * tab) (night_mode : bool) (head : string) :
  setup_ui QColor_other setValue_other stored = Ok tabs ->
  user tabs = Some tabs' ->
  valid_tab (fst tabs') -> valid_tab (snd tabs') ->
  exists st' : state,
    on_config QColor_other setValue_other stored user st = Ok st' /\
    config st' = Some (get_config tabs') /\
    written st' = (written st ++ [get_config tabs'])%list /\
    notices st' = (notices st ++ [settings_notice])%list /\
    inject_overlay st' night_mode head =
      Ok (head ++ background_css (rgba_of_tab (tab_of_mode night_mode tabs'))) /\
    init (config st') = load (config st') /\
    inject_overlay (init (config st')) night_mode head =
      Ok (head ++ background_css (rgba_of_tab (tab_of_mode night_mode tabs'))).
Proof.
  intros Hs Hu Hl Hd.
  assert (Hv : valid_tab (tab_of_mode night_mode tabs'))
    by (destruct night_mode; assumption).
  destruct (rgba_of_saved _ Hv) as (c & Ec & Et).
  unfold on_config. rewrite Hs. cbn [bind]. rewrite Hu.
  eexists. split; [reflexivity|]. cbn [config written notices].
  rewrite saved_not_legacy.
  repeat split; unfold inject_overlay, load;
    rewrite theme_of_saved; cbn [bind]; rewrite Ec; cbn [bind];
    now rewrite Et.
Qed.

Lemma reopen_tab (c : dict) (key color : string) (t : value) (alpha : Z) :
  lookup key c = Some t ->
  theme_style t color alpha ->
  c_int alpha ->
  exists tb : tab,
    create_theme_tab QColor_other setValue_other c key = Ok tb /\
    name (current_color tb) = lower color /\
    alpha_slider tb = clamp_100 alpha /\
    valid_tab tb.
Proof.
  intros Hk (d & -> & Hc & Ha & Hcol) Hi.
  destruct (theme_color_chars _ Hcol)
    as (h1 & h2 & h3 & h4 & h5 & h6 & -> & H1 & H2 & H3 & H4 & H5 & H6).
  unfold create_theme_tab, dict_get. rewrite Hk.
  unfold get, dict_get. rewrite Hc, Ha. cbn [bind].
  unfold QColor_of, six_hex.
  rewrite (is_hex_hexval _ H1), (is_hex_hexval _ H2), (is_hex_hexval _ H3),
    (is_hex_hexval _ H4), (is_hex_hexval _ H5), (is_hex_hexval _ H6).
  cbn [bind]. unfold setValue.
  assert (Hb : (- 2 ^ 31 <=? alpha) && (alpha <? 2 ^ 31) = true).
  { unfold c_int in Hi. apply andb_true_intro. split; [apply Z.leb_le | apply Z.ltb_lt]; lia. }
  rewrite Hb. cbn [bind].
  rewrite preview_of by (cbn [alpha_slider]; lia). cbn [bind].
  eexists. split; [reflexivity|]. cbn [current_color alpha_slider].
  split; [|split; [reflexivity|]].
  - unfold name, byte_at. cbn [String.get red green blue].
    rewrite !hex2_of_pair by assumption. reflexivity.
  - unfold valid_tab, valid_color, byte, byte_at.
    cbn [current_color alpha_slider String.get red green blue].
    pose proof (hex_pair_byte h1 h2 H1 H2).
    pose proof (hex_pair_byte h3 h4 H3 H4).
    pose proof (hex_pair_byte h5 h6 H5 H6).
    unfold hex_pair, hex_digit in *. unfold hex_value. lia.
Qed.

(** X11.  Opening the dialog on a configuration whose two themes are
    theme styles with alphas in the range of a C [int], and accepting it
    as it opened, writes the colours in lower case and the alphas brought
    into the slider's range from 0 to 100: an alpha of 150, which the
    injection renders as 1.5, is saved as 100. *)
Theorem X11_reopen_and_accept
  (c : dict) (tl td : value) (cl cd : string) (al ad : Z) (st : state) :
  lookup "light_theme" c = Some tl ->
  lookup "dark_theme" c = Some td ->
  theme_style tl cl al ->
  theme_style td cd ad ->
  c_int al -> c_int ad ->
  let c' := [("light_theme", reopened cl al); ("dark_theme", reopened cd ad)] in
  on_config QColor_other setValue_other (Some c) (fun tabs => Some tabs) st =
  Ok {| config := Some c';
        written := (written st ++ [c'])%list;
        notices := (notices st ++ [settings_notice])%list |}.
Proof.
  intros Hl Hd Sl Sd Il Id c'.
  destruct (reopen_tab c "light_theme" cl tl al Hl Sl Il) as (t1 & E1 & N1 & A1 & _).
  destruct (reopen_tab c "dark_theme" cd td ad Hd Sd Id) as (t2 & E2 & N2 & A2 & _).
  unfold on_config, setup_ui.
  assert (Ht : truthy (VDict c) = true) by (destruct c; [discriminate | reflexivity]).
  rewrite Ht, E1. cbn [bind]. rewrite E2. cbn [bind].
  unfold get_config. cbn [fst snd]. rewrite N1, N2, A1, A2. reflexivity.
Qed.

(** X12.  For a stored configuration that is not empty and has no
    [light_theme], the overlay and the dialog fall back differently: in
    light mode the overlay renders white at 0.15, whereas the light tab of
    the dialog opens on black at 30, which is what accepting the dialog
    saves for the light theme. *)
Theorem X12_missing_theme_fallbacks_differ
  (c : dict) (tabs : tab * tab) (head : string) :
  c <> [] ->
  legacy_shaped c = false ->
  lookup "light_theme" c = None ->
  setup_ui QColor_other setValue_other (Some c) = Ok tabs ->
  inject_overlay (init (Some c)) false head =
    Ok (head ++ background_css "rgba(255, 255, 255, 0.15)") /\
  fst tabs = {| current_color := black; alpha_slider := 30 |} /\
  lookup "light_theme" (get_config tabs) = Some (theme "#000000" 30) /\
  forall (st st' : state),
    on_config QColor_other setValue_other (Some c) (fun t => Some t) st = Ok st' ->
    inject_overlay st' false head =
      Ok (head ++ background_css "rgba(0, 0, 0, 0.3)").
Proof.
  intros Hne Hleg Hl Hs.
  assert (Ht : truthy (VDict c) = true) by (destruct c; [now elim Hne | reflexivity]).
  assert (E1 : create_theme_tab QColor_other setValue_other c "light_theme" =
               Ok {| current_color := black; alpha_slider := 30 |}).
  { unfold create_theme_tab, dict_get. rewrite Hl. vm_compute. reflexivity. }
  unfold setup_ui in Hs. rewrite Ht, E1 in Hs. cbn [bind] in Hs.
  destruct (create_theme_tab QColor_other setValue_other c "dark_theme")
    as [t2|] eqn:E2; [|discriminate].
  cbn [bind] in Hs. injection Hs as <-.
  split; [|split; [reflexivity|split; [reflexivity|]]].
  - unfold init. rewrite (ConfigFacts.migrate_new_shape (load (Some c)) c eq_refl Hleg).
    unfold inject_overlay, get_current_theme_config, load, dict_get.
    cbn [config]. rewrite Hl. cbn [bind].
    replace (rgba_of_theme
               (VDict [("color", VStr "#ffffff"); ("alpha", VInt 15)]))
      with (Ok (255, 255, 255, S754_finite false 5404319552844595 (-55)))
      by (vm_compute; reflexivity).
    cbn [bind].
    replace (rgba_text (255, 255, 255, S754_finite false 5404319552844595 (-55)))
      with "rgba(255, 255, 255, 0.15)" by (vm_compute; reflexivity).
    reflexivity.
  - intros st st' Ho. unfold on_config, setup_ui in Ho.
    rewrite Ht, E1 in Ho. cbn [bind] in Ho. rewrite E2 in Ho. cbn [bind] in Ho.
    injection Ho as <-.
    unfold inject_overlay. rewrite theme_of_saved. cbn [bind tab_of_mode fst].
    cbn [current_color alpha_slider].
    replace (rgba_of_theme (theme (name black) 30))
      with (Ok (0, 0, 0, S754_finite false 5404319552844595 (-54)))
      by (vm_compute; reflexivity).
    cbn [bind].
    replace (rgba_text (0, 0, 0, S754_finite false 5404319552844595 (-54)))
      with "rgba(0, 0, 0, 0.3)" by (vm_compute; reflexivity).
    reflexivity.
Qed.

End Toolkit.

Lemma X9_preview_alpha_witness :
  exists a : Z,
    update_preview {| current_color := black; alpha_slider := 100 |} = Ok a /\
    a = 254 /\ 0 <= a <= 254.
Proof.
  apply (X9_preview_alpha {| current_color := black; alpha_slider := 100 |}).
  simpl. lia.
Defined.

Lemma X10_accepted_settings_render_witness :
  exists st' : state,
    on_config strict_QColor strict_setValue None (fun _ => Some sample_tabs)
      (init None) = Ok st' /\
    config st' = Some (get_config sample_tabs) /\
    written st' = (written (init None) ++ [get_config sample_tabs])%list /\
    notices st' = (notices (init None) ++ [settings_notice])%list /\
    inject_overlay st' true "<title>deck</title>" =
      Ok ("<title>deck</title>" ++ background_css "rgba(26, 43, 60, 0.5)") /\
    init (config st') = load (config st') /\
    inject_overlay (init (config st')) true "<title>deck</title>" =
      Ok ("<title>deck</title>" ++ background_css "rgba(26, 43, 60, 0.5)").
Proof.
  refine (X10_accepted_settings_render strict_QColor strict_setValue None
            (fun _ => Some sample_tabs) (init None)
            ({| current_color := {| red := 255; green := 255; blue := 255 |};
                alpha_slider := 15 |},
             {| current_color := black; alpha_slider := 30 |})
            sample_tabs true "<title>deck</title>" _ eq_refl _ _).
  - vm_compute. reflexivity.
  - unfold valid_tab, valid_color, byte. cbn. lia.
  - unfold valid_tab, valid_color, byte. cbn. lia.
Defined.

Lemma X11_reopen_and_accept_witness :
  let c := [("light_theme", theme "#FFFFFF" 150);
            ("dark_theme", theme "#1A2b3C" (-5))] in
  let c' := [("light_theme", theme "#ffffff" 100);
             ("dark_theme", theme "#1a2b3c" 0)] in
  on_config strict_QColor strict_setValue (Some c) (fun tabs => Some tabs)
    (init (Some c)) =
  Ok {| config := Some c';
        written := (written (init (Some c)) ++ [c'])%list;
        notices := (notices (init (Some c)) ++ [settings_notice])%list |}.
Proof.
  intros c c'.
  refine (X11_reopen_and_accept strict_QColor strict_setValue c
            (theme "#FFFFFF" 150) (theme "#1A2b3C" (-5))
            "#FFFFFF" "#1A2b3C" 150 (-5) (init (Some c))
            eq_refl eq_refl _ _ _ _).
  - exists [("color", VStr "#FFFFFF"); ("alpha", VInt 150)].
    repeat split; reflexivity.
  - exists [("color", VStr "#1A2b3C"); ("alpha", VInt (-5))].
    repeat split; reflexivity.
  - unfold c_int. lia.
  - unfold c_int. lia.
Defined.

Lemma X12_missing_theme_fallbacks_differ_witness :
  let c := [("dark_theme", theme "#112233" 40)] in
  let tabs := ({| current_color := black; alpha_slider := 30 |},
               {| current_color := {| red := 17; green := 34; blue := 51 |};
                  alpha_slider := 40 |}) in
  inject_overlay (init (Some c)) false "<title>deck</title>" =
    Ok ("<title>deck</title>" ++ background_css "rgba(255, 255, 255, 0.15)") /\
  fst tabs = {| current_color := black; alpha_slider := 30 |} /\
  lookup "light_theme" (get_config tabs) = Some (theme "#000000" 30) /\
  forall (st st' : state),
    on_config strict_QColor strict_setValue (Some c) (fun t => Some t) st = Ok st' ->
    inject_overlay st' false "<title>deck</title>" =
      Ok ("<title>deck</title>" ++ background_css "rgba(0, 0, 0, 0.3)").
Proof.
  intros c tabs.
  refine (X12_missing_theme_fallbacks_differ strict_QColor strict_setValue
            c tabs "<title>deck</title>" _ eq_refl eq_refl _).
  - discriminate.
  - vm_compute. reflexivity.
Defined.

End DialogFacts.

(* ===================================================================== *)
(** * Further properties of the release-check script *)
(* ===================================================================== *)

Module MoreRunFacts.

Import Py ReleaseCheck ReleaseMore Spec RunSpec MoreSpec.

(** ** The version mapping *)

Lemma any_built_entry_is (a : string) (items : dict) :
  forallb well_formed_entry items = true ->
  any_built a items = Ok (existsb (entry_is a) items).
Proof.
  induction items as [|[k info] items IH]; intros H; [reflexivity|].
  cbn [forallb] in H. apply andb_prop in H as [Hw Hr].
  cbn [any_built existsb]. unfold entry_is at 1.
  unfold well_formed_entry in Hw. cbn [snd] in *.
  unfold entry_version in *. destruct info; try discriminate.
  cbn [get bind].
  destruct (dict_get "anki_version" (VStr EmptyString) d); try discriminate.
  destruct (String.eqb (lstrip_char "v" s) a); [reflexivity|].
  cbn [orb]. now apply IH.
Qed.

Lemma any_built_skips (a : string) (pre rest : dict) :
  forallb well_formed_entry pre = true ->
  existsb (entry_is a) pre = false ->
  any_built a (pre ++ rest)%list = any_built a rest.
Proof.
  induction pre as [|[k info] pre IH]; intros Hw Hn; [reflexivity|].
  cbn [forallb] in Hw. apply andb_prop in Hw as [Hw Hr].
  cbn [existsb] in Hn. apply orb_false_elim in Hn as [Hn Hm].
  cbn [app any_built]. unfold entry_is in Hn.
  unfold well_formed_entry in Hw. cbn [snd] in *.
  unfold entry_version in *. destruct info; try discriminate.
  cbn [get bind].
  destruct (dict_get "anki_version" (VStr EmptyString) d); try discriminate.
  rewrite Hn. now apply IH.
Qed.

Lemma lstrip_v (a : string) :
  lstrip_char "v" (String "v" a) = lstrip_char "v" a.
Proof. reflexivity. Qed.

(** X13.  On a version mapping whose entries are objects with a string
    (or no) [anki_version], [version_already_built] answers whether some
    entry has the version of the tag, leading [v]s of the two apart; an
    entry without [anki_version] counts as the empty version.  Whatever
    the mapping, the answer for the tag [vX] is that for [X]. *)
Theorem X13_version_already_built (a : string) (items : dict) (m : value) :
  (forallb well_formed_entry items = true ->
   version_already_built (VStr a) (VDict items) =
     Ok (existsb (entry_matches a) items)) /\
  version_already_built (VStr (String "v" a)) m =
    version_already_built (VStr a) m.
Proof.
  split; [|reflexivity].
  intros H. unfold version_already_built, entry_matches.
  now apply any_built_entry_is.
Qed.

(** X14.  The loop over the mapping stops at the first entry that
    decides: after entries that are well formed and for other versions,
    an entry for the version of the tag gives [True] whatever follows
    it, malformed entries included, and an entry that is not an object,
    or whose [anki_version] is not a string, raises [AttributeError]
    even when a later entry is for the version. *)
Theorem X14_first_entry_decides (a : string) (pre post : dict)
        (e : string * value) :
  forallb well_formed_entry pre = true ->
  existsb (entry_matches a) pre = false ->
  (entry_matches a e = true ->
   version_already_built (VStr a) (VDict (pre ++ e :: post)%list) = Ok true) /\
  (well_formed_entry e = false ->
   version_already_built (VStr a) (VDict (pre ++ e :: post)%list) =
     Raise AttributeError).
Proof.
  intros Hw Hn. unfold version_already_built.
  rewrite (any_built_skips _ pre (e :: post) Hw Hn).
  destruct e as [k info]. unfold entry_matches, entry_is, well_formed_entry.
  cbn [snd any_built]. unfold entry_version.
  split; intros H.
  - destruct info; try discriminate. cbn [get bind].
    destruct (dict_get "anki_version" (VStr EmptyString) d); try discriminate.
    now rewrite H.
  - destruct info; try reflexivity. cbn [get bind].
    destruct (dict_get "anki_version" (VStr EmptyString) d);
      try reflexivity; discriminate.
Qed.

Lemma X14_first_entry_decides_witness :
  version_already_built (VStr "v25.02")
    (VDict [("1.0.0", VDict [("anki_version", VStr "24.11")]);
            ("1.1.0", VDict [("anki_version", VStr "v25.02")]);
            ("1.2.0", VNone)]) = Ok true /\
  version_already_built (VStr "v25.02")
    (VDict [("1.0.0", VDict [("anki_version", VStr "24.11")]);
            ("1.2.0", VNone);
            ("1.1.0", VDict [("anki_version", VStr "v25.02")])])
    = Raise AttributeError.
Proof.
  split.
  - exact (proj1 (X14_first_entry_decides "v25.02"
                    [("1.0.0", VDict [("anki_version", VStr "24.11")])]
                    [("1.2.0", VNone)]
                    ("1.1.0", VDict [("anki_version", VStr "v25.02")])
                    eq_refl eq_refl) eq_refl).
  - exact (proj2 (X14_first_entry_decides "v25.02"
                    [("1.0.0", VDict [("anki_version", VStr "24.11")])]
                    [("1.1.0", VDict [("anki_version", VStr "v25.02")])]
                    ("1.2.0", VNone)
                    eq_refl eq_refl) eq_refl).
Defined.

(** ** The significance of a release *)

Lemma keywords_same (b : bool) : (if b then Ok true else Ok true) = Ok true :> result bool.
Proof. destruct b; reflexivity. Qed.

(** X15.  For a release whose tag is a string and whose name and body
    are strings or null, [is_significant_release] is true exactly when
    the release is not a prerelease and its tag has at most two dots:
    the keywords looked for in the name and the body never change the
    answer. *)
Theorem X15_keywords_do_not_matter
  (release : value) (t : string) (n b pre : value) :
  subscript release "tag_name" = Ok (VStr t) ->
  subscript release "name" = Ok n ->
  subscript release "body" = Ok b ->
  subscript release "prerelease" = Ok pre ->
  str_or_none n = true ->
  str_or_none b = true ->
  is_significant_release release =
    Ok (negb (truthy pre) && (count_char "." t <=? 2)).
Proof.
  intros Ht Hn Hb Hp Sn Sb. unfold is_significant_release.
  rewrite Ht, Hn, Hb, Hp. cbn [bind].
  destruct (truthy pre); [reflexivity|]. cbn [negb andb count_dots bind].
  rewrite Z.ltb_antisym.
  destruct (count_char "." t <=? 2); [|reflexivity]. cbn [negb].
  assert (En : exists s, (if truthy n then n else VStr t) = VStr s).
  { destruct n as [| | | |s| |]; try discriminate.
    - now exists t.
    - destruct s; [now exists t | eexists; reflexivity]. }
  assert (Eb : exists s, (if truthy b then b else VStr EmptyString) = VStr s).
  { destruct b as [| | | |s| |]; try discriminate.
    - now exists EmptyString.
    - destruct s; eexists; reflexivity. }
  destruct En as [s1 ->]. destruct Eb as [s2 ->].
  cbn [add_str bind]. apply keywords_same.
Qed.

Lemma X15_keywords_do_not_matter_witness :
  is_significant_release
    (VDict [("tag_name", VStr "25.02.1.1");
            ("name", VStr "Major rewrite of the interface");
            ("body", VNone); ("prerelease", VBool false)])
  = Ok false /\
  is_significant_release
    (VDict [("tag_name", VStr "25.02.1"); ("name", VStr "Typo fixes");
            ("body", VStr EmptyString); ("prerelease", VBool false)])
  = Ok true.
Proof.
  split.
  - exact (X15_keywords_do_not_matter
             (VDict [("tag_name", VStr "25.02.1.1");
                     ("name", VStr "Major rewrite of the interface");
                     ("body", VNone); ("prerelease", VBool false)])
             "25.02.1.1"
             (VStr "Major rewrite of the interface") VNone (VBool false)
             eq_refl eq_refl eq_refl eq_refl eq_refl eq_refl).
  - exact (X15_keywords_do_not_matter
             (VDict [("tag_name", VStr "25.02.1"); ("name", VStr "Typo fixes");
                     ("body", VStr EmptyString); ("prerelease", VBool false)])
             "25.02.1" (VStr "Typo fixes")
             (VStr EmptyString) (VBool false)
             eq_refl eq_refl eq_refl eq_refl eq_refl eq_refl).
Defined.

(** ** Worlds and events *)

Lemma logs_cons (e : event) (evs : list event) (w : world) :
  logs (e :: evs) w = logs evs (log e w).
Proof. reflexivity. Qed.

Lemma logs_app (a b : list event) (w : world) :
  logs (a ++ b) w = logs b (logs a w).
Proof. apply fold_left_app. Qed.

Lemma same_inputs_refl (w : world) : same_inputs w w.
Proof. unfold same_inputs. repeat split. Qed.

Lemma same_inputs_sym (w w' : world) : same_inputs w' w -> same_inputs w w'.
Proof. unfold same_inputs. intuition congruence. Qed.

Lemma same_inputs_trans (w w1 w2 : world) :
  same_inputs w1 w -> same_inputs w2 w1 -> same_inputs w2 w.
Proof. unfold same_inputs. intuition congruence. Qed.

Lemma same_inputs_log (e : event) (w : world) : same_inputs (log e w) w.
Proof. unfold same_inputs. repeat split. Qed.

Lemma same_inputs_tick (w : world) : same_inputs (tick w) w.
Proof. unfold same_inputs. repeat split. Qed.

Lemma logs_inputs (evs : list event) :
  forall w, same_inputs (logs evs w) w.
Proof.
  induction evs as [|e evs IH]; intros w; [apply same_inputs_refl|].
  rewrite logs_cons.
  exact (same_inputs_trans _ _ _ (same_inputs_log e w) (IH (log e w))).
Qed.

Lemma logs_trace (evs : list event) :
  forall w, trace (logs evs w) = (trace w ++ evs)%list.
Proof.
  induction evs as [|e evs IH]; intros w.
  - now rewrite app_nil_r.
  - rewrite logs_cons, IH. cbn [trace log]. now rewrite <- app_assoc.
Qed.

Lemma logs_ticks (evs : list event) :
  forall w, ticks (logs evs w) = ticks w.
Proof.
  induction evs as [|e evs IH]; intros w; [reflexivity|].
  now rewrite logs_cons, IH.
Qed.

Lemma output_events_same (w1 w : world) (n : string) (v : value) :
  same_inputs w1 w -> output_events w1 n v = output_events w n v.
Proof. intros H. unfold output_events. now rewrite (proj1 (proj2 (proj2 (proj2 H)))). Qed.

Lemma output_events_logs (evs : list event) (w : world) (n : string) (v : value) :
  output_events (logs evs w) n v = output_events w n v.
Proof. apply output_events_same, logs_inputs. Qed.

Lemma output_writable_same (w1 w : world) :
  same_inputs w1 w -> output_writable w1 = output_writable w.
Proof.
  intros (_ & _ & _ & Ho & _ & _ & He & _). unfold output_writable.
  now rewrite Ho, He.
Qed.

Lemma headers_same (w1 w : world) :
  same_inputs w1 w -> get_github_headers w1 = get_github_headers w.
Proof. intros (_ & Ht & _). unfold get_github_headers. now rewrite Ht. Qed.

Lemma body_events_same (w1 w : world) (p : path) :
  same_inputs w1 w -> body_events w1 p = body_events w p.
Proof.
  intros H. unfold body_events.
  destruct p; rewrite ?(headers_same _ _ H), ?(output_events_same _ _ _ _ H);
    reflexivity.
Qed.

Lemma skip_events_same (w1 w : world) :
  same_inputs w1 w -> skip_events w1 = skip_events w.
Proof.
  intros H. unfold skip_events. now rewrite !(output_events_same _ _ _ _ H).
Qed.

Lemma fst_latest_same (w1 w : world) :
  same_inputs w1 w ->
  fst (get_latest_anki_release w1) = fst (get_latest_anki_release w).
Proof.
  intros (_ & _ & _ & _ & Hh & _).
  rewrite !RunFacts.get_latest_cases. cbn [fst]. now rewrite Hh.
Qed.

Lemma force_check_same (w1 w : world) :
  same_inputs w1 w -> force_check w1 = force_check w.
Proof. intros (_ & _ & Hf & _). unfold force_check. now rewrite Hf. Qed.

(** ** The steps of a run *)

Lemma bindM_step {A B : Type} (c : M A) (k : A -> M B) (w w1 : world) (a : A) :
  c w = (Ok a, w1) -> bindM c k w = k a w1.
Proof. unfold bindM. now intros ->. Qed.

Lemma emit_ok (e : event) (w w' : world) (u : unit) :
  emit e w = (Ok u, w') -> w' = logs [e] w.
Proof. unfold emit. intros H. now injection H as _ <-. Qed.

Lemma emit_logs (e : event) (evs : list event) (w : world) :
  emit e (logs evs w) = (Ok tt, logs (evs ++ [e]) w).
Proof. now rewrite logs_app. Qed.

Lemma sgo_ok (n : string) (v : value) (w w' : world) (u : unit) :
  set_github_output n v w = (Ok u, w') ->
  w' = logs (output_events w n v) w /\ output_writable w = true.
Proof.
  unfold set_github_output, output_events, output_writable.
  destruct (GITHUB_OUTPUT w) as [[|c path]|];
    [|destruct (output_error w)|];
    intros H; try discriminate; injection H as _ <-; split; reflexivity.
Qed.

Lemma sgo_writable (n : string) (v : value) (w : world) :
  output_writable w = true ->
  set_github_output n v w = (Ok tt, logs (output_events w n v) w).
Proof.
  unfold set_github_output, output_events, output_writable.
  destruct (GITHUB_OUTPUT w) as [[|c path]|];
    [|destruct (output_error w)|];
    intros H; try discriminate; reflexivity.
Qed.

Lemma sgo_logs (n : string) (v : value) (evs : list event) (w : world) :
  output_writable w = true ->
  set_github_output n v (logs evs w) =
    (Ok tt, logs (evs ++ output_events w n v) w).
Proof.
  intros H. rewrite sgo_writable.
  - now rewrite output_events_logs, logs_app.
  - now rewrite (output_writable_same _ _ (logs_inputs evs w)).
Qed.

Lemma get_latest_ok (w w' : world) (r : result value) :
  get_latest_anki_release w = (r, w') ->
  fst (get_latest_anki_release w) = r /\
  w' = logs [HttpGet latest_url (get_github_headers w)] w.
Proof.
  intros H. rewrite H. split; [reflexivity|].
  rewrite RunFacts.get_latest_cases in H. now injection H as _ <-.
Qed.

Lemma get_latest_run (w : world) (release : value) :
  fst (get_latest_anki_release w) = Ok release ->
  get_latest_anki_release w =
    (Ok release, logs [HttpGet latest_url (get_github_headers w)] w).
Proof.
  rewrite RunFacts.get_latest_cases. cbn [fst]. now intros ->.
Qed.

(** Worlds as [logs evs w], with the outputs read in [w]. *)
Ltac norm :=
  repeat match goal with
         | H : context [log ?e ?x] |- _ =>
             change (log e x) with (logs [e] x) in H
         | |- context [log ?e ?x] => change (log e x) with (logs [e] x)
         end;
  rewrite <- ?logs_app in *; rewrite ?output_events_logs in *.

Lemma skip_recent_ok (w w' : world) (u : unit) :
  skip_recent w = (Ok u, w') ->
  w' = logs (skip_events w) w /\ output_writable w = true.
Proof.
  unfold skip_recent. intros H.
  apply RunFacts.bindM_ok in H as (u1 & w1 & E1 & H). apply emit_ok in E1 as ->.
  apply RunFacts.bindM_ok in H as (u2 & w2 & E2 & H).
  apply sgo_ok in E2 as [-> W2]. apply sgo_ok in H as [-> W3].
  norm.
  rewrite (output_writable_same _ _ (logs_inputs _ w)) in W2.
  split; [reflexivity | exact W2].
Qed.

Lemma skip_recent_writable (w : world) :
  output_writable w = true ->
  skip_recent w = (Ok tt, logs (skip_events w) w).
Proof.
  intros H. unfold skip_recent.
  erewrite bindM_step; [|apply (emit_logs _ [] w)].
  erewrite bindM_step; [|apply sgo_logs; exact H].
  rewrite sgo_logs by exact H. reflexivity.
Qed.

Section Library.

Variable json_load : string -> result value.
Variable fromisoformat : string -> result datetime.
Variable isoformat : datetime -> string.

#[local] Abbreviation main := (ReleaseCheck.main json_load fromisoformat isoformat).
#[local] Abbreviation check_body := (ReleaseCheck.check_body json_load isoformat).
#[local] Abbreviation skip_test := (ReleaseCheck.skip_test fromisoformat).
#[local] Abbreviation was_recently_checked :=
  (ReleaseCheck.was_recently_checked fromisoformat).
#[local] Abbreviation mark_checked := (ReleaseCheck.mark_checked isoformat).
#[local] Abbreviation load_version_mapping :=
  (ReleaseCheck.load_version_mapping json_load).
#[local] Abbreviation marked := (MoreSpec.marked isoformat).
#[local] Abbreviation mark_text := (MoreSpec.mark_text isoformat).
#[local] Abbreviation built := (MoreSpec.built json_load).
#[local] Abbreviation taken_body := (MoreSpec.taken_body json_load).
#[local] Abbreviation taken := (MoreSpec.taken json_load fromisoformat).
#[local] Abbreviation not_recent := (MoreSpec.not_recent fromisoformat).
#[local] Abbreviation recent := (RunSpec.recent fromisoformat).
#[local] Abbreviation after_test := (MoreSpec.after_test fromisoformat).
#[local] Abbreviation final := (MoreSpec.final fromisoformat isoformat).

Ltac bind_step H a w E :=
  apply RunFacts.bindM_ok in H; destruct H as (a & w & E & H).

Ltac step t := erewrite bindM_step; [cbv beta | t].

Lemma fst_load_same (w1 w : world) :
  same_inputs w1 w ->
  fst (load_version_mapping w1) = fst (load_version_mapping w).
Proof.
  intros (_ & _ & _ & _ & _ & _ & _ & _ & Hv & _).
  unfold ReleaseCheck.load_version_mapping. cbn [fst]. now rewrite Hv.
Qed.

Lemma load_ok (w w' : world) (r : result value) :
  load_version_mapping w = (r, w') ->
  fst (load_version_mapping w) = r /\ w' = w.
Proof.
  intros H. rewrite H. split; [reflexivity|].
  unfold ReleaseCheck.load_version_mapping in H. now injection H as _ <-.
Qed.

Lemma load_run (w : world) :
  load_version_mapping w = (fst (load_version_mapping w), w).
Proof. reflexivity. Qed.

Lemma mark_text_same (w1 w : world) :
  same_inputs w1 w -> ticks w1 = ticks w -> mark_text w1 = mark_text w.
Proof.
  intros (_ & _ & _ & _ & _ & Hc & _) Ht. unfold MoreSpec.mark_text.
  now rewrite Hc, Ht.
Qed.

Lemma mark_ok (w w' : world) (u : unit) :
  mark_checked w = (Ok u, w') ->
  check_write_error w = None /\ w' = marked w.
Proof.
  unfold ReleaseCheck.mark_checked.
  destruct (check_write_error w); [discriminate|].
  intros H. injection H as _ <-. split; reflexivity.
Qed.

Lemma mark_writable (w : world) :
  check_write_error w = None -> mark_checked w = (Ok tt, marked w).
Proof. unfold ReleaseCheck.mark_checked. now intros ->. Qed.

Lemma taken_body_same (w1 w : world) (p : path) :
  same_inputs w1 w -> taken_body w1 p -> taken_body w p.
Proof.
  intros H. unfold MoreSpec.taken_body, latest, MoreSpec.built.
  rewrite (fst_latest_same _ _ H), (fst_load_same _ _ H). exact (fun x => x).
Qed.

(** The body of the [try] statement, when it ends normally. *)
Lemma check_body_ok (w w' : world) :
  check_body w = (Ok tt, w') ->
  exists p : path,
    is_skipped p = false /\ taken_body w p /\
    output_writable w = true /\ check_write_error w = None /\
    w' = marked (logs (body_events w p) w).
Proof.
  unfold ReleaseCheck.check_body. intros H.
  bind_step H release w1 E1. apply get_latest_ok in E1 as [R1 ->].
  bind_step H tag w2 E2. unfold lift in E2. injection E2 as T2 <-.
  bind_step H u3 w3 E3. apply emit_ok in E3 as ->.
  bind_step H mapping w4 E4. apply load_ok in E4 as [L4 ->].
  bind_step H b w5 E5. unfold lift in E5. injection E5 as V5 <-.
  norm.
  rewrite (fst_load_same _ _ (logs_inputs _ w)) in L4.
  destruct b.
  - bind_step H u6 w6 E6. apply emit_ok in E6 as ->.
    bind_step H u7 w7 E7. apply sgo_ok in E7 as [-> W7].
    bind_step H u8 w8 E8. apply sgo_ok in E8 as [-> W8].
    apply mark_ok in H as [C ->].
    norm.
    rewrite (output_writable_same _ _ (logs_inputs _ w)) in W7.
    rewrite (proj1 (proj2 (proj2 (proj2 (proj2 (proj2 (proj2 (proj2
               (logs_inputs _ w))))))))) in C.
    exists (AlreadyBuilt tag). split; [reflexivity|].
    split; [exists release; split; [split; assumption|]; exists mapping;
            split; assumption|].
    split; [exact W7|]. split; [exact C|].
    unfold body_events. cbn [app]. rewrite <- ?app_assoc. reflexivity.
  - bind_step H u6 w6 E6. apply emit_ok in E6 as ->.
    bind_step H significant w7 E7. unfold lift in E7. injection E7 as S7 <-.
    bind_step H u8 w8 E8.
    apply mark_ok in H as [C ->].
    destruct significant.
    + bind_step E8 u9 w9 E9. apply emit_ok in E9 as ->.
      bind_step E8 u10 w10 E10. apply sgo_ok in E10 as [-> W10].
      bind_step E8 u11 w11 E11. apply sgo_ok in E11 as [-> W11].
      bind_step E8 u12 w12 E12. apply sgo_ok in E12 as [-> W12].
      bind_step E8 url w13 E13. unfold lift in E13. injection E13 as U13 <-.
      apply sgo_ok in E8 as [-> W14].
      norm.
      rewrite (output_writable_same _ _ (logs_inputs _ w)) in W10.
      rewrite (proj1 (proj2 (proj2 (proj2 (proj2 (proj2 (proj2 (proj2
                 (logs_inputs _ w))))))))) in C.
      exists (Significant tag url). split; [reflexivity|].
      split; [exists release; split; [split; assumption|];
              split; [exists mapping; split; assumption|];
              split; assumption|].
      split; [exact W10|]. split; [exact C|].
      unfold body_events. cbn [app]. rewrite <- ?app_assoc. reflexivity.
    + bind_step E8 u9 w9 E9. apply emit_ok in E9 as ->.
      bind_step E8 u10 w10 E10. apply sgo_ok in E10 as [-> W10].
      bind_step E8 u11 w11 E11. apply sgo_ok in E11 as [-> W11].
      bind_step E8 u12 w12 E12. apply sgo_ok in E12 as [-> W12].
      bind_step E8 url w13 E13. unfold lift in E13. injection E13 as U13 <-.
      apply sgo_ok in E8 as [-> W14].
      norm.
      rewrite (output_writable_same _ _ (logs_inputs _ w)) in W10.
      rewrite (proj1 (proj2 (proj2 (proj2 (proj2 (proj2 (proj2 (proj2
                 (logs_inputs _ w))))))))) in C.
      exists (Minor tag url). split; [reflexivity|].
      split; [exists release; split; [split; assumption|];
              split; [exists mapping; split; assumption|];
              split; assumption|].
      split; [exact W10|]. split; [exact C|].
      unfold body_events. cbn [app]. rewrite <- ?app_assoc. reflexivity.
Qed.

(** The body of the [try] statement on each of its three paths. *)
Lemma check_body_returns (w : world) (p : path) :
  is_skipped p = false ->
  taken_body w p ->
  output_writable w = true ->
  check_write_error w = None ->
  check_body w = (Ok tt, marked (logs (body_events w p) w)).
Proof.
  intros Hp Ht Hw Hc.
  assert (Hm : forall evs, mark_checked (logs evs w) = (Ok tt, marked (logs evs w))).
  { intros evs. apply mark_writable.
    now rewrite (proj1 (proj2 (proj2 (proj2 (proj2 (proj2 (proj2 (proj2
                   (logs_inputs evs w))))))))). }
  assert (Hl : forall evs, load_version_mapping (logs evs w)
                           = (fst (load_version_mapping w), logs evs w)).
  { intros evs. rewrite load_run.
    now rewrite (fst_load_same _ _ (logs_inputs evs w)). }
  unfold ReleaseCheck.check_body.
  destruct p as [|tag|tag url|tag url]; [discriminate| | |].
  - destruct Ht as (release & [R T] & (mapping & L & V)).
    step ltac:(apply get_latest_run; exact R).
    step ltac:(unfold lift; rewrite T; reflexivity).
    step ltac:(apply emit_logs).
    step ltac:(rewrite Hl, L; reflexivity).
    step ltac:(unfold lift; rewrite V; reflexivity).
    cbv iota.
    step ltac:(apply emit_logs).
    step ltac:(apply sgo_logs; exact Hw).
    step ltac:(apply sgo_logs; exact Hw).
    rewrite Hm. unfold body_events. cbn [app]. rewrite <- ?app_assoc.
    reflexivity.
  - destruct Ht as (release & [R T] & (mapping & L & V) & S & U).
    step ltac:(apply get_latest_run; exact R).
    step ltac:(unfold lift; rewrite T; reflexivity).
    step ltac:(apply emit_logs).
    step ltac:(rewrite Hl, L; reflexivity).
    step ltac:(unfold lift; rewrite V; reflexivity).
    cbv iota.
    step ltac:(apply emit_logs).
    step ltac:(unfold lift; rewrite S; reflexivity).
    cbv iota.
    erewrite bindM_step; [apply Hm|].
    step ltac:(apply emit_logs).
    step ltac:(apply sgo_logs; exact Hw).
    step ltac:(apply sgo_logs; exact Hw).
    step ltac:(apply sgo_logs; exact Hw).
    step ltac:(unfold lift; rewrite U; reflexivity).
    rewrite sgo_logs by exact Hw.
    unfold body_events. cbn [app]. rewrite <- ?app_assoc. reflexivity.
  - destruct Ht as (release & [R T] & (mapping & L & V) & S & U).
    step ltac:(apply get_latest_run; exact R).
    step ltac:(unfold lift; rewrite T; reflexivity).
    step ltac:(apply emit_logs).
    step ltac:(rewrite Hl, L; reflexivity).
    step ltac:(unfold lift; rewrite V; reflexivity).
    cbv iota.
    step ltac:(apply emit_logs).
    step ltac:(unfold lift; rewrite S; reflexivity).
    cbv iota.
    erewrite bindM_step; [apply Hm|].
    step ltac:(apply emit_logs).
    step ltac:(apply sgo_logs; exact Hw).
    step ltac:(apply sgo_logs; exact Hw).
    step ltac:(apply sgo_logs; exact Hw).
    step ltac:(unfold lift; rewrite U; reflexivity).
    rewrite sgo_logs by exact Hw.
    unfold body_events. cbn [app]. rewrite <- ?app_assoc. reflexivity.
Qed.

(** ** The test of the last check *)

Lemma was_recently_checked_log (e : event) (w : world) :
  fst (was_recently_checked (log e w)) = fst (was_recently_checked w).
Proof.
  unfold ReleaseCheck.was_recently_checked. cbn [check_file log clock ticks].
  destruct (check_file w) as [|x|text|x]; [reflexivity| | |reflexivity].
  - destruct (_ || _); reflexivity.
  - destruct (fromisoformat (strip text)) as [last|x].
    + destruct (aware last); reflexivity.
    + destruct (_ || _); reflexivity.
Qed.

Lemma was_recently_checked_inputs (w w' : world) (r : result bool) :
  was_recently_checked w = (r, w') ->
  same_inputs w' w /\ trace w' = trace w /\
  (ticks w' = ticks w \/ ticks w' = S (ticks w)).
Proof.
  unfold ReleaseCheck.was_recently_checked.
  destruct (check_file w) as [|x|text|x].
  - intros H. injection H as _ <-. repeat split. now left.
  - destruct (_ || _); intros H; injection H as _ <-; repeat split; now left.
  - destruct (fromisoformat (strip text)) as [last|x].
    + destruct (aware last); intros H; injection H as _ <-; repeat split;
        now right.
    + destruct (_ || _); intros H; injection H as _ <-; repeat split; now left.
  - intros H. injection H as _ <-. repeat split. now left.
Qed.

Lemma skip_test_inputs (w w' : world) (r : result bool) :
  skip_test w = (r, w') ->
  same_inputs w' w /\ trace w' = trace w /\
  (ticks w' = ticks w \/ ticks w' = S (ticks w)).
Proof.
  unfold ReleaseCheck.skip_test. destruct (force_check w).
  - intros H. injection H as _ <-. repeat split. now left.
  - apply was_recently_checked_inputs.
Qed.

Lemma was_recently_checked_true (w w' : world) :
  was_recently_checked w = (Ok true, w') -> recent w /\ w' = tick w.
Proof.
  unfold ReleaseCheck.was_recently_checked, RunSpec.recent.
  destruct (check_file w) as [|x|text|x]; [discriminate| | |discriminate].
  - destruct (_ || _); discriminate.
  - destruct (fromisoformat (strip text)) as [last|x] eqn:Ef.
    + destruct (aware last) eqn:Ea; [discriminate|].
      intros H. injection H as Hlt <-. split; [|reflexivity].
      exists text, last. repeat split; try assumption.
      now apply Z.ltb_lt.
    + destruct (_ || _); discriminate.
Qed.

Lemma recent_not_false (w : world) : recent w -> not_recent w -> False.
Proof.
  intros (text & last & Hc & Hp & Ha & Hlt).
  unfold MoreSpec.not_recent, ReleaseCheck.was_recently_checked.
  rewrite Hc, Hp, Ha. cbn [fst].
  replace (clock w (ticks w) - micros last <? two_hours) with true;
    [discriminate|].
  symmetry. now apply Z.ltb_lt.
Qed.

Lemma after_test_inputs (w : world) :
  same_inputs (after_test w) w /\
  trace (after_test w) = (trace w ++ [Print "Checking for Anki updates..."])%list /\
  (ticks (after_test w) = ticks w \/ ticks (after_test w) = S (ticks w)).
Proof.
  unfold MoreSpec.after_test.
  destruct (skip_test (log (Print "Checking for Anki updates...") w))
    as [r w1] eqn:Hs.
  destruct (skip_test_inputs _ _ _ Hs) as (Hi & Ht & Hk). cbn [snd].
  split; [exact (same_inputs_trans _ _ _ (same_inputs_log _ w) Hi)|].
  split; assumption.
Qed.

(** ** The runs that return *)

Lemma main_returned (w w' : world) :
  main w = (Returned, w') ->
  exists p : path,
    taken w p /\ output_writable w = true /\
    (is_skipped p = false -> check_write_error w = None) /\
    w' = final w p.
Proof.
  unfold ReleaseCheck.main. intros H.
  pose proof (after_test_inputs w) as (Hi & _ & _).
  unfold MoreSpec.final. unfold MoreSpec.after_test in *.
  destruct (skip_test (log (Print "Checking for Anki updates...") w))
    as [[b|e] w1] eqn:Hs; [|discriminate].
  cbn [snd] in *.
  unfold ReleaseCheck.skip_test in Hs.
  change (force_check (log (Print "Checking for Anki updates...") w))
    with (force_check w) in Hs.
  destruct b.
  - destruct (skip_recent w1) as [[u|e] w2] eqn:Hk; [|discriminate].
    injection H as <-. apply skip_recent_ok in Hk as [-> Hw].
    rewrite (output_writable_same _ _ Hi) in Hw.
    rewrite (skip_events_same _ _ Hi).
    destruct (force_check w) eqn:Hf; [discriminate|].
    apply was_recently_checked_true in Hs as [Hr _].
    exists Skipped. repeat split; try assumption; discriminate.
  - destruct (check_body w1) as [[[]|e] w2] eqn:Hb; [|discriminate].
    injection H as <-.
    apply check_body_ok in Hb as (p & Hp & Ht & Hw & Hc & ->).
    rewrite (output_writable_same _ _ Hi) in Hw.
    rewrite (proj1 (proj2 (proj2 (proj2 (proj2 (proj2 (proj2 (proj2 Hi)))))))) in Hc.
    rewrite (body_events_same _ _ _ Hi).
    apply (taken_body_same _ _ _ Hi) in Ht.
    assert (Hn : force_check w = true \/ not_recent w).
    { destruct (force_check w); [now left | right].
      unfold MoreSpec.not_recent.
      rewrite <- (was_recently_checked_log (Print "Checking for Anki updates...")).
      now rewrite Hs. }
    exists p. rewrite Hp.
    destruct p; try discriminate Hp; repeat split; try assumption;
      intros _; assumption.
Qed.

Lemma skip_test_false (w : world) :
  force_check w = true \/ not_recent w ->
  fst (skip_test (log (Print "Checking for Anki updates...") w)) = Ok false.
Proof.
  intros H. unfold ReleaseCheck.skip_test.
  change (force_check (log (Print "Checking for Anki updates...") w))
    with (force_check w).
  destruct (force_check w); [reflexivity|].
  destruct H as [H|H]; [discriminate|].
  rewrite was_recently_checked_log. exact H.
Qed.

Lemma main_returns (w : world) (p : path) :
  taken w p ->
  output_writable w = true ->
  (is_skipped p = false -> check_write_error w = None) ->
  main w = (Returned, final w p).
Proof.
  intros Ht Hw Hc.
  pose proof (after_test_inputs w) as (Hi & _ & _).
  unfold ReleaseCheck.main, MoreSpec.final. unfold MoreSpec.after_test in *.
  destruct p as [|tag|tag url|tag url].
  - destruct Ht as [Hf Hr].
    rewrite (RunFacts.skip_test_recent fromisoformat
               (log (Print "Checking for Anki updates...") w) Hf Hr) in *.
    cbn [snd is_skipped] in *.
    rewrite skip_recent_writable
      by (now rewrite (output_writable_same _ _ Hi)).
    now rewrite (skip_events_same _ _ Hi).
  - destruct Ht as [Hn Hb]. pose proof (skip_test_false w Hn) as Hs.
    destruct (skip_test (log (Print "Checking for Anki updates...") w))
      as [r w1]. cbn [fst snd is_skipped] in *. subst r.
    rewrite (check_body_returns w1 (AlreadyBuilt tag) eq_refl
               (taken_body_same _ _ _ (same_inputs_sym _ _ Hi) Hb)).
    + now rewrite (body_events_same _ _ _ Hi).
    + now rewrite (output_writable_same _ _ Hi).
    + rewrite (proj1 (proj2 (proj2 (proj2 (proj2 (proj2 (proj2 (proj2 Hi)))))))).
      now apply Hc.
  - destruct Ht as [Hn Hb]. pose proof (skip_test_false w Hn) as Hs.
    destruct (skip_test (log (Print "Checking for Anki updates...") w))
      as [r w1]. cbn [fst snd is_skipped] in *. subst r.
    rewrite (check_body_returns w1 (Significant tag url) eq_refl
               (taken_body_same _ _ _ (same_inputs_sym _ _ Hi) Hb)).
    + now rewrite (body_events_same _ _ _ Hi).
    + now rewrite (output_writable_same _ _ Hi).
    + rewrite (proj1 (proj2 (proj2 (proj2 (proj2 (proj2 (proj2 (proj2 Hi)))))))).
      now apply Hc.
  - destruct Ht as [Hn Hb]. pose proof (skip_test_false w Hn) as Hs.
    destruct (skip_test (log (Print "Checking for Anki updates...") w))
      as [r w1]. cbn [fst snd is_skipped] in *. subst r.
    rewrite (check_body_returns w1 (Minor tag url) eq_refl
               (taken_body_same _ _ _ (same_inputs_sym _ _ Hi) Hb)).
    + now rewrite (body_events_same _ _ _ Hi).
    + now rewrite (output_writable_same _ _ Hi).
    + rewrite (proj1 (proj2 (proj2 (proj2 (proj2 (proj2 (proj2 (proj2 Hi)))))))).
      now apply Hc.
Qed.

(** What the world of a run that returned holds. *)
Lemma final_holds (w : world) (p : path) :
  trace (final w p) =
    (trace w ++ path_events w (mark_text (after_test w)) p)%list /\
  check_file (final w p) =
    (if is_skipped p then check_file w else Holds (mark_text (after_test w))) /\
  version_file (final w p) = version_file w /\
  ticks (final w p) =
    (if is_skipped p then ticks (after_test w) else S (ticks (after_test w))) /\
  clock (final w p) = clock w /\
  FORCE_CHECK (final w p) = FORCE_CHECK w /\
  output_writable (final w p) = output_writable w.
Proof.
  pose proof (after_test_inputs w) as (Hi & Ht & _).
  unfold MoreSpec.final.
  assert (Hskip : is_skipped p = true -> p = Skipped)
    by (destruct p; [reflexivity | discriminate..]).
  destruct (is_skipped p) eqn:Hp.
  - rewrite (Hskip eq_refl).
    pose proof (same_inputs_trans _ _ _ Hi (logs_inputs (skip_events w) _)) as Hj.
    rewrite logs_trace, Ht, logs_ticks, (output_writable_same _ _ Hj).
    destruct Hj as (_ & _ & Hf & _ & _ & Hc & _ & _ & Hv & Hk).
    rewrite <- app_assoc. repeat split; assumption.
  - set (X := logs (body_events w p) (after_test w)).
    assert (Hj : same_inputs X w)
      by exact (same_inputs_trans _ _ _ Hi (logs_inputs _ _)).
    assert (Hm : mark_text X = mark_text (after_test w)).
    { apply mark_text_same; [apply logs_inputs | apply logs_ticks]. }
    unfold MoreSpec.marked. fold (mark_text X). rewrite Hm.
    cbn [trace check_file version_file ticks clock FORCE_CHECK log
         set_check_file tick].
    assert (Ho : output_writable
                   (log (WriteCheck (mark_text (after_test w)))
                      (set_check_file (Holds (mark_text (after_test w))) (tick X)))
                 = output_writable w).
    { rewrite <- (output_writable_same _ _ Hj). reflexivity. }
    rewrite Ho. subst X. rewrite logs_trace, logs_ticks, Ht.
    pose proof Hj as (_ & _ & Hf & _ & _ & Hc & _ & _ & Hv & _).
    split; [|repeat split; assumption].
    unfold path_events. rewrite <- !app_assoc.
    destruct p; [discriminate | reflexivity..].
Qed.

(** X16.  [main] returns exactly on one of four paths, and then in the
    world that the path fixes, provided that the outputs can be written
    and, off the skipped path, the last-check file as well: skipped as
    recently checked; already built; new and significant; new and minor.
    The events of the run are those of the path, in order: at most one
    request, to the latest release of Anki, the two flags, then
    [anki_version] and [changes_url] on the two paths of a new release,
    and last the rewriting of the last-check file, which the skipped path
    leaves as it is.  No path changes the version-mapping file. *)
Theorem X16_returning_runs (w : world) :
  (forall w' : world,
     main w = (Returned, w') <->
     exists p : path,
       taken w p /\ output_writable w = true /\
       (is_skipped p = false -> check_write_error w = None) /\
       w' = final w p) /\
  (forall p : path,
     trace (final w p) =
       (trace w ++ path_events w (mark_text (after_test w)) p)%list /\
     check_file (final w p) =
       (if is_skipped p then check_file w
        else Holds (mark_text (after_test w))) /\
     version_file (final w p) = version_file w /\
     filter is_request (path_events w (mark_text (after_test w)) p) =
       (if is_skipped p then []
        else [HttpGet latest_url (get_github_headers w)])).
Proof.
  split.
  - intros w'. split.
    + apply main_returned.
    + intros (p & Ht & Hw & Hc & ->). now apply main_returns.
  - intros p. destruct (final_holds w p) as (H1 & H2 & H3 & _).
    repeat split; try assumption.
    unfold path_events, skip_events, body_events, output_events.
    destruct p; destruct (GITHUB_OUTPUT w) as [[|c s]|]; reflexivity.
Qed.

(** ** The outputs and the release *)

Lemma printed_new_release (w : world) (text : string) (p : path) :
  printed "new_release" (path_events w text p) =
  match p with
  | Significant _ _ => [VStr "true"]
  | _ => [VStr "false"]
  end.
Proof.
  unfold path_events, skip_events, body_events, output_events.
  destruct p; destruct (GITHUB_OUTPUT w) as [[|c s]|]; reflexivity.
Qed.

Lemma printed_needs_review (w : world) (text : string) (p : path) :
  printed "needs_review" (path_events w text p) =
  match p with
  | Minor _ _ => [VStr "true"]
  | _ => [VStr "false"]
  end.
Proof.
  unfold path_events, skip_events, body_events, output_events.
  destruct p; destruct (GITHUB_OUTPUT w) as [[|c s]|]; reflexivity.
Qed.

Lemma printed_anki_version (w : world) (text : string) (p : path) :
  printed "anki_version" (path_events w text p) =
  match p with
  | Significant tag _ | Minor tag _ => [tag]
  | _ => []
  end.
Proof.
  unfold path_events, skip_events, body_events, output_events.
  destruct p; destruct (GITHUB_OUTPUT w) as [[|c s]|]; reflexivity.
Qed.

Lemma printed_changes_url (w : world) (text : string) (p : path) :
  printed "changes_url" (path_events w text p) =
  match p with
  | Significant _ url | Minor _ url => [url]
  | _ => []
  end.
Proof.
  unfold path_events, skip_events, body_events, output_events.
  destruct p; destruct (GITHUB_OUTPUT w) as [[|c s]|]; reflexivity.
Qed.

Lemma significant_inv (release : value) :
  is_significant_release release = Ok true ->
  exists (tag pre : value) (dots : Z),
    subscript release "tag_name" = Ok tag /\
    subscript release "prerelease" = Ok pre /\
    truthy pre = false /\
    count_dots tag = Ok dots /\ dots <= 2.
Proof.
  unfold is_significant_release.
  destruct (subscript release "tag_name") as [tag|]; [|discriminate].
  cbn [bind]. destruct (subscript release "name") as [n|]; [|discriminate].
  cbn [bind]. destruct (subscript release "body") as [b|]; [|discriminate].
  cbn [bind]. destruct (subscript release "prerelease") as [pre|]; [|discriminate].
  cbn [bind]. destruct (truthy pre) eqn:Hp; [discriminate|].
  destruct (count_dots tag) as [dots|] eqn:Hc; [|discriminate].
  cbn [bind]. destruct (2 <? dots) eqn:Hd; [discriminate|].
  intros _. exists tag, pre, dots.
  repeat split; try reflexivity; try assumption. now apply Z.ltb_ge.
Qed.

Lemma minor_inv (release : value) :
  is_significant_release release = Ok false ->
  exists (tag pre : value),
    subscript release "tag_name" = Ok tag /\
    subscript release "prerelease" = Ok pre /\
    (truthy pre = true \/ exists dots, count_dots tag = Ok dots /\ 2 < dots).
Proof.
  unfold is_significant_release.
  destruct (subscript release "tag_name") as [tag|]; [|discriminate].
  cbn [bind]. destruct (subscript release "name") as [n|]; [|discriminate].
  cbn [bind]. destruct (subscript release "body") as [b|]; [|discriminate].
  cbn [bind]. destruct (subscript release "prerelease") as [pre|]; [|discriminate].
  cbn [bind]. destruct (truthy pre) eqn:Hp.
  - intros _. exists tag, pre. repeat split. now left.
  - destruct (count_dots tag) as [dots|] eqn:Hc; [|discriminate].
    cbn [bind]. destruct (2 <? dots) eqn:Hd.
    + intros _. exists tag, pre. repeat split. right. exists dots.
      split; [assumption | now apply Z.ltb_lt].
    + destruct (add_str (if truthy n then n else tag) (VStr " ")) as [s1|];
        [|discriminate].
      cbn [bind].
      destruct (add_str (VStr s1) (if truthy b then b else VStr EmptyString))
        as [s2|]; [|discriminate].
      cbn [bind]. rewrite keywords_same. discriminate.
Qed.

(** X17.  What the outputs of a run that returned say about the release.
    When [new_release] is [true], the latest release is not a prerelease,
    its tag has at most two dots and no entry of the version mapping is
    for it, [needs_review] is [false], and [anki_version] and
    [changes_url] are its tag and its page.  When [needs_review] is
    [true], the latest release is not in the mapping and is a prerelease
    or has a tag with more than two dots, and the two values are set
    likewise.  When both flags are [false], [anki_version] and
    [changes_url] are not set. *)
Theorem X17_outputs_and_release (w w' : world) :
  main w = (Returned, w') ->
  exists evs : list event,
    trace w' = (trace w ++ evs)%list /\
    (printed "new_release" evs = [VStr "true"] ->
     exists (release tag url pre : value) (dots : Z),
       latest w release tag /\ built w tag false /\
       subscript release "prerelease" = Ok pre /\ truthy pre = false /\
       count_dots tag = Ok dots /\ dots <= 2 /\
       subscript release "html_url" = Ok url /\
       printed "needs_review" evs = [VStr "false"] /\
       printed "anki_version" evs = [tag] /\
       printed "changes_url" evs = [url]) /\
    (printed "needs_review" evs = [VStr "true"] ->
     exists (release tag url pre : value),
       latest w release tag /\ built w tag false /\
       subscript release "prerelease" = Ok pre /\
       (truthy pre = true \/ exists dots, count_dots tag = Ok dots /\ 2 < dots) /\
       subscript release "html_url" = Ok url /\
       printed "new_release" evs = [VStr "false"] /\
       printed "anki_version" evs = [tag] /\
       printed "changes_url" evs = [url]) /\
    (printed "new_release" evs = [VStr "false"] ->
     printed "needs_review" evs = [VStr "false"] ->
     printed "anki_version" evs = [] /\ printed "changes_url" evs = []).
Proof.
  intros H. apply main_returned in H as (p & Ht & _ & _ & ->).
  destruct (final_holds w p) as (Hf & _).
  exists (path_events w (mark_text (after_test w)) p).
  split; [exact Hf|].
  rewrite printed_new_release, printed_needs_review, printed_anki_version,
    printed_changes_url.
  destruct p as [|tag|tag url|tag url].
  - repeat split; discriminate.
  - repeat split; discriminate.
  - split; [|split; [discriminate | discriminate]].
    intros _. destruct Ht as (_ & release & [R T] & B & S & U).
    destruct (significant_inv _ S) as (tag' & pre & dots & T' & P & Hp & D & Hd).
    rewrite T in T'. injection T' as <-.
    exists release, tag, url, pre, dots. repeat split; assumption.
  - split; [discriminate|]. split; [|discriminate].
    intros _. destruct Ht as (_ & release & [R T] & B & S & U).
    destruct (minor_inv _ S) as (tag' & pre & T' & P & Hp).
    rewrite T in T'. injection T' as <-.
    exists release, tag, url, pre. repeat split; assumption.
Qed.

(** ** Runs that fail *)

Lemma no_write_refl (w : world) : no_write w w.
Proof.
  split; [apply same_inputs_refl|]. exists []. now rewrite app_nil_r.
Qed.

Lemma no_write_trans (w w1 w2 : world) :
  no_write w w1 -> no_write w1 w2 -> no_write w w2.
Proof.
  intros [I1 (e1 & T1 & N1)] [I2 (e2 & T2 & N2)].
  split; [exact (same_inputs_trans _ _ _ I1 I2)|].
  exists (e1 ++ e2)%list. rewrite T2, T1, <- app_assoc, existsb_app, N1, N2.
  split; reflexivity.
Qed.

Lemma no_write_logs (evs : list event) (w : world) :
  existsb is_write evs = false -> no_write w (logs evs w).
Proof.
  intros H. split; [apply logs_inputs|]. exists evs.
  split; [apply logs_trace | exact H].
Qed.

Lemma keeps_bind {A B : Type} (c : M A) (k : A -> M B) :
  keeps no_write c -> (forall a, keeps no_write (k a)) ->
  keeps no_write (bindM c k).
Proof.
  intros Hc Hk w r w'. unfold bindM.
  destruct (c w) as [[a|e] w1] eqn:E; intros H.
  - exact (no_write_trans _ _ _ (Hc _ _ _ E) (Hk a _ _ _ H)).
  - injection H as _ <-. exact (Hc _ _ _ E).
Qed.

Lemma kor_bind {A B : Type} (c : M A) (k : A -> M B) :
  keeps no_write c -> (forall a, keeps_on_raise no_write (k a)) ->
  keeps_on_raise no_write (bindM c k).
Proof.
  intros Hc Hk w x w'. unfold bindM.
  destruct (c w) as [[a|e] w1] eqn:E; intros H.
  - exact (no_write_trans _ _ _ (Hc _ _ _ E) (Hk a _ _ _ H)).
  - injection H as _ <-. exact (Hc _ _ _ E).
Qed.

Lemma keeps_emit (e : event) : is_write e = false -> keeps no_write (emit e).
Proof.
  intros He w r w' H. unfold emit in H. injection H as _ <-.
  apply (no_write_logs [e]). cbn. now rewrite He.
Qed.

Lemma keeps_lift {A : Type} (r : result A) : keeps no_write (lift r).
Proof.
  intros w x w' H. unfold lift in H. injection H as _ <-. apply no_write_refl.
Qed.

Lemma keeps_get_latest : keeps no_write get_latest_anki_release.
Proof.
  intros w r w' H. apply get_latest_ok in H as [_ ->].
  now apply no_write_logs.
Qed.

Lemma keeps_sgo (n : string) (v : value) :
  keeps no_write (set_github_output n v).
Proof.
  intros w r w'. unfold set_github_output.
  destruct (GITHUB_OUTPUT w) as [[|c path]|];
    [|destruct (output_error w)|]; intros H; injection H as _ <-.
  - now apply (no_write_logs [SetOutput n v]).
  - apply no_write_refl.
  - now apply (no_write_logs [AppendOutput (String c path) n v; SetOutput n v]).
  - now apply (no_write_logs [SetOutput n v]).
Qed.

Lemma keeps_skip_recent : keeps no_write skip_recent.
Proof.
  unfold skip_recent.
  apply keeps_bind; [now apply keeps_emit | intros _].
  apply keeps_bind; [apply keeps_sgo | intros _]. apply keeps_sgo.
Qed.

#[local] Abbreviation reads_mark := (MoreSpec.reads_mark fromisoformat isoformat).

Lemma keeps_load : keeps no_write load_version_mapping.
Proof.
  intros w r w' H. apply load_ok in H as [_ ->]. apply no_write_refl.
Qed.

Lemma kor_mark : keeps_on_raise no_write mark_checked.
Proof.
  intros w e w'. unfold ReleaseCheck.mark_checked.
  destruct (check_write_error w); intros H; [|discriminate].
  injection H as _ <-. apply no_write_refl.
Qed.

Ltac keeps_step :=
  first [ apply keeps_emit; reflexivity
        | apply keeps_sgo
        | apply keeps_lift
        | apply keeps_get_latest
        | apply keeps_load ].

Lemma kor_check_body : keeps_on_raise no_write check_body.
Proof.
  unfold ReleaseCheck.check_body.
  apply kor_bind; [keeps_step | intros release].
  apply kor_bind; [keeps_step | intros tag].
  apply kor_bind; [keeps_step | intros _].
  apply kor_bind; [keeps_step | intros mapping].
  apply kor_bind; [keeps_step | intros b].
  destruct b.
  - apply kor_bind; [keeps_step | intros _].
    apply kor_bind; [keeps_step | intros _].
    apply kor_bind; [keeps_step | intros _].
    apply kor_mark.
  - apply kor_bind; [keeps_step | intros _].
    apply kor_bind; [keeps_step | intros significant].
    apply kor_bind; [|intros _; apply kor_mark].
    destruct significant;
      (apply keeps_bind; [keeps_step | intros _]);
      (apply keeps_bind; [keeps_step | intros _]);
      (apply keeps_bind; [keeps_step | intros _]);
      (apply keeps_bind; [keeps_step | intros _]);
      (apply keeps_bind; [keeps_step | intros url]);
      keeps_step.
Qed.

Lemma main_failed (w : world) :
  fst (main w) <> Returned -> no_write w (snd (main w)).
Proof.
  unfold ReleaseCheck.main.
  assert (H0 : no_write w (log (Print "Checking for Anki updates...") w))
    by now apply (no_write_logs [Print "Checking for Anki updates..."]).
  destruct (skip_test (log (Print "Checking for Anki updates...") w))
    as [[b|e] w1] eqn:Hs.
  - destruct (skip_test_inputs _ _ _ Hs) as (Hi & Ht & _).
    assert (H1 : no_write w w1).
    { apply (no_write_trans _ _ _ H0). split; [exact Hi|].
      exists []. now rewrite app_nil_r. }
    destruct b.
    + destruct (skip_recent w1) as [[u|e] w2] eqn:Hk; cbn [fst snd].
      * intros H. now elim H.
      * intros _. exact (no_write_trans _ _ _ H1 (keeps_skip_recent _ _ _ Hk)).
    + destruct (check_body w1) as [[u|e] w2] eqn:Hb; cbn [fst snd].
      * intros H. now elim H.
      * intros _.
        apply (no_write_trans _ _ _ H1).
        apply (no_write_trans _ _ _ (kor_check_body _ _ _ Hb)).
        now apply (no_write_logs [PrintExn (handler_message e) e]).
  - destruct (skip_test_inputs _ _ _ Hs) as (Hi & Ht & _).
    cbn [fst snd]. intros _.
    apply (no_write_trans _ _ _ H0). split; [exact Hi|].
    exists []. now rewrite app_nil_r.
Qed.

(** X18.  No run changes the version-mapping file.  Where writing the
    last-check file cannot fail, a run that does not return (it exits
    with status 1, or an exception escapes it) leaves the last-check file
    as it was as well and records no check: the next run is not skipped
    on its account. *)
Theorem X18_failed_run_marks_nothing (w : world) :
  version_file (snd (main w)) = version_file w /\
  (check_write_error w = None ->
   fst (main w) <> Returned ->
   check_file (snd (main w)) = check_file w /\
   exists evs : list event,
     trace (snd (main w)) = (trace w ++ evs)%list /\
     existsb is_write evs = false).
Proof.
  split.
  - destruct (main w) as [o w'] eqn:Hm.
    destruct o as [|status|e].
    + apply main_returned in Hm as (p & _ & _ & _ & ->).
      exact (proj1 (proj2 (proj2 (final_holds w p)))).
    + assert (Hf : fst (main w) <> Returned) by (rewrite Hm; discriminate).
      apply main_failed in Hf as [(_ & _ & _ & _ & _ & _ & _ & _ & Hv & _) _].
      now rewrite Hm in Hv.
    + assert (Hf : fst (main w) <> Returned) by (rewrite Hm; discriminate).
      apply main_failed in Hf as [(_ & _ & _ & _ & _ & _ & _ & _ & Hv & _) _].
      now rewrite Hm in Hv.
  - intros _ H.
    apply main_failed in H as [(_ & _ & _ & _ & _ & _ & _ & _ & _ & Hc) He].
    split; assumption.
Qed.

(** ** The forced check *)

(** X19.  With FORCE_CHECK set to [true] in any casing the last-check
    file is not read: whatever it holds, and whether it can be read or
    not, the run has the same outcome and the same events. *)
Theorem X19_forced_run_ignores_last_check (w : world) (f : file) :
  force_check w = true ->
  same_run (main w) (main (set_check_file f w)).
Proof.
  intros Hf.
  assert (Ha : alike json_load w (set_check_file f w))
    by (unfold alike; repeat split).
  assert (Hs : forall x : world,
             force_check x = true ->
             skip_test (log (Print "Checking for Anki updates...") x) =
               (Ok false, log (Print "Checking for Anki updates...") x)).
  { intros x Hx. unfold ReleaseCheck.skip_test.
    change (force_check (log (Print "Checking for Anki updates...") x))
      with (force_check x). now rewrite Hx. }
  apply RunFacts.main_alike; [exact Ha | |].
  - rewrite !Hs by exact Hf. reflexivity.
  - rewrite !Hs by exact Hf. cbn [snd]. unfold alike. repeat split.
Qed.

(** ** One run after another *)

(** X20.  The check that a run records stops the next run.  When a run
    that was not forced found no recent check and returned, and the
    library reads the timestamp that it wrote back, then a second run
    that starts in the world the first one left, and reads the clock less
    than two hours after the first one marked its check, finds the check
    recent: it returns on the skipped path, without a request. *)
Theorem X20_second_run_skipped (w w' : world) :
  force_check w = false ->
  not_recent w ->
  main w = (Returned, w') ->
  reads_mark (after_test w) ->
  clock w (ticks w') - clock w (Nat.pred (ticks w')) < two_hours ->
  recent w' /\
  main w' = (Returned, final w' Skipped) /\
  trace (final w' Skipped) =
    (trace w' ++ Print "Checking for Anki updates..." :: skip_events w')%list.
Proof.
  intros Hf Hn Hm Hr Hlt.
  apply main_returned in Hm
    as (p & Ht & Hw & _ & ->).
  destruct (final_holds w p)
    as (_ & Hc & _ & Hk & Hcl & Hfc & Ho).
  destruct (after_test_inputs w) as ((_ & _ & _ & _ & _ & Hac & _) & _).
  assert (Hp : is_skipped p = false).
  { destruct p; try reflexivity. destruct Ht as [_ Hrec].
    elim (recent_not_false w Hrec Hn). }
  rewrite Hp in Hc, Hk.
  assert (Hrec : recent (final w p)).
  { exists (mark_text (after_test w)),
      {| micros := clock (after_test w) (ticks (after_test w)); aware := false |}.
    split; [exact Hc|]. split; [exact Hr|]. split; [reflexivity|].
    cbn [micros]. rewrite Hcl, Hac. rewrite Hk in Hlt |- *. exact Hlt. }
  assert (Hff : force_check (final w p) = false)
    by (unfold force_check; now rewrite Hfc).
  split; [exact Hrec|]. split.
  - apply (main_returns (final w p) Skipped).
    + split; assumption.
    + now rewrite Ho.
    + discriminate.
  - exact (proj1 (final_holds (final w p) Skipped)).
Qed.

(** ** A last check with an offset *)

(** X21.  A last-check file whose timestamp carries an offset makes a
    run that is not forced fail before it requests or sets anything:
    subtracting it from the naive current time raises a [TypeError] that
    the reader does not handle and that is raised outside the [try]
    statement, so that it escapes [main]. *)
Theorem X21_aware_timestamp_uncaught
  (w : world) (text : string) (last : datetime) :
  force_check w = false ->
  check_file w = Holds text ->
  fromisoformat (strip text) = Ok last ->
  aware last = true ->
  main w = (Uncaught TypeError,
            tick (log (Print "Checking for Anki updates...") w)) /\
  exit_status (fst (main w)) = 1 /\
  trace (snd (main w)) = (trace w ++ [Print "Checking for Anki updates..."])%list.
Proof.
  intros Hf Hc Hp Ha.
  assert (Hm : main w = (Uncaught TypeError,
                         tick (log (Print "Checking for Anki updates...") w))).
  { unfold ReleaseCheck.main, ReleaseCheck.skip_test.
    change (force_check (log (Print "Checking for Anki updates...") w))
      with (force_check w).
    rewrite Hf. unfold ReleaseCheck.was_recently_checked.
    cbn [check_file log]. rewrite Hc, Hp, Ha. reflexivity. }
  rewrite Hm. repeat split.
Qed.

(** ** A saved version mapping *)

Variable json_dump : value -> string.



End Library.

(** ** The releases of AnkiBlur *)

(** X23.  [get_existing_ankiblur_releases] never lets an exception of
    the request through.  Without GITHUB_REPOSITORY, or with an empty
    one, it answers the empty list and requests nothing.  Otherwise it
    makes one request, and a request that fails, or an answer with a
    status from 400 to 599, gives the empty list, where
    [get_anki_releases] raises; the exceptions that it does raise are no
    [RequestException]s. *)
Theorem X23_existing_releases (w : world) :
  (BLUR_REPO w = EmptyString ->
   get_existing_ankiblur_releases w = (Ok (VList []), w)) /\
  (BLUR_REPO w <> EmptyString ->
   snd (get_existing_ankiblur_releases w) =
     log (HttpGet (existing_url w) (get_github_headers w)) w) /\
  (forall e : exn,
     fst (get_existing_ankiblur_releases w) = Raise e ->
     isinstance e RequestException = false) /\
  (forall e : exn,
     BLUR_REPO w <> EmptyString ->
     http w (existing_url w) = Raise e ->
     isinstance e RequestException = true ->
     fst (get_existing_ankiblur_releases w) = Ok (VList [])) /\
  (forall resp : response,
     BLUR_REPO w <> EmptyString ->
     http w (existing_url w) = Ok resp ->
     400 <= status_code resp < 600 ->
     fst (get_existing_ankiblur_releases w) = Ok (VList [])) /\
  (forall resp : response,
     http w releases_url = Ok resp ->
     400 <= status_code resp < 600 ->
     fst (get_anki_releases w) = Raise HTTPError).
Proof.
  unfold get_existing_ankiblur_releases, existing_url.
  destruct (BLUR_REPO w) as [|c repo] eqn:E.
  - split; [reflexivity|]. split; [intros H; now elim H|].
    split; [discriminate|]. split; [intros e H; now elim H|].
    split; [intros resp H; now elim H|].
    intros resp Hh Hs. unfold get_anki_releases.
    change ("https://api.github.com/repos/" ++ ANKI_REPO ++ "/releases")
      with releases_url.
    rewrite Hh.
    replace ((400 <=? status_code resp) && (status_code resp <? 600)) with true;
      [reflexivity|].
    symmetry. apply andb_true_intro. split; [apply Z.leb_le | apply Z.ltb_lt]; lia.
  - split; [discriminate|]. split.
    { intros _.
      destruct (http w ("https://api.github.com/repos/" ++ String c repo ++ "/releases"))
        as [resp|e].
      - destruct ((400 <=? status_code resp) && (status_code resp <? 600));
          [reflexivity|].
        destruct (json resp) as [v|e]; [reflexivity|].
        destruct (isinstance e RequestException); reflexivity.
      - destruct (isinstance e RequestException); reflexivity. }
    split.
    { intros e.
      destruct (http w ("https://api.github.com/repos/" ++ String c repo ++ "/releases"))
        as [resp|e0].
      - destruct ((400 <=? status_code resp) && (status_code resp <? 600));
          [discriminate|].
        destruct (json resp) as [v|e1]; [discriminate|].
        destruct (isinstance e1 RequestException) eqn:Hi; [discriminate|].
        cbn [fst]. intros H. injection H as <-. exact Hi.
      - destruct (isinstance e0 RequestException) eqn:Hi; [discriminate|].
        cbn [fst]. intros H. injection H as <-. exact Hi. }
    split.
    { intros e _ Hh Hi. rewrite Hh, Hi. reflexivity. }
    split.
    { intros resp _ Hh Hs. rewrite Hh.
      replace ((400 <=? status_code resp) && (status_code resp <? 600)) with true;
        [reflexivity|].
      symmetry. apply andb_true_intro.
      split; [apply Z.leb_le | apply Z.ltb_lt]; lia. }
    intros resp Hh Hs. unfold get_anki_releases.
    change ("https://api.github.com/repos/" ++ ANKI_REPO ++ "/releases")
      with releases_url.
    rewrite Hh.
    replace ((400 <=? status_code resp) && (status_code resp <? 600)) with true;
      [reflexivity|].
    symmetry. apply andb_true_intro. split; [apply Z.leb_le | apply Z.ltb_lt]; lia.
Qed.

(** ** Examples *)

Lemma X17_outputs_and_release_witness :
  let w := sample_world None sample_response Absent None in
  let w' := snd (ReleaseCheck.main sample_json_load sample_fromisoformat_more
                   sample_isoformat w) in
  exists (evs : list event) (release tag url : value),
    trace w' = (trace w ++ evs)%list /\
    latest w release tag /\
    subscript release "html_url" = Ok url /\
    printed "new_release" evs = [VStr "true"] /\
    printed "needs_review" evs = [VStr "false"] /\
    printed "anki_version" evs = [tag] /\
    printed "changes_url" evs = [url].
Proof.
  intros w w'.
  assert (Hm : ReleaseCheck.main sample_json_load sample_fromisoformat_more
                 sample_isoformat w = (Returned, w'))
    by (vm_compute; reflexivity).
  destruct (X17_outputs_and_release sample_json_load sample_fromisoformat_more
              sample_isoformat w w' Hm) as (evs & Ht & H1 & _).
  assert (He : evs = trace w') by (symmetry; exact Ht).
  assert (Hn : printed "new_release" evs = [VStr "true"])
    by (rewrite He; vm_compute; reflexivity).
  destruct (H1 Hn)
    as (release & tag & url & pre & dots & Hl & _ & _ & _ & _ & _ & Hu & Hr & Ha & Hc).
  exists evs, release, tag, url. repeat split; try assumption; apply Hl.
Defined.

Lemma X19_forced_run_ignores_last_check_witness :
  let w := sample_world (Some "TRUE") sample_response
             (Holds "1970-01-01T01:00:00+00:00") None in
  same_run
    (ReleaseCheck.main sample_json_load sample_fromisoformat_more
       sample_isoformat w)
    (ReleaseCheck.main sample_json_load sample_fromisoformat_more
       sample_isoformat (set_check_file Absent w)).
Proof.
  intros w.
  exact (X19_forced_run_ignores_last_check sample_json_load
           sample_fromisoformat_more sample_isoformat w Absent eq_refl).
Defined.

Lemma X20_second_run_skipped_witness :
  let w := sample_world None sample_response Absent None in
  let w' := snd (ReleaseCheck.main sample_json_load sample_fromisoformat_more
                   sample_isoformat w) in
  recent sample_fromisoformat_more w' /\
  ReleaseCheck.main sample_json_load sample_fromisoformat_more
    sample_isoformat w' =
    (Returned, final sample_fromisoformat_more sample_isoformat w' Skipped) /\
  trace (final sample_fromisoformat_more sample_isoformat w' Skipped) =
    (trace w' ++ Print "Checking for Anki updates..." :: skip_events w')%list.
Proof.
  intros w w'.
  assert (Hm : ReleaseCheck.main sample_json_load sample_fromisoformat_more
                 sample_isoformat w = (Returned, w'))
    by (vm_compute; reflexivity).
  refine (X20_second_run_skipped sample_json_load sample_fromisoformat_more
            sample_isoformat w w' eq_refl eq_refl Hm _ _).
  - vm_compute. reflexivity.
  - vm_compute. reflexivity.
Defined.

Lemma X21_aware_timestamp_uncaught_witness :
  let w := sample_world None sample_response
             (Holds "1970-01-01T01:00:00+00:00") None in
  ReleaseCheck.main sample_json_load sample_fromisoformat_more
    sample_isoformat w =
    (Uncaught TypeError, tick (log (Print "Checking for Anki updates...") w)) /\
  exit_status (fst (ReleaseCheck.main sample_json_load
                      sample_fromisoformat_more sample_isoformat w)) = 1 /\
  trace (snd (ReleaseCheck.main sample_json_load sample_fromisoformat_more
                sample_isoformat w)) =
    (trace w ++ [Print "Checking for Anki updates..."])%list.
Proof.
  intros w.
  exact (X21_aware_timestamp_uncaught sample_json_load
           sample_fromisoformat_more sample_isoformat w
           "1970-01-01T01:00:00+00:00"
           {| micros := 3600000000; aware := true |}
           eq_refl eq_refl eq_refl eq_refl).
Defined.


Lemma X13_version_already_built_witness :
  version_already_built (VStr "v25.02") sample_mapping = Ok true.
Proof.
  exact (proj1 (X13_version_already_built "v25.02"
                  [("1.0.0", VDict [("anki_version", VStr "25.02")])] VNone)
           eq_refl).
Defined.

Lemma X16_returning_runs_witness :
  let w := sample_world None sample_response Absent None in
  let w' := snd (ReleaseCheck.main sample_json_load sample_fromisoformat_more
                   sample_isoformat w) in
  exists p : path,
    taken sample_json_load sample_fromisoformat_more w p /\
    output_writable w = true /\
    (is_skipped p = false -> check_write_error w = None) /\
    w' = final sample_fromisoformat_more sample_isoformat w p.
Proof.
  intros w w'.
  assert (Hm : ReleaseCheck.main sample_json_load sample_fromisoformat_more
                 sample_isoformat w = (Returned, w'))
    by (vm_compute; reflexivity).
  exact (proj1 (proj1 (X16_returning_runs sample_json_load
                         sample_fromisoformat_more sample_isoformat w) w') Hm).
Defined.

Lemma X18_failed_run_marks_nothing_witness :
  let w := sample_world None (Raise ConnectionError)
             (Holds "1970-01-01T00:00:00") None in
  let r := ReleaseCheck.main sample_json_load sample_fromisoformat_more
             sample_isoformat w in
  check_file (snd r) = check_file w /\
  exists evs : list event,
    trace (snd r) = (trace w ++ evs)%list /\ existsb is_write evs = false.
Proof.
  intros w r.
  refine (proj2 (X18_failed_run_marks_nothing sample_json_load
                   sample_fromisoformat_more sample_isoformat w) eq_refl _).
  vm_compute. discriminate.
Defined.

Lemma X23_existing_releases_witness :
  let w := sample_repo_world (Raise ConnectionError) in
  let w' := sample_repo_world sample_not_found in
  fst (get_existing_ankiblur_releases w) = Ok (VList []) /\
  snd (get_existing_ankiblur_releases w) =
    log (HttpGet "https://api.github.com/repos/NullGates/AnkiBlur/releases"
           [("Accept", "application/vnd.github.v3+json")]) w /\
  fst (get_existing_ankiblur_releases w') = Ok (VList []) /\
  fst (get_anki_releases w') = Raise HTTPError /\
  get_existing_ankiblur_releases
    (sample_world None (Raise ConnectionError) Absent None) =
    (Ok (VList []), sample_world None (Raise ConnectionError) Absent None).
Proof.
  intros w w'.
  assert (Hw : BLUR_REPO w <> EmptyString) by discriminate.
  assert (Hw' : BLUR_REPO w' <> EmptyString) by discriminate.
  destruct (X23_existing_releases w) as (_ & A2 & _ & A4 & _).
  destruct (X23_existing_releases w') as (_ & _ & _ & _ & B5 & B6).
  split; [exact (A4 ConnectionError Hw eq_refl eq_refl)|].
  split; [exact (A2 Hw)|].
  split; [apply (B5 {| status_code := 404; json := Ok VNone |} Hw' eq_refl);
          cbn; lia|].
  split; [apply (B6 {| status_code := 404; json := Ok VNone |} eq_refl);
          cbn; lia|].
  exact (proj1 (X23_existing_releases
                  (sample_world None (Raise ConnectionError) Absent None))
           eq_refl).
Defined.

End MoreRunFacts.
